(** * circle-cctp-transfer: the cross-chain transfer saga of
      [src/cross-chain-transfer.js], embedded and verified.

    The script drives a custody API and an attestation API through a
    four-step saga (approve, burn, attest, mint).  Everything the script
    does to the outside world is an interaction with a scripted
    environment: a prompt on the terminal, a timer, a custody-API call or
    an HTTP request.  A run is a function from the environment to a
    result together with the list of interactions it performed, in order.
    Console output is not an interaction and is left out. *)

From Stdlib Require Import List String Ascii ZArith Bool Lia PeanoNat.
From Stdlib Require Import DecimalString.
From Stdlib Require Import Floats.PrimFloat.
Import ListNotations.
Local Open Scope string_scope.

(* ================================================================== *)
(** ** JavaScript strings and values *)

(** A string of the script is held as the bytes of its UTF-8 encoding:
    the ASCII characters the script compares with are one byte each, and
    whatever else a typed line or a response contains is kept as it is. *)

(** A JavaScript value that is either a string or [undefined]. *)
Definition JsStr := option string.

(** Truthiness of a string-or-undefined: [undefined] and the empty string
    are falsy. *)
Definition truthy (v : JsStr) : bool :=
  match v with
  | Some s => negb (s =? EmptyString)
  | None => false
  end.

(** A value inside a template literal. *)
Definition template (v : JsStr) : string :=
  match v with
  | Some s => s
  | None => "undefined"
  end.

(** [c.repeat(n)] for a one-character string. *)
Fixpoint repeatChar (c : ascii) (n : nat) : string :=
  match n with
  | O => EmptyString
  | S k => String c (repeatChar c k)
  end.

(** The UTF-16 code units a byte of the encoding stands for: none for a
    continuation byte, two for the lead byte of a four-byte character,
    one for any other byte. *)
Definition codeUnits (c : ascii) : nat :=
  let n := nat_of_ascii c in
  if (128 <=? n)%nat && (n <? 192)%nat then 0
  else if (240 <=? n)%nat then 2
  else 1.

(** [s.length]: the number of UTF-16 code units. *)
Fixpoint jsLength (s : string) : nat :=
  match s with
  | String c rest => codeUnits c + jsLength rest
  | EmptyString => 0
  end.

(** [s.padStart(n, c)]: pads on the left up to length [n], and never
    truncates. *)
Definition padStart (n : nat) (c : ascii) (s : string) : string :=
  repeatChar c (n - jsLength s) ++ s.

(** [s.replace(/^0x/, '')]: one leading, lower-case "0x" is removed. *)
Definition strip0x (s : string) : string :=
  match s with
  | String "0" (String "x" rest) => rest
  | _ => s
  end.

(** The white space of [trim] and of [parseInt]: the WhiteSpace and
    LineTerminator characters of the language, U+0009 to U+000D, U+0020,
    U+00A0, U+1680, U+2000 to U+200A, U+2028, U+2029, U+202F, U+205F,
    U+3000 and U+FEFF.  The three-byte ones, by their bytes: *)
Definition whiteSpace3 (b1 b2 b3 : nat) : bool :=
  (((b1 =? 225) && (b2 =? 154) && (b3 =? 128))                       (* U+1680 *)
   || ((b1 =? 226) && (b2 =? 128)
       && (((128 <=? b3) && (b3 <=? 138))                            (* U+2000-200A *)
           || (b3 =? 168) || (b3 =? 169) || (b3 =? 175)))            (* U+2028/9/F *)
   || ((b1 =? 226) && (b2 =? 129) && (b3 =? 159))                    (* U+205F *)
   || ((b1 =? 227) && (b2 =? 128) && (b3 =? 128))                    (* U+3000 *)
   || ((b1 =? 239) && (b2 =? 187) && (b3 =? 191)))%nat.              (* U+FEFF *)

(** What follows one white-space character at the head of [s]; [None]
    when [s] does not start with white space. *)
Definition skipWhiteSpace (s : string) : option string :=
  match s with
  | String c1 r1 =>
      let b1 := nat_of_ascii c1 in
      if (b1 =? 32)%nat || ((9 <=? b1)%nat && (b1 <=? 13)%nat) then Some r1
      else
        match r1 with
        | String c2 r2 =>
            let b2 := nat_of_ascii c2 in
            if (b1 =? 194)%nat && (b2 =? 160)%nat then Some r2       (* U+00A0 *)
            else
              match r2 with
              | String c3 r3 =>
                  if whiteSpace3 b1 b2 (nat_of_ascii c3) then Some r3 else None
              | EmptyString => None
              end
        | EmptyString => None
        end
  | EmptyString => None
  end.

(** White space is skipped at most [fuel] times: the length of the
    string is enough. *)
Fixpoint skipAll (fuel : nat) (s : string) : string :=
  match fuel with
  | O => s
  | S k =>
      match skipWhiteSpace s with
      | Some rest => skipAll k rest
      | None => s
      end
  end.

Definition trimStart (s : string) : string := skipAll (String.length s) s.

(** The string is empty or white space throughout. *)
Definition allWhitespace (s : string) : bool := trimStart s =? EmptyString.

(** The longest white-space end is cut off. *)
Fixpoint trimEnd (s : string) : string :=
  match s with
  | String c rest => if allWhitespace s then EmptyString else String c (trimEnd rest)
  | EmptyString => EmptyString
  end.

(** [s.trim()]. *)
Definition trim (s : string) : string := trimEnd (trimStart s).

Definition lowerChar (c : ascii) : ascii :=
  let n := nat_of_ascii c in
  if ((65 <=? n)%nat && (n <=? 90)%nat) then ascii_of_nat (n + 32) else c.

(** [s.toLowerCase()] on the letters A-Z. *)
Fixpoint toLowerCase (s : string) : string :=
  match s with
  | String c rest => String (lowerChar c) (toLowerCase rest)
  | EmptyString => EmptyString
  end.

(** [s.includes(sub)]. *)
Fixpoint includes (sub s : string) : bool :=
  String.prefix sub s ||
  match s with
  | String _ rest => includes sub rest
  | EmptyString => false
  end.

Definition isHexDigit (c : ascii) : bool :=
  let n := nat_of_ascii c in
  ((48 <=? n)%nat && (n <=? 57)%nat) ||
  ((65 <=? n)%nat && (n <=? 70)%nat) ||
  ((97 <=? n)%nat && (n <=? 102)%nat).

Fixpoint allHex (s : string) : bool :=
  match s with
  | String c rest => isHexDigit c && allHex rest
  | EmptyString => true
  end.

Definition digitValue (c : ascii) : option Z :=
  let n := nat_of_ascii c in
  if ((48 <=? n)%nat && (n <=? 57)%nat) then Some (Z.of_nat (n - 48))
  else if ((65 <=? n)%nat && (n <=? 70)%nat) then Some (Z.of_nat (n - 55))
  else if ((97 <=? n)%nat && (n <=? 102)%nat) then Some (Z.of_nat (n - 87))
  else None.

(** The longest prefix of digits below [radix], read as a number; [None]
    when there is no digit at all. *)
Fixpoint readDigits (radix : Z) (acc : option Z) (s : string) : option Z :=
  match s with
  | String c rest =>
      match digitValue c with
      | Some d =>
          if (d <? radix)%Z
          then readDigits radix
                 (Some (match acc with Some a => a * radix + d | None => d end)%Z)
                 rest
          else acc
      | None => acc
      end
  | EmptyString => acc
  end.

(** [parseInt(s)] without a radix: leading white space, a sign, an
    optional "0x"/"0X" for base sixteen, then digits.  [None] is NaN. *)
Definition parseInt (s : string) : option Z :=
  let s := trimStart s in
  let '(neg, s) :=
    match s with
    | String "-" r => (true, r)
    | String "+" r => (false, r)
    | _ => (false, s)
    end in
  let v :=
    match s with
    | String "0" (String "x" r) => readDigits 16 None r
    | String "0" (String "X" r) => readDigits 16 None r
    | _ => readDigits 10 None s
    end in
  match v with
  | Some n => Some (if neg then (- n)%Z else n)
  | None => None
  end.

(** [n.toString()] for an integer-valued number. *)
Definition intToString (n : Z) : string :=
  NilZero.string_of_int (Z.to_int n).

(* ================================================================== *)
(** ** Errors and results *)

(** What is thrown: the errors of the script, one constructor per [throw]
    site, and what the outside world throws or rejects with.  Of the
    latter the script only reads [message], which every value has or
    lacks in silence, except [null] and [undefined]. *)
Inductive Error : Type :=
| UnsupportedBlockchain (blockchain : string)
    (* new Error(`Unsupported blockchain: ${blockchain}`) *)
| TransactionTimeout (step : string)
    (* new Error(`Timeout waiting for ${step} transaction completion`) *)
| AttestationTimeout (maxAttempts : nat)
    (* new Error(`Timeout waiting for attestation after ${maxAttempts} attempts`) *)
| HttpError (status : Z) (statusText : string)
    (* new Error(`HTTP ${response.status}: ${response.statusText}`) *)
| CreationFailed (what : string)
    (* new Error("Failed to create <what> transaction") *)
| NoAttestation
    (* new Error("Failed to obtain attestation from Circle") *)
| TypeError (what : string)
    (* a property read on undefined or null *)
| External (message : string)
    (* an object thrown by the SDK, by fetch or by response.json() *)
| Nullish.
    (* null or undefined, thrown or rejected with by the outside world *)

Inductive Thrown (A : Type) : Type :=
| Returns (a : A)
| Throws (e : Error).
Arguments Returns {A} a.
Arguments Throws {A} e.

(* ================================================================== *)
(** ** Domain / address encoder *)

(** [getCCTPDomainId]: a [switch] with strict equality on the chain code. *)
Definition getCCTPDomainId (blockchain : string) : Thrown Z :=
  if blockchain =? "ETH" then Returns 0%Z
  else if blockchain =? "MATIC" then Returns 7%Z
  else if blockchain =? "AVAX" then Returns 1%Z
  else if blockchain =? "ETH-SEPOLIA" then Returns 0%Z
  else if blockchain =? "MATIC-AMOY" then Returns 7%Z
  else Throws (UnsupportedBlockchain blockchain).

(** [getMessageTransmitterAddress]. *)
Definition getMessageTransmitterAddress (blockchain : string) : Thrown string :=
  if blockchain =? "ETH" then Returns "0x0a992d191deec32afe36203ad87d7d289a738f81"
  else if blockchain =? "MATIC" then Returns "0xF3be9355363857F3e001be68856A2f96b4C39Ba9"
  else if blockchain =? "AVAX" then Returns "0x8186359aF5F57FbB40c6b14A588d2A59C0C29880"
  else if blockchain =? "ETH-SEPOLIA" then Returns "0x7865fAfC2db2093669d92c0F33AeEF291086BEFD"
  else if blockchain =? "MATIC-AMOY" then Returns "0x7865fAfC2db2093669d92c0F33AeEF291086BEFD"
  else Throws (UnsupportedBlockchain blockchain).

(** [addressToBytes32]: the body has no [throw]; the result type still
    allows one so that failure can be spoken about. *)
Definition addressToBytes32 (address : string) : Thrown string :=
  Returns ("0x" ++ padStart 64 "0" (strip0x address)).

(** The five chain codes of the lookup tables. *)
Definition supportedChains : list string :=
  ["ETH"; "MATIC"; "AVAX"; "ETH-SEPOLIA"; "MATIC-AMOY"].

(* ================================================================== *)
(** ** Data model: the fields the script reads *)

Module WalletSet.
Record t : Type := mk { id : string; name : string }.
End WalletSet.

Module Wallet.
Record t : Type := mk {
  id : string;
  address : string;
  blockchain : string;
  state : string;
  walletSetName : JsStr;
  walletSetId : JsStr
}.
End Wallet.

Module Token.
Record t : Type := mk { symbol : JsStr; name : JsStr }.
End Token.

Module TokenBalance.
Record t : Type := mk { token : option Token.t; amount : JsStr }.
End TokenBalance.

(** [txResponse.data?.transaction] of [getTransaction]. *)
Module Transaction.
Record t : Type := mk { state : JsStr; txHash : JsStr }.
End Transaction.

(** One element of [data.messages] of the attestation service. *)
Module Message.
Record t : Type := mk { message : JsStr; attestation : JsStr }.
End Message.

(** The JSON body of the attestation service. *)
Module Data.
Record t : Type := mk { messages : option (list Message.t) }.
End Data.

(** The object [waitForAttestation] returns. *)
Module Attestation.
Record t : Type := mk { message : JsStr; attestation : JsStr }.
End Attestation.

(** What the script reads of a [fetch] response; [ok] is the status being
    in the range 200-299.  [json] throws when [response.json()] rejects
    or when reading [data.messages] of the parsed body would. *)
Module Response.
Record t : Type := mk { status : Z; statusText : string; json : Thrown Data.t }.
Definition ok (r : t) : bool := ((200 <=? status r) && (status r <=? 299))%Z.
End Response.

Module Fee.
Record config_t : Type := mkConfig { feeLevel : string }.
Record t : Type := mk { type : string; config : config_t }.
End Fee.

(** The argument of [client.createContractExecutionTransaction]. *)
Module TxRequest.
Record t : Type := mk {
  walletId : string;
  contractAddress : JsStr;
  abiFunctionSignature : string;
  abiParameters : list JsStr;
  fee : Fee.t
}.
End TxRequest.

Module Network.
Record t : Type := mk { name : string; code : string; usdcContract : string }.
End Network.

(** [SUPPORTED_NETWORKS], in the order of the object literal. *)
Definition SUPPORTED_NETWORKS : list (string * Network.t) :=
  [ ("ETH", Network.mk "Ethereum Mainnet" "ETH" "0xA0b86a33E6441d7c4c5e2F4e7A1b7C4e5d6f7e8f");
    ("MATIC", Network.mk "Polygon Mainnet" "MATIC" "0x2791Bca1f2de4661ED88A30C99A7a9449Aa84174");
    ("AVAX", Network.mk "Avalanche C-Chain" "AVAX" "0xB97EF9Ef8734C71904D8002F8b6Bc66Dd9c48a6E");
    ("ETH-SEPOLIA", Network.mk "Ethereum Sepolia (Testnet)" "ETH-SEPOLIA" "0x1c7D4B196Cb0C7B01d743Fbc6116a902379C7238");
    ("MATIC-AMOY", Network.mk "Polygon Amoy (Testnet)" "MATIC-AMOY" "0x41E94Eb019C0762f9Bfcf9Fb1E58725BfB0e7582") ].

(** The names every object inherits from [Object.prototype]; an object
    literal answers to them as to its own keys. *)
Definition inheritedNames : list string :=
  ["constructor"; "hasOwnProperty"; "isPrototypeOf"; "propertyIsEnumerable";
   "toLocaleString"; "toString"; "valueOf"; "__proto__";
   "__defineGetter__"; "__defineSetter__"; "__lookupGetter__"; "__lookupSetter__"].

(** What [SUPPORTED_NETWORKS[blockchain]] evaluates to. *)
Inductive Entry : Type :=
| Own (network : Network.t)
    (* an entry of the literal *)
| Inherited (member : string)
    (* a member of Object.prototype: truthy, with no [usdcContract] *)
| Missing.
    (* undefined *)

(** The keys of the literal. *)
Fixpoint lookupNetwork (table : list (string * Network.t)) (blockchain : string)
  : option Network.t :=
  match table with
  | (k, v) :: rest => if k =? blockchain then Some v else lookupNetwork rest blockchain
  | [] => None
  end.

Definition supportedNetwork (blockchain : string) : option Network.t :=
  lookupNetwork SUPPORTED_NETWORKS blockchain.

(** [SUPPORTED_NETWORKS[blockchain]]: own keys first, then the prototype. *)
Definition entryOf (blockchain : string) : Entry :=
  match supportedNetwork blockchain with
  | Some network => Own network
  | None =>
      if existsb (String.eqb blockchain) inheritedNames
      then Inherited blockchain else Missing
  end.

(** The truthiness test [SUPPORTED_NETWORKS[wallet.blockchain]]. *)
Definition isSupported (blockchain : string) : bool :=
  match entryOf blockchain with
  | Missing => false
  | _ => true
  end.

(** [SUPPORTED_NETWORKS[blockchain].<field>]: a TypeError when the entry
    is undefined. *)
Definition networkOf (blockchain : string) : Thrown Entry :=
  match entryOf blockchain with
  | Missing => Throws (TypeError "SUPPORTED_NETWORKS[blockchain]")
  | entry => Returns entry
  end.

(** [entry.usdcContract]: undefined on an inherited member. *)
Definition usdcContractOf (entry : Entry) : JsStr :=
  match entry with
  | Own network => Some (Network.usdcContract network)
  | _ => None
  end.

(* ================================================================== *)
(** ** The environment and the interactions *)

(** The prompts of [askQuestion], by call site. *)
Inductive Prompt : Type :=
| AskSourceWallet (count : nat)
| AskDestinationWallet (count : nat)
| AskAmount (max : float)
| AskConfirm
| AskBurnHash
| AskSourceBlockchain
| AskMenuChoice.

(** The outside world.  The script is sequential and deterministic, so
    whatever the user and the custody API do in a run is a sequence of
    answers per kind of call: the [k]-th call of a kind gets the [k]-th
    answer.  The attestation service is asked by URL, which is what
    tells one burn from another: its answer to the [k]-th request may
    depend on the URL.  [parseFloat] and [Number.prototype.toString] are
    built-ins of the language, taken as given. *)
Record Env : Type := mkEnv {
  stdin : nat -> string;
  listWalletSets : nat -> Thrown (option (list WalletSet.t));
  listWallets : nat -> Thrown (option (list Wallet.t));
  getWalletTokenBalance : nat -> Thrown (option (list TokenBalance.t));
  createContractExecutionTransaction : nat -> Thrown JsStr;
  getTransaction : nat -> Thrown (option Transaction.t);
  fetch : string -> nat -> Thrown Response.t;
  parseFloat : string -> float;
  numberToString : float -> string
}.

(** How many calls of each kind have been made. *)
Record Pos : Type := mkPos {
  nAsked : nat;
  nWalletSets : nat;
  nWallets : nat;
  nBalances : nat;
  nCreated : nat;
  nChecked : nat;
  nFetched : nat
}.

Definition start : Pos := mkPos 0 0 0 0 0 0 0.

(** One interaction, with what came back. *)
Inductive Event : Type :=
| EvQuestion (prompt : Prompt) (answer : string)
| EvSleep (ms : Z)
| EvListWalletSets (resp : Thrown (option (list WalletSet.t)))
| EvListWallets (walletSetId : string) (resp : Thrown (option (list Wallet.t)))
| EvGetWalletTokenBalance (id : string) (resp : Thrown (option (list TokenBalance.t)))
| EvCreateTx (req : TxRequest.t) (resp : Thrown JsStr)
| EvGetTransaction (id : string) (resp : Thrown (option Transaction.t))
| EvFetch (url : string) (resp : Thrown Response.t).

(** The outcome of running a piece of the script: its result, the calls
    counted so far, and the interactions it performed, oldest first. *)
Record Out (A : Type) : Type := mkOut {
  res : Thrown A;
  pos : Pos;
  evs : list Event
}.
Arguments mkOut {A} res pos evs.
Arguments res {A} o.
Arguments pos {A} o.
Arguments evs {A} o.

Definition M (A : Type) : Type := Env -> Pos -> Out A.

Definition ret {A} (a : A) : M A := fun _ p => mkOut (Returns a) p [].

Definition throw {A} (e : Error) : M A := fun _ p => mkOut (Throws e) p [].

Definition bind {A B} (m : M A) (f : A -> M B) : M B :=
  fun env p =>
    let o := m env p in
    match res o with
    | Returns a =>
        let o' := f a env (pos o) in
        mkOut (res o') (pos o') (evs o ++ evs o')
    | Throws e => mkOut (Throws e) (pos o) (evs o)
    end.

(** [error.message], which every [catch] block of the script reads
    first: on [null] or [undefined] the read throws. *)
Definition messageOf (error : Error) : Thrown unit :=
  match error with
  | Nullish => Throws (TypeError "error.message")
  | _ => Returns tt
  end.

(** [try { m } catch (error) { ... error.message ... }]: the result or
    the error, as a value, once the handler has read the message; the
    TypeError of that read leaves the handler. *)
Definition tryCatch {A} (m : M A) : M (Thrown A) :=
  fun env p =>
    let o := m env p in
    match res o with
    | Returns a => mkOut (Returns (Returns a)) (pos o) (evs o)
    | Throws error =>
        match messageOf error with
        | Returns _ => mkOut (Returns (Throws error)) (pos o) (evs o)
        | Throws typeError => mkOut (Throws typeError) (pos o) (evs o)
        end
    end.

(** A pure computation that may throw. *)
Definition lift {A} (t : Thrown A) : M A := fun _ p => mkOut t p [].

Notation "x <- m ;; k" := (bind m (fun x => k))
  (at level 61, m at next level, right associativity).
Notation "m ;;; k" := (bind m (fun _ => k))
  (at level 61, right associativity).

(** *** The calls on the outside world *)

(** [askQuestion]: resolves with the trimmed line. *)
Definition askQuestion (question : Prompt) : M string :=
  fun env p =>
    let answer := trim (stdin env (nAsked p)) in
    mkOut (Returns answer)
          (mkPos (S (nAsked p)) (nWalletSets p) (nWallets p) (nBalances p)
                 (nCreated p) (nChecked p) (nFetched p))
          [EvQuestion question answer].

(** [await new Promise(resolve => setTimeout(resolve, ms))]. *)
Definition sleep (ms : Z) : M unit :=
  fun _ p => mkOut (Returns tt) p [EvSleep ms].

Definition client_listWalletSets : M (option (list WalletSet.t)) :=
  fun env p =>
    let r := listWalletSets env (nWalletSets p) in
    mkOut r
          (mkPos (nAsked p) (S (nWalletSets p)) (nWallets p) (nBalances p)
                 (nCreated p) (nChecked p) (nFetched p))
          [EvListWalletSets r].

Definition client_listWallets (walletSetId : string) : M (option (list Wallet.t)) :=
  fun env p =>
    let r := listWallets env (nWallets p) in
    mkOut r
          (mkPos (nAsked p) (nWalletSets p) (S (nWallets p)) (nBalances p)
                 (nCreated p) (nChecked p) (nFetched p))
          [EvListWallets walletSetId r].

Definition client_getWalletTokenBalance (id : string)
  : M (option (list TokenBalance.t)) :=
  fun env p =>
    let r := getWalletTokenBalance env (nBalances p) in
    mkOut r
          (mkPos (nAsked p) (nWalletSets p) (nWallets p) (S (nBalances p))
                 (nCreated p) (nChecked p) (nFetched p))
          [EvGetWalletTokenBalance id r].

(** [client.createContractExecutionTransaction(req)], read through
    [response.data?.id]. *)
Definition client_createContractExecutionTransaction (req : TxRequest.t) : M JsStr :=
  fun env p =>
    let r := createContractExecutionTransaction env (nCreated p) in
    mkOut r
          (mkPos (nAsked p) (nWalletSets p) (nWallets p) (nBalances p)
                 (S (nCreated p)) (nChecked p) (nFetched p))
          [EvCreateTx req r].

(** [client.getTransaction({id})], read through [data?.transaction]. *)
Definition client_getTransaction (id : string) : M (option Transaction.t) :=
  fun env p =>
    let r := getTransaction env (nChecked p) in
    mkOut r
          (mkPos (nAsked p) (nWalletSets p) (nWallets p) (nBalances p)
                 (nCreated p) (S (nChecked p)) (nFetched p))
          [EvGetTransaction id r].

Definition http_fetch (url : string) : M Response.t :=
  fun env p =>
    let r := fetch env url (nFetched p) in
    mkOut r
          (mkPos (nAsked p) (nWalletSets p) (nWallets p) (nBalances p)
                 (nCreated p) (nChecked p) (S (nFetched p)))
          [EvFetch url r].

(* ================================================================== *)
(** ** Transaction poller *)

(** What one pass through the body of a polling loop ends in. *)
Inductive Round (A : Type) : Type :=
| Done (a : A)        (* return a *)
| Again.              (* attempts++, next iteration *)
Arguments Done {A} a.
Arguments Again {A}.

(** The [try] block of [waitForTransactionCompletion]. *)
Definition checkTransaction (txId : string) : M (Round JsStr) :=
  sleep 30000 ;;;
  tx <- client_getTransaction txId ;;
  match tx with
  | Some tx =>
      match Transaction.state tx with
      | Some st => if st =? "CONFIRMED" then ret (Done (Transaction.txHash tx))
                   else ret Again
      | None => ret Again
      end
  | None => ret Again
  end.

(** The [while (attempts < maxAttempts)] loop, by the number of
    iterations left, [maxAttempts - attempts]; the [catch] counts an
    attempt and goes on. *)
Fixpoint transactionLoop (txId step : string) (remaining : nat) : M JsStr :=
  match remaining with
  | O => throw (TransactionTimeout step)
  | S k =>
      r <- tryCatch (checkTransaction txId) ;;
      match r with
      | Returns (Done txHash) => ret txHash
      | Returns Again => transactionLoop txId step k
      | Throws _ => transactionLoop txId step k
      end
  end.

(** The poller with its attempt budget as an argument. *)
Definition pollTransaction (maxAttempts : nat) (txId step : string) : M JsStr :=
  transactionLoop txId step maxAttempts.

(** [waitForTransactionCompletion]: [maxAttempts] is the constant 40. *)
Definition waitForTransactionCompletion (txId step : string) : M JsStr :=
  pollTransaction 40 txId step.

(* ================================================================== *)
(** ** Attestation poller *)

Definition apiHost : string := "https://iris-api-sandbox.circle.com".

Definition attestationUrl (sourceDomainId : Z) (burnTxHash : JsStr) : string :=
  apiHost ++ "/v1/messages/" ++ intToString sourceDomainId ++ "/" ++ template burnTxHash.

(** What the loop body makes of a received response. *)
Definition readAttestation (response : Response.t) : Thrown (Round Attestation.t) :=
  if negb (Response.ok response) then
    if (Response.status response =? 404)%Z then Returns Again
    else Throws (HttpError (Response.status response) (Response.statusText response))
  else
    match Response.json response with
    | Returns data =>
        match Data.messages data with
        | Some (message :: _) =>
            if truthy (Message.attestation message)
            then Returns (Done (Attestation.mk (Message.message message)
                                               (Message.attestation message)))
            else Returns Again
        | _ => Returns Again
        end
    | Throws e => Throws e
    end.

(** The [try] block of [waitForAttestation]. *)
Definition checkAttestation (url : string) : M (Round Attestation.t) :=
  sleep 30000 ;;;
  response <- http_fetch url ;;
  lift (readAttestation response).

Fixpoint attestationLoop (url : string) (maxAttempts remaining : nat)
  : M (option Attestation.t) :=
  match remaining with
  | O => throw (AttestationTimeout maxAttempts)
  | S k =>
      r <- tryCatch (checkAttestation url) ;;
      match r with
      | Returns (Done a) => ret (Some a)
      | Returns Again => attestationLoop url maxAttempts k
      | Throws _ => attestationLoop url maxAttempts k
      end
  end.

(** [waitForAttestation]: the domain lookup is outside the [try]; the
    result is an object, never null. *)
Definition waitForAttestation (burnTxHash : JsStr) (sourceBlockchain : string)
  : M (option Attestation.t) :=
  sourceDomainId <- lift (getCCTPDomainId sourceBlockchain) ;;
  attestationLoop (attestationUrl sourceDomainId burnTxHash) 40 40.

(* ================================================================== *)
(** ** Wallet / balance lookup *)

Definition getEnv : M Env := fun env p => mkOut (Returns env) p [].

(** [v === s]. *)
Definition strictEq (v : JsStr) (s : string) : bool :=
  match v with
  | Some x => x =? s
  | None => false
  end.

(** The two assignments in [wallets.forEach]. *)
Definition annotate (walletSet : WalletSet.t) (wallet : Wallet.t) : Wallet.t :=
  Wallet.mk (Wallet.id wallet) (Wallet.address wallet) (Wallet.blockchain wallet)
            (Wallet.state wallet)
            (Some (WalletSet.name walletSet)) (Some (WalletSet.id walletSet)).

(** The [for (const walletSet of walletSets)] loop of [getAllWallets]; a
    set whose listing throws is skipped. *)
Fixpoint collectWallets (walletSets : list WalletSet.t) : M (list Wallet.t) :=
  match walletSets with
  | [] => ret []
  | walletSet :: rest =>
      r <- tryCatch (client_listWallets (WalletSet.id walletSet)) ;;
      let wallets :=
        match r with
        | Returns (Some wallets) => map (annotate walletSet) wallets
        | Returns None => []
        | Throws _ => []
        end in
      more <- collectWallets rest ;;
      ret (wallets ++ more)%list
  end.

Definition getAllWallets : M (list Wallet.t) :=
  r <- tryCatch
         (walletSetsResponse <- client_listWalletSets ;;
          let walletSets :=
            match walletSetsResponse with Some l => l | None => [] end in
          if (List.length walletSets =? 0)%nat then ret []
          else collectWallets walletSets) ;;
  match r with
  | Returns allWallets => ret allWallets
  | Throws _ => ret []
  end.

Definition getWalletBalance (walletId : string) : M (list TokenBalance.t) :=
  r <- tryCatch (client_getWalletTokenBalance walletId) ;;
  match r with
  | Returns (Some tokenBalances) => ret tokenBalances
  | Returns None => ret []
  | Throws _ => ret []
  end.

(** The predicate of [tokenBalances.find]. *)
Definition isUSDC (balance : TokenBalance.t) : bool :=
  match TokenBalance.token balance with
  | Some token =>
      strictEq (Token.symbol token) "USDC" ||
      match Token.name token with
      | Some n => includes "USD Coin" n
      | None => false
      end
  | None => false
  end.

Definition findUSDCBalance (env : Env) (tokenBalances : list TokenBalance.t) : float :=
  match find isUSDC tokenBalances with
  | Some usdcBalance => parseFloat env (template (TokenBalance.amount usdcBalance))
  | None => 0%float
  end.

(* ================================================================== *)
(** ** Transfer saga *)

Definition TokenMessenger : string := "0x9f3B8679c73C2Fef8b59B4f3444d4e156fb70AA5".

(** [(transferAmount * 1000000).toString()]. *)
Definition baseUnits (env : Env) (transferAmount : float) : string :=
  numberToString env (PrimFloat.mul transferAmount 1000000%float).

(** [if (!tx) throw new Error("Failed to create <what> transaction")]. *)
Definition requireId (what : string) (tx : JsStr) : Thrown string :=
  match tx with
  | Some id => if id =? EmptyString then Throws (CreationFailed what) else Returns id
  | None => Throws (CreationFailed what)
  end.

(** Lines 254-324 of [performCrossChainTransfer]: steps 1 and 2 of the
    inner [try], up to the hash of the confirmed burn. *)
Definition approveAndBurn (sourceWallet destinationWallet : Wallet.t)
           (transferAmount : float) : M JsStr :=
  env <- getEnv ;;
  (* Step 1: approve *)
  sourceNetwork <- lift (networkOf (Wallet.blockchain sourceWallet)) ;;
  approvalResponse <-
    client_createContractExecutionTransaction
      (TxRequest.mk
         (Wallet.id sourceWallet)
         (usdcContractOf sourceNetwork)
         "approve(address,uint256)"
         [Some TokenMessenger; Some (baseUnits env transferAmount)]
         (Fee.mk "level" (Fee.mkConfig "MEDIUM"))) ;;
  approvalTx <- lift (requireId "approval" approvalResponse) ;;
  approvalTxHash <- waitForTransactionCompletion approvalTx "Approval" ;;
  (* Step 2: burn *)
  lift (networkOf (Wallet.blockchain sourceWallet)) ;;;
  destinationDomain <- lift (getCCTPDomainId (Wallet.blockchain destinationWallet)) ;;
  encodedDestinationAddress <- lift (addressToBytes32 (Wallet.address destinationWallet)) ;;
  sourceNetwork' <- lift (networkOf (Wallet.blockchain sourceWallet)) ;;
  burnResponse <-
    client_createContractExecutionTransaction
      (TxRequest.mk
         (Wallet.id sourceWallet)
         (Some TokenMessenger)
         "depositForBurn(uint256,uint32,bytes32,address)"
         [Some (baseUnits env transferAmount);
          Some (intToString destinationDomain);
          Some encodedDestinationAddress;
          usdcContractOf sourceNetwork']
         (Fee.mk "level" (Fee.mkConfig "MEDIUM"))) ;;
  burnTx <- lift (requireId "burn" burnResponse) ;;
  waitForTransactionCompletion burnTx "Burn".

(** Lines 326-378 of [performCrossChainTransfer]: steps 3 and 4 of the
    inner [try]; the closing messages read the two network names. *)
Definition attestAndMint (burnTxHash : JsStr)
           (sourceWallet destinationWallet : Wallet.t) : M unit :=
  (* Step 3: attestation *)
  attestation <- waitForAttestation burnTxHash (Wallet.blockchain sourceWallet) ;;
  match attestation with
  | None => throw NoAttestation
  | Some attestation =>
      (* Step 4: mint *)
      lift (networkOf (Wallet.blockchain destinationWallet)) ;;;
      messageTransmitter <-
        lift (getMessageTransmitterAddress (Wallet.blockchain destinationWallet)) ;;
      mintResponse <-
        client_createContractExecutionTransaction
          (TxRequest.mk
             (Wallet.id destinationWallet)
             (Some messageTransmitter)
             "receiveMessage(bytes,bytes)"
             [Attestation.message attestation; Attestation.attestation attestation]
             (Fee.mk "level" (Fee.mkConfig "MEDIUM"))) ;;
      mintTx <- lift (requireId "mint" mintResponse) ;;
      mintTxHash <- waitForTransactionCompletion mintTx "Mint" ;;
      lift (networkOf (Wallet.blockchain sourceWallet)) ;;;
      lift (networkOf (Wallet.blockchain destinationWallet)) ;;;
      ret tt
  end.

(** The body of the inner [try], lines 254-378. *)
Definition transferBody (sourceWallet destinationWallet : Wallet.t)
           (transferAmount : float) : M unit :=
  burnTxHash <- approveAndBurn sourceWallet destinationWallet transferAmount ;;
  attestAndMint burnTxHash sourceWallet destinationWallet.

(** The inner [try { ... } catch (transferError) { ... }]: a failure is
    reported on the console and the function returns. *)
Definition transferSteps (sourceWallet destinationWallet : Wallet.t)
           (transferAmount : float) : M unit :=
  tryCatch (transferBody sourceWallet destinationWallet transferAmount) ;;;
  ret tt.

(** [parseInt(choice) - 1]; [None] is NaN. *)
Definition choiceIndex (choice : string) : option Z :=
  option_map (fun n => n - 1)%Z (parseInt choice).

(** [index < 0 || index >= length]; both comparisons are false on NaN. *)
Definition outOfRange (index : option Z) (length : nat) : bool :=
  match index with
  | Some i => (i <? 0)%Z || (Z.of_nat length <=? i)%Z
  | None => false
  end.

(** [array[index]]; [None] is undefined. *)
Definition arrayGet {A} (array : list A) (index : option Z) : option A :=
  match index with
  | Some i => if (i <? 0)%Z then None else nth_error array (Z.to_nat i)
  | None => None
  end.

(** The first use of a selected wallet reads a property of it. *)
Definition selected (what : string) (wallet : option Wallet.t) : Thrown Wallet.t :=
  match wallet with
  | Some w => Returns w
  | None => Throws (TypeError what)
  end.

(** Lines 143-251 of [performCrossChainTransfer], then the saga.  The
    console lines that read [SUPPORTED_NETWORKS[...].name] of a selected
    wallet are kept as lookups: a missing entry would throw there. *)
Definition transferDialogue : M unit :=
  env <- getEnv ;;
  allWallets <- getAllWallets ;;
  if (List.length allWallets =? 0)%nat then ret tt else
  let supportedWallets :=
    filter (fun wallet => isSupported (Wallet.blockchain wallet)
                          && (Wallet.state wallet =? "LIVE")) allWallets in
  if (List.length supportedWallets <? 2)%nat then ret tt else
  sourceChoice <- askQuestion (AskSourceWallet (List.length supportedWallets)) ;;
  let sourceIndex := choiceIndex sourceChoice in
  if outOfRange sourceIndex (List.length supportedWallets) then ret tt else
  sourceWallet <- lift (selected "sourceWallet.address"
                                 (arrayGet supportedWallets sourceIndex)) ;;
  lift (networkOf (Wallet.blockchain sourceWallet)) ;;;
  sourceBalances <- getWalletBalance (Wallet.id sourceWallet) ;;
  let sourceUSDCBalance := findUSDCBalance env sourceBalances in
  if PrimFloat.leb sourceUSDCBalance 0%float then ret tt else
  let destinationWallets :=
    filter (fun wallet => negb (Wallet.blockchain wallet
                                =? Wallet.blockchain sourceWallet)) supportedWallets in
  if (List.length destinationWallets =? 0)%nat then ret tt else
  destChoice <- askQuestion (AskDestinationWallet (List.length destinationWallets)) ;;
  let destIndex := choiceIndex destChoice in
  if outOfRange destIndex (List.length destinationWallets) then ret tt else
  destinationWallet <- lift (selected "destinationWallet.address"
                                      (arrayGet destinationWallets destIndex)) ;;
  lift (networkOf (Wallet.blockchain destinationWallet)) ;;;
  amountInput <- askQuestion (AskAmount sourceUSDCBalance) ;;
  let transferAmount := parseFloat env amountInput in
  if PrimFloat.is_nan transferAmount || PrimFloat.leb transferAmount 0%float
  then ret tt else
  if PrimFloat.ltb sourceUSDCBalance transferAmount then ret tt else
  lift (networkOf (Wallet.blockchain sourceWallet)) ;;;
  lift (networkOf (Wallet.blockchain destinationWallet)) ;;;
  confirmation <- askQuestion AskConfirm ;;
  if negb (toLowerCase confirmation =? "yes") && negb (toLowerCase confirmation =? "y")
  then ret tt else
  transferSteps sourceWallet destinationWallet transferAmount.

(** [performCrossChainTransfer]: the outer [try/catch] reports whatever
    escapes and returns. *)
Definition performCrossChainTransfer : M unit :=
  tryCatch transferDialogue ;;;
  ret tt.

(* ================================================================== *)
(** ** Recovery entry *)

(** Line 416: [sourceChoice === "1" ? "ETH-SEPOLIA" : "MATIC-AMOY"]. *)
Definition selectSourceBlockchain (sourceChoice : string) : string :=
  if sourceChoice =? "1" then "ETH-SEPOLIA" else "MATIC-AMOY".

(** Lines 445-494 of [recoverFromBurn]: the body of the [try]. *)
Definition recoverBody (burnTxHash sourceBlockchain : string)
           (destinationWallet : Wallet.t) : M unit :=
  attestation <- waitForAttestation (Some burnTxHash) sourceBlockchain ;;
  match attestation with
  | None => throw NoAttestation
  | Some attestation =>
      lift (networkOf (Wallet.blockchain destinationWallet)) ;;;
      messageTransmitter <-
        lift (getMessageTransmitterAddress (Wallet.blockchain destinationWallet)) ;;
      mintResponse <-
        client_createContractExecutionTransaction
          (TxRequest.mk
             (Wallet.id destinationWallet)
             (Some messageTransmitter)
             "receiveMessage(bytes,bytes)"
             [Attestation.message attestation; Attestation.attestation attestation]
             (Fee.mk "level" (Fee.mkConfig "MEDIUM"))) ;;
      mintTx <- lift (requireId "mint" mintResponse) ;;
      mintTxHash <- waitForTransactionCompletion mintTx "Mint" ;;
      ret tt
  end.

(** The [try { ... } catch (error) { ... }] of [recoverFromBurn]. *)
Definition recoverSteps (burnTxHash sourceBlockchain : string)
           (destinationWallet : Wallet.t) : M unit :=
  tryCatch (recoverBody burnTxHash sourceBlockchain destinationWallet) ;;;
  ret tt.

(** What follows the source-blockchain prompt: lines 418-499. *)
Definition recoverWith (burnTxHash sourceBlockchain : string) : M unit :=
  allWallets <- getAllWallets ;;
  let destinationWallets :=
    filter (fun wallet => negb (Wallet.blockchain wallet =? sourceBlockchain)
                          && isSupported (Wallet.blockchain wallet)) allWallets in
  if (List.length destinationWallets =? 0)%nat then ret tt else
  destChoice <- askQuestion (AskDestinationWallet (List.length destinationWallets)) ;;
  let destIndex := choiceIndex destChoice in
  if outOfRange destIndex (List.length destinationWallets) then ret tt else
  destinationWallet <- lift (selected "destinationWallet.address"
                                      (arrayGet destinationWallets destIndex)) ;;
  lift (networkOf (Wallet.blockchain destinationWallet)) ;;;
  recoverSteps burnTxHash sourceBlockchain destinationWallet.

(** [recoverFromBurn]: nothing catches an error outside the [try]. *)
Definition recoverFromBurn : M unit :=
  burnTxHash <- askQuestion AskBurnHash ;;
  if trim burnTxHash =? EmptyString then ret tt else
  sourceChoice <- askQuestion AskSourceBlockchain ;;
  let sourceBlockchain := selectSourceBlockchain sourceChoice in
  recoverWith burnTxHash sourceBlockchain.

(* ================================================================== *)
(** ** What is observed of a run *)

(** The transactions submitted to the custody API, in order. *)
Definition submitted (events : list Event) : list TxRequest.t :=
  flat_map (fun e => match e with EvCreateTx req _ => [req] | _ => [] end) events.

(** The number of status checks (calls of [getTransaction]). *)
Definition checks (events : list Event) : nat :=
  List.length (filter (fun e => match e with EvGetTransaction _ _ => true | _ => false end)
                      events).

(** The number of HTTP requests. *)
Definition fetches (events : list Event) : nat :=
  List.length (filter (fun e => match e with EvFetch _ _ => true | _ => false end)
                      events).

(** A status check that observed CONFIRMED, with the hash it carried. *)
Definition confirmedHash (r : Thrown (option Transaction.t)) : option JsStr :=
  match r with
  | Returns (Some tx) =>
      if strictEq (Transaction.state tx) "CONFIRMED"
      then Some (Transaction.txHash tx) else None
  | _ => None
  end.

(** A call that threw, or was rejected with, [null] or [undefined]. *)
Definition nullish {A} (r : Thrown A) : bool :=
  match r with
  | Throws Nullish => true
  | _ => false
  end.

(** A request to the attestation service whose round throws [null] or
    [undefined]: the request itself, or the reading of the body of a
    success response. *)
Definition nullishFetch (r : Thrown Response.t) : bool :=
  match r with
  | Returns response => Response.ok response && nullish (Response.json response)
  | Throws _ => nullish r
  end.

(** A response of the attestation service that contains a message with a
    non-empty attestation in first place: a success status, a body that
    parses, a non-empty [messages], [messages[0].attestation] truthy. *)
Definition attestedMessage (r : Thrown Response.t) : option Message.t :=
  match r with
  | Returns response =>
      if Response.ok response then
        match Response.json response with
        | Returns data =>
            match Data.messages data with
            | Some (m :: _) => if truthy (Message.attestation m) then Some m else None
            | _ => None
            end
        | Throws _ => None
        end
      else None
  | Throws _ => None
  end.

Definition attestationOf (m : Message.t) : Attestation.t :=
  Attestation.mk (Message.message m) (Message.attestation m).

(** The events of one polling round. *)
Definition txRound (txId : string) (r : Thrown (option Transaction.t)) : list Event :=
  [EvSleep 30000; EvGetTransaction txId r].

Definition fetchRound (url : string) (r : Thrown Response.t) : list Event :=
  [EvSleep 30000; EvFetch url r].

Definition isTxPoll (txId : string) (e : Event) : Prop :=
  e = EvSleep 30000 \/ exists r, e = EvGetTransaction txId r.

(** Advancing the call counters. *)
Definition checkedMore (k : nat) (p : Pos) : Pos :=
  mkPos (nAsked p) (nWalletSets p) (nWallets p) (nBalances p)
        (nCreated p) (k + nChecked p) (nFetched p).

Definition fetchedMore (k : nat) (p : Pos) : Pos :=
  mkPos (nAsked p) (nWalletSets p) (nWallets p) (nBalances p)
        (nCreated p) (nChecked p) (k + nFetched p).

Definition askedMore (k : nat) (p : Pos) : Pos :=
  mkPos (k + nAsked p) (nWalletSets p) (nWallets p) (nBalances p)
        (nCreated p) (nChecked p) (nFetched p).

(** A well-formed hex address: forty hex digits, with or without a
    leading "0x". *)
Definition wellFormedHexAddress (s : string) : bool :=
  (String.length (strip0x s) =? 40)%nat && allHex (strip0x s).

(** The mint transaction for a destination wallet and an attestation:
    the MessageTransmitter of the wallet's chain, [receiveMessage], the
    message and the attestation, a MEDIUM fee level. *)
Definition mintRequest (destinationWallet : Wallet.t) (messageTransmitter : string)
           (a : Attestation.t) : TxRequest.t :=
  TxRequest.mk (Wallet.id destinationWallet) (Some messageTransmitter)
               "receiveMessage(bytes,bytes)"
               [Attestation.message a; Attestation.attestation a]
               (Fee.mk "level" (Fee.mkConfig "MEDIUM")).

Definition approvalRequest (sourceWallet : Wallet.t) (usdcContract : JsStr)
           (amount : string) : TxRequest.t :=
  TxRequest.mk (Wallet.id sourceWallet) usdcContract
               "approve(address,uint256)"
               [Some TokenMessenger; Some amount]
               (Fee.mk "level" (Fee.mkConfig "MEDIUM")).

Definition burnRequest (sourceWallet : Wallet.t) (usdcContract : JsStr)
           (amount : string) (destinationDomain : Z)
           (encodedDestinationAddress : string) : TxRequest.t :=
  TxRequest.mk (Wallet.id sourceWallet) (Some TokenMessenger)
               "depositForBurn(uint256,uint32,bytes32,address)"
               [Some amount; Some (intToString destinationDomain);
                Some encodedDestinationAddress; usdcContract]
               (Fee.mk "level" (Fee.mkConfig "MEDIUM")).

(* ================================================================== *)
(** ** Scripted environments *)

Definition offline {A} : Thrown A := Throws (External "no response").

(** An environment in which nobody answers. *)
Definition silent : Env :=
  mkEnv (fun _ => EmptyString) (fun _ => offline) (fun _ => offline) (fun _ => offline)
        (fun _ => offline) (fun _ => offline) (fun _ _ => offline)
        (fun _ => PrimFloat.nan) (fun _ => "NaN").

(** The custody API reports the given transaction states, one per check. *)
Definition withStatuses (statuses : list Transaction.t) : Env :=
  mkEnv (stdin silent) (listWalletSets silent) (listWallets silent)
        (getWalletTokenBalance silent) (createContractExecutionTransaction silent)
        (fun k => nth k (map (fun tx => Returns (Some tx)) statuses) offline)
        (fetch silent) (parseFloat silent) (numberToString silent).

Definition PENDING : Transaction.t := Transaction.mk (Some "PENDING") None.
Definition CONFIRMED : Transaction.t := Transaction.mk (Some "CONFIRMED") (Some "0xb0b").

Definition notFound : Response.t :=
  Response.mk 404 "Not Found" (Throws (External "no body")).
Definition serverError : Response.t :=
  Response.mk 500 "Internal Server Error" (Throws (External "no body")).
Definition noMessages : Response.t :=
  Response.mk 200 "OK" (Returns (Data.mk (Some []))).
Definition attested : Response.t :=
  Response.mk 200 "OK"
    (Returns (Data.mk (Some [Message.mk (Some "0xfeed") (Some "0xbeef")]))).

(** The attestation service gives the listed responses, one per request. *)
Definition withResponses (responses : list Response.t) : Env :=
  mkEnv (stdin silent) (listWalletSets silent) (listWallets silent)
        (getWalletTokenBalance silent) (createContractExecutionTransaction silent)
        (getTransaction silent)
        (fun _ k => nth k (map Returns responses) offline)
        (parseFloat silent) (numberToString silent).

Definition sepoliaWallet : Wallet.t :=
  Wallet.mk "w-1" "0x1111111111111111111111111111111111111111" "ETH-SEPOLIA" "LIVE"
            None None.
Definition amoyWallet : Wallet.t :=
  Wallet.mk "w-2" "0x2222222222222222222222222222222222222222" "MATIC-AMOY" "LIVE"
            None None.
Definition mainSet : WalletSet.t := WalletSet.mk "set-1" "Main".

(** The end-to-end scenario: two live wallets on different test
    networks, 100 USDC on the first, the user picks wallets 1 and 1, asks
    for 50 and confirms; every transaction is confirmed at the first check
    and the attestation arrives at the second request.  The same world
    serves a recovery: read from the start, the typed lines are a burn
    hash, chain 1 and wallet 1. *)
Definition scenario (lines : list string) : Env :=
  mkEnv (fun k => nth k lines EmptyString)
        (fun _ => Returns (Some [mainSet]))
        (fun _ => Returns (Some [sepoliaWallet; amoyWallet]))
        (fun _ => Returns (Some [TokenBalance.mk (Some (Token.mk (Some "USDC") (Some "USD Coin")))
                                                 (Some "100")]))
        (fun k => Returns (Some (nth k ["tx-approve"; "tx-burn"; "tx-mint"] "tx-more")))
        (fun _ => Returns (Some CONFIRMED))
        (fun _ k => nth k [Returns notFound; Returns attested] offline)
        (fun s => if s =? "100" then 100%float
                  else if s =? "50" then 50%float else PrimFloat.nan)
        (fun x => if PrimFloat.eqb x 50000000%float then "50000000" else "NaN").

Definition transferScenario : Env := scenario ["1"; "1"; "50"; "yes"].
Definition recoveryScenario : Env := scenario ["0xb0b"; "1"; "1"].


(** The two wallets as [getAllWallets] hands them on. *)
Definition listedSepolia : Wallet.t := annotate mainSet sepoliaWallet.
Definition listedAmoy : Wallet.t := annotate mainSet amoyWallet.

(** The rounds of a transaction poll that starts at check number [from]. *)
Fixpoint txRounds (env : Env) (txId : string) (from count : nat) : list Event :=
  match count with
  | O => []
  | S c => txRound txId (getTransaction env from) ++ txRounds env txId (S from) c
  end.

(** The rounds of an attestation poll that starts at request number [from]. *)
Fixpoint fetchRounds (env : Env) (url : string) (from count : nat) : list Event :=
  match count with
  | O => []
  | S c => fetchRound url (fetch env url from) ++ fetchRounds env url (S from) c
  end.

(* ================================================================== *)
(** ** Specifications of runs *)

(** [sat env m Q]: in the environment [env], from every position, the
    result of [m] and the interactions it performs satisfy [Q]. *)
Definition sat {A} (env : Env) (m : M A) (Q : Thrown A -> list Event -> Prop) : Prop :=
  forall p, Q (res (m env p)) (evs (m env p)).

(** No transaction submitted, no status check, no HTTP request. *)
Definition idle (e : list Event) : Prop :=
  submitted e = [] /\ checks e = 0 /\ fetches e = 0.

(** An event of the attestation poll for a burn hash on a source chain. *)
Definition isAttestationPoll (sourceBlockchain : string) (burnTxHash : JsStr)
           (e : Event) : Prop :=
  e = EvSleep 30000
  \/ exists d r, getCCTPDomainId sourceBlockchain = Returns d
                 /\ e = EvFetch (attestationUrl d burnTxHash) r.

Definition mintSignature : string := "receiveMessage(bytes,bytes)".

(** The mint requests among the submitted transactions. *)
Definition mints (e : list Event) : list TxRequest.t :=
  filter (fun req => TxRequest.abiFunctionSignature req =? mintSignature) (submitted e).

(** The events [e] hold a burn that was submitted and then confirmed
    with hash [burnTxHash]: its submission, status checks, the check that
    saw CONFIRMED, and after that no submission and no other check. *)
Definition burnConfirmedIn (burnTxHash : JsStr) (e : list Event) : Prop :=
  exists e0 burnReq burnTx polls tx later,
    e = (e0 ++ EvCreateTx burnReq (Returns (Some burnTx))
            :: polls ++ EvGetTransaction burnTx (Returns (Some tx)) :: later)%list
    /\ TxRequest.abiFunctionSignature burnReq
       = "depositForBurn(uint256,uint32,bytes32,address)"
    /\ Forall (isTxPoll burnTx) polls
    /\ Transaction.state tx = Some "CONFIRMED"
    /\ Transaction.txHash tx = burnTxHash
    /\ submitted later = [] /\ checks later = 0.

(** The events [e] end in a response of the attestation service, asked
    for [burnTxHash], that carries the message and attestation which are
    the parameters of [req]. *)
Definition attestedJustBefore (burnTxHash : JsStr) (e : list Event)
           (req : TxRequest.t) : Prop :=
  exists before d r m,
    e = (before ++ [EvFetch (attestationUrl d burnTxHash) r])%list
    /\ attestedMessage r = Some m
    /\ TxRequest.abiParameters req = [Message.message m; Message.attestation m].

(** Steps 3 and 4 reached the mint: attestation polls that end in an
    attested response, the mint built from it, then status checks. *)
Definition attestedMint (sourceBlockchain : string) (burnTxHash : JsStr)
           (destinationWallet : Wallet.t) (e : list Event) : Prop :=
  exists d m fr polls messageTransmitter resp mintTx after,
    getCCTPDomainId sourceBlockchain = Returns d
    /\ getMessageTransmitterAddress (Wallet.blockchain destinationWallet)
       = Returns messageTransmitter
    /\ attestedMessage fr = Some m
    /\ e = (polls ++ EvFetch (attestationUrl d burnTxHash) fr
                  :: EvCreateTx (mintRequest destinationWallet messageTransmitter
                                             (attestationOf m)) resp
                  :: after)%list
    /\ Forall (isAttestationPoll sourceBlockchain burnTxHash) polls
    /\ Forall (isTxPoll mintTx) after.

(** Steps 3 and 4: attestation polls only, or an attested mint. *)
Definition stepsThreeFour (sourceBlockchain : string) (burnTxHash : JsStr)
           (destinationWallet : Wallet.t) (e : list Event) : Prop :=
  Forall (isAttestationPoll sourceBlockchain burnTxHash) e
  \/ attestedMint sourceBlockchain burnTxHash destinationWallet e.

Definition isApprovalOf (env : Env) (sourceWallet : Wallet.t) (transferAmount : float)
           (req : TxRequest.t) : Prop :=
  exists network,
    networkOf (Wallet.blockchain sourceWallet) = Returns network
    /\ req = approvalRequest sourceWallet (usdcContractOf network)
                             (baseUnits env transferAmount).

Definition isBurnOf (env : Env) (sourceWallet destinationWallet : Wallet.t)
           (transferAmount : float) (req : TxRequest.t) : Prop :=
  exists network d encoded,
    networkOf (Wallet.blockchain sourceWallet) = Returns network
    /\ getCCTPDomainId (Wallet.blockchain destinationWallet) = Returns d
    /\ addressToBytes32 (Wallet.address destinationWallet) = Returns encoded
    /\ req = burnRequest sourceWallet (usdcContractOf network)
                         (baseUnits env transferAmount) d encoded.

(** Steps 1 and 2: no HTTP request; the submissions are the approval,
    then the burn; a returned hash is that of the confirmed burn. *)
Definition stepsOneTwo (env : Env) (sourceWallet destinationWallet : Wallet.t)
           (transferAmount : float) (r : Thrown JsStr) (e : list Event) : Prop :=
  fetches e = 0
  /\ (submitted e = []
      \/ exists a, isApprovalOf env sourceWallet transferAmount a
                   /\ (submitted e = [a]
                       \/ exists b, isBurnOf env sourceWallet destinationWallet
                                             transferAmount b
                                    /\ submitted e = [a; b]))
  /\ (forall h, r = Returns h ->
                burnConfirmedIn h e
                /\ exists a b, isApprovalOf env sourceWallet transferAmount a
                               /\ isBurnOf env sourceWallet destinationWallet
                                           transferAmount b
                               /\ submitted e = [a; b]).

(** The four steps: steps 1 and 2, and when they gave a burn hash,
    steps 3 and 4 for that hash. *)
Definition saga (env : Env) (sourceWallet destinationWallet : Wallet.t)
           (transferAmount : float) (e : list Event) : Prop :=
  exists r e12 e34,
    e = (e12 ++ e34)%list
    /\ stepsOneTwo env sourceWallet destinationWallet transferAmount r e12
    /\ match r with
       | Returns h =>
           stepsThreeFour (Wallet.blockchain sourceWallet) h destinationWallet e34
       | Throws _ => e34 = []
       end.

(** What [getWalletBalance] makes of a response. *)
Definition balancesOf (resp : Thrown (option (list TokenBalance.t)))
  : list TokenBalance.t :=
  match resp with
  | Returns (Some tokenBalances) => tokenBalances
  | _ => []
  end.

(** The conditions under which the dialogue starts the saga. *)
Definition transferAdmitted (env : Env) (dialogue : list Event)
           (sourceWallet destinationWallet : Wallet.t) (transferAmount : float)
  : Prop :=
  exists balances,
    In (EvGetWalletTokenBalance (Wallet.id sourceWallet) balances) dialogue
    /\ Wallet.state sourceWallet = "LIVE"
    /\ isSupported (Wallet.blockchain sourceWallet) = true
    /\ Wallet.state destinationWallet = "LIVE"
    /\ isSupported (Wallet.blockchain destinationWallet) = true
    /\ Wallet.blockchain destinationWallet <> Wallet.blockchain sourceWallet
    /\ PrimFloat.is_nan transferAmount = false
    /\ PrimFloat.leb transferAmount 0%float = false
    /\ PrimFloat.ltb (findUSDCBalance env (balancesOf balances)) transferAmount = false.

(** A run of [performCrossChainTransfer]: a dialogue that submits
    nothing, then, if the transfer is admitted, the saga. *)
Definition transferRun (env : Env) (e : list Event) : Prop :=
  idle e
  \/ exists dialogue sourceWallet destinationWallet transferAmount e',
       e = (dialogue ++ e')%list
       /\ idle dialogue
       /\ transferAdmitted env dialogue sourceWallet destinationWallet transferAmount
       /\ saga env sourceWallet destinationWallet transferAmount e'.

(** A run of the recovery after its two prompts: wallet listing and a
    prompt, then steps 3 and 4 for a supported destination wallet off
    the source chain. *)
Definition recoveryRun (burnTxHash sourceBlockchain : string) (e : list Event) : Prop :=
  idle e
  \/ exists dialogue destinationWallet e',
       e = (dialogue ++ e')%list
       /\ idle dialogue
       /\ isSupported (Wallet.blockchain destinationWallet) = true
       /\ Wallet.blockchain destinationWallet <> sourceBlockchain
       /\ stepsThreeFour sourceBlockchain (Some burnTxHash) destinationWallet e'.

(* ================================================================== *)
(** ** The rest of the script *)

(** [getExplorerUrl]: the [default] branch returns a text, it does not
    throw. *)
Definition getExplorerUrl (blockchain : string) (txHash : JsStr) : string :=
  if blockchain =? "ETH" then "https://etherscan.io/tx/" ++ template txHash
  else if blockchain =? "MATIC" then "https://polygonscan.com/tx/" ++ template txHash
  else if blockchain =? "AVAX" then "https://snowtrace.io/tx/" ++ template txHash
  else if blockchain =? "ETH-SEPOLIA"
       then "https://sepolia.etherscan.io/tx/" ++ template txHash
  else if blockchain =? "MATIC-AMOY"
       then "https://amoy.polygonscan.com/tx/" ++ template txHash
  else "Unknown blockchain: " ++ blockchain.

(** [initializeClient], given what the SDK constructor does: [true], or
    [false] when it throws. *)
Definition initializeClient (sdk : Thrown unit) : M bool :=
  r <- tryCatch (lift sdk) ;;
  match r with
  | Returns _ => ret true
  | Throws _ => ret false
  end.

(** [main]. *)
Definition main (sdk : Thrown unit) : M unit :=
  initialized <- initializeClient sdk ;;
  if negb initialized then ret tt else
  choice <- askQuestion AskMenuChoice ;;
  if choice =? "1" then performCrossChainTransfer
  else if choice =? "2" then recoverFromBurn
  else ret tt.

(* ================================================================== *)
(** ** More to observe *)

(** The number of 30-second waits. *)
Definition sleeps (events : list Event) : nat :=
  List.length (filter (fun e => match e with EvSleep _ => true | _ => false end) events).

(** A wait, if it is one, is of 30 seconds. *)
Definition waitsHalfMinute (e : Event) : Prop :=
  match e with
  | EvSleep ms => ms = 30000%Z
  | _ => True
  end.

(** At most [c] status checks and [f] HTTP requests, as many waits as
    checks and requests together, each of 30 seconds. *)
Definition within (c f : nat) (e : list Event) : Prop :=
  checks e <= c /\ fetches e <= f /\ sleeps e = checks e + fetches e
  /\ Forall waitsHalfMinute e.

(** The submitted transactions with a given function signature. *)
Definition signed (signature : string) (e : list Event) : list TxRequest.t :=
  filter (fun req => TxRequest.abiFunctionSignature req =? signature) (submitted e).

Definition approveSignature : string := "approve(address,uint256)".
Definition burnSignature : string := "depositForBurn(uint256,uint32,bytes32,address)".

(** The calls of [listWallets], by wallet-set id, in order. *)
Definition listedSets (events : list Event) : list string :=
  flat_map (fun e => match e with EvListWallets id _ => [id] | _ => [] end) events.

(** The events [e] are an approval that was submitted and the status
    checks of it, the last of which saw CONFIRMED. *)
Definition approvalConfirmed (e : list Event) : Prop :=
  exists approvalReq approvalTx polls tx,
    e = (EvCreateTx approvalReq (Returns (Some approvalTx))
           :: polls ++ [EvGetTransaction approvalTx (Returns (Some tx))])%list
    /\ TxRequest.abiFunctionSignature approvalReq = approveSignature
    /\ Forall (isTxPoll approvalTx) polls
    /\ Transaction.state tx = Some "CONFIRMED".

(** A wallet as [getAllWallets] hands it on: one that a response of
    [listWallets] contained, tagged with a wallet set. *)
Definition listed (env : Env) (w : Wallet.t) : Prop :=
  exists walletSet raws raw k,
    listWallets env k = Returns (Some raws) /\ In raw raws /\ w = annotate walletSet raw.

(** The wallets that the listings among the events hand on: those of
    the [k]-th listing, tagged with the [k]-th wallet set. *)
Fixpoint tagged (walletSets : list WalletSet.t) (events : list Event) : list Wallet.t :=
  match walletSets, events with
  | walletSet :: sets, EvListWallets _ r :: rest =>
      (match r with
       | Returns (Some wallets) => map (annotate walletSet) wallets
       | _ => []
       end ++ tagged sets rest)%list
  | _, _ => []
  end.

(** A listing of wallets among the events was rejected with [null] or
    [undefined]. *)
Definition listingRejected (events : list Event) : bool :=
  existsb (fun e => match e with EvListWallets _ r => nullish r | _ => false end) events.

(** The wallets found by the events of a wallet listing: the listing of
    the sets, then the listings of their wallets; none when one of these
    was rejected with [null] or [undefined], which ends the loop and
    leaves the function by its [catch]. *)
Definition walletsIn (events : list Event) : list Wallet.t :=
  match events with
  | EvListWalletSets (Returns (Some walletSets)) :: rest =>
      if listingRejected rest then [] else tagged walletSets rest
  | _ => []
  end.

(** The answer picks [x] from the menu: it starts with a number between
    1 and the length of the menu, and [x] is the entry of that number. *)
Definition picked {A} (menu : list A) (answer : string) (x : A) : Prop :=
  exists k,
    parseInt answer = Some k
    /\ (1 <= k <= Z.of_nat (List.length menu))%Z
    /\ nth_error menu (Z.to_nat (k - 1)) = Some x.

(** The two menus of [performCrossChainTransfer] over the wallets of a
    listing, and what the two answers pick from them. *)
Definition chosenWallets (listing : list Event) (n1 : nat) (a1 : string)
           (n2 : nat) (a2 : string) (sourceWallet destinationWallet : Wallet.t) : Prop :=
  let supportedWallets :=
    filter (fun wallet => isSupported (Wallet.blockchain wallet)
                          && (Wallet.state wallet =? "LIVE")) (walletsIn listing) in
  let destinationWallets :=
    filter (fun wallet => negb (Wallet.blockchain wallet
                                =? Wallet.blockchain sourceWallet)) supportedWallets in
  n1 = List.length supportedWallets
  /\ n2 = List.length destinationWallets
  /\ picked supportedWallets a1 sourceWallet
  /\ picked destinationWallets a2 destinationWallet.

(** The menu of [recoverFromBurn] over the wallets of a listing, the
    wallet the answer picks, and the steps that follow, which submit
    nothing from another wallet. *)
Definition chosenDestination (sourceBlockchain : string) (e : list Event) : Prop :=
  exists listing answer destinationWallet steps,
    let destinationWallets :=
      filter (fun wallet => negb (Wallet.blockchain wallet =? sourceBlockchain)
                            && isSupported (Wallet.blockchain wallet))
             (walletsIn listing) in
    e = (listing
           ++ EvQuestion (AskDestinationWallet (List.length destinationWallets)) answer
           :: steps)%list
    /\ picked destinationWallets answer destinationWallet
    /\ forall req, In req (submitted e) ->
                   TxRequest.walletId req = Wallet.id destinationWallet.

(** The dialogue of [performCrossChainTransfer] that leads to the saga:
    wallet listing, then the source choice, the balance query, the
    destination choice, the amount and the confirmation. *)
Definition admittingDialogue (env : Env) (dialogue : list Event)
           (sourceWallet destinationWallet : Wallet.t) (transferAmount : float)
  : Prop :=
  exists listing n1 a1 k n2 a2 amountInput confirmation,
    let balances := getWalletTokenBalance env k in
    let balance := findUSDCBalance env (balancesOf balances) in
    dialogue
    = (listing ++ [EvQuestion (AskSourceWallet n1) a1;
                   EvGetWalletTokenBalance (Wallet.id sourceWallet) balances;
                   EvQuestion (AskDestinationWallet n2) a2;
                   EvQuestion (AskAmount balance) amountInput;
                   EvQuestion AskConfirm confirmation])%list
    /\ idle listing
    /\ 2 <= n1
    /\ PrimFloat.leb balance 0 = false
    /\ transferAmount = parseFloat env amountInput
    /\ (toLowerCase confirmation = "yes" \/ toLowerCase confirmation = "y")
    /\ transferAdmitted env dialogue sourceWallet destinationWallet transferAmount
    /\ listed env sourceWallet /\ listed env destinationWallet
    /\ chosenWallets listing n1 a1 n2 a2 sourceWallet destinationWallet.

(** [response.data?.walletSets || []]. *)
Definition setsOf (resp : Thrown (option (list WalletSet.t))) : list WalletSet.t :=
  match resp with
  | Returns (Some walletSets) => walletSets
  | _ => []
  end.

Definition walletsMore (k : nat) (p : Pos) : Pos :=
  mkPos (nAsked p) (nWalletSets p) (k + nWallets p) (nBalances p)
        (nCreated p) (nChecked p) (nFetched p).

(** The wallets [getAllWallets] gathers from the wallet sets, the first
    of which is listed by call number [from]. *)
Fixpoint gathered (env : Env) (walletSets : list WalletSet.t) (from : nat)
  : list Wallet.t :=
  match walletSets with
  | [] => []
  | walletSet :: rest =>
      (match listWallets env from with
       | Returns (Some wallets) => map (annotate walletSet) wallets
       | _ => []
       end ++ gathered env rest (S from))%list
  end.

(** More scripted environments. *)
Definition frozenWallet : Wallet.t :=
  Wallet.mk "w-3" "0x3333333333333333333333333333333333333333" "AVAX" "FROZEN"
            None None.

(** The scenario with other wallets and another balance response. *)
Definition scenarioWith (wallets : list Wallet.t)
           (balances : Thrown (option (list TokenBalance.t))) (lines : list string)
  : Env :=
  mkEnv (fun k => nth k lines EmptyString)
        (listWalletSets transferScenario)
        (fun _ => Returns (Some wallets))
        (fun _ => balances)
        (createContractExecutionTransaction transferScenario)
        (getTransaction transferScenario)
        (fetch transferScenario)
        (parseFloat transferScenario)
        (numberToString transferScenario).


(** The custody API rejects the third status check with [null]. *)
Definition rejectedCheck : Env :=
  mkEnv (stdin silent) (listWalletSets silent) (listWallets silent)
        (getWalletTokenBalance silent) (createContractExecutionTransaction silent)
        (fun k => if (k =? 2)%nat then Throws Nullish else Returns (Some PENDING))
        (fetch silent) (parseFloat silent) (numberToString silent).

(** The white-space characters of the language, as their UTF-8 bytes:
    U+0009 to U+000D, U+0020, U+00A0, U+1680, U+2000 to U+200A, U+2028,
    U+2029, U+202F, U+205F, U+3000, U+FEFF. *)
Definition utf8 (bytes : list nat) : string :=
  string_of_list_ascii (map ascii_of_nat bytes).

Definition whiteSpaceCharacters : list string :=
  map utf8
      [[9]; [10]; [11]; [12]; [13]; [32]; [194; 160]; [225; 154; 128];
       [226; 128; 128]; [226; 128; 129]; [226; 128; 130]; [226; 128; 131];
       [226; 128; 132]; [226; 128; 133]; [226; 128; 134]; [226; 128; 135];
       [226; 128; 136]; [226; 128; 137]; [226; 128; 138];
       [226; 128; 168]; [226; 128; 169]; [226; 128; 175];
       [226; 129; 159]; [227; 128; 128]; [239; 187; 191]].

(** A line made of white-space characters only. *)
Definition blank (line : string) : Prop :=
  exists characters,
    Forall (fun c => In c whiteSpaceCharacters) characters
    /\ line = fold_right append EmptyString characters.

(** The recovery scenario in which the listing of the wallet sets is
    rejected with [null]. *)
Definition setsRejectedWithNull : Env :=
  mkEnv (stdin recoveryScenario)
        (fun _ => Throws Nullish)
        (listWallets recoveryScenario)
        (getWalletTokenBalance recoveryScenario)
        (createContractExecutionTransaction recoveryScenario)
        (getTransaction recoveryScenario)
        (fetch recoveryScenario)
        (parseFloat recoveryScenario)
        (numberToString recoveryScenario).



(** The scenario with a USDC entry that has no [amount]. *)
Definition unreadableBalance : Env :=
  scenarioWith [sepoliaWallet; amoyWallet]
               (Returns (Some [TokenBalance.mk
                                 (Some (Token.mk (Some "USDC") (Some "USD Coin"))) None]))
               ["1"; "1"; "50"; "yes"].

(** The scenario with a first wallet on a chain whose name is a member
    of [Object.prototype]. *)
Definition inheritedWallet : Wallet.t :=
  Wallet.mk "w-5" "0x5555555555555555555555555555555555555555" "constructor" "LIVE"
            None None.

Definition inheritedChain : Env :=
  scenarioWith [inheritedWallet; amoyWallet]
               (getWalletTokenBalance transferScenario 0)
               ["1"; "1"; "50"; "yes"].

(** Wherever a burn is submitted among the events, what comes before it
    ends in an approval that was submitted and then seen CONFIRMED, and
    nothing was submitted before that approval. *)
Definition burnGuarded (e : list Event) : Prop :=
  forall pre req resp post,
    e = (pre ++ EvCreateTx req resp :: post)%list ->
    TxRequest.abiFunctionSignature req = burnSignature ->
    exists before approval,
      pre = (before ++ approval)%list
      /\ submitted before = []
      /\ approvalConfirmed approval.

(** The prompts that were answered, in order, with the answers. *)
Definition answers (events : list Event) : list (Prompt * string) :=
  flat_map (fun e => match e with EvQuestion q a => [(q, a)] | _ => [] end) events.

(** The destination-wallet prompt was answered with a text that
    [parseInt] makes NaN of. *)
Definition destinationNotANumber (events : list Event) : Prop :=
  exists count answer,
    In (AskDestinationWallet count, answer) (answers events) /\ parseInt answer = None.

(** A submission was rejected with [null] or [undefined]. *)
Definition createRejected (e : list Event) : Prop :=
  exists req, In (EvCreateTx req (Throws Nullish)) e.

(** The listing of the wallet sets was rejected with [null] or
    [undefined]. *)
Definition setsRejected (events : list Event) : bool :=
  existsb (fun e => match e with EvListWalletSets r => nullish r | _ => false end) events.

(** How the recovery ends.  Normally: the destination choice was a
    number and no call outside a poller was rejected with [null] or
    [undefined].  With the TypeError of reading [address] of undefined,
    before any submission or poll: the destination choice was not a
    number.  With the TypeError of a handler that reads the message of
    [null] or [undefined]: the listing of the wallet sets was so
    rejected, and nothing was asked, submitted or polled after it; or the
    submission of the mint was. *)
Definition recoveryOutcome (r : Thrown unit) (e : list Event) : Prop :=
  (r = Returns tt
   /\ ~ destinationNotANumber e /\ setsRejected e = false /\ ~ createRejected e)
  \/ (r = Throws (TypeError "destinationWallet.address")
      /\ idle e /\ destinationNotANumber e /\ setsRejected e = false)
  \/ (r = Throws (TypeError "error.message")
      /\ ~ destinationNotANumber e
      /\ ((setsRejected e = true /\ idle e)
          \/ (setsRejected e = false /\ createRejected e))).

(** The fee every submitted transaction asks for. *)
Definition mediumFee : Fee.t := Fee.mk "level" (Fee.mkConfig "MEDIUM").

(* ================================================================== *)
(** * Properties *)

(** ** Running the monad *)

Lemma bind_unfold {A B} (m : M A) (f : A -> M B) env p :
  bind m f env p
  = match res (m env p) with
    | Returns a =>
        mkOut (res (f a env (pos (m env p)))) (pos (f a env (pos (m env p))))
              (evs (m env p) ++ evs (f a env (pos (m env p))))
    | Throws e => mkOut (Throws e) (pos (m env p)) (evs (m env p))
    end.
Proof. reflexivity. Qed.

Lemma checkedMore_0 p : checkedMore 0 p = p.
Proof. destruct p; reflexivity. Qed.

Lemma fetchedMore_0 p : fetchedMore 0 p = p.
Proof. destruct p; reflexivity. Qed.

Lemma checks_app a b : checks (a ++ b) = checks a + checks b.
Proof. unfold checks. rewrite filter_app, length_app. reflexivity. Qed.

Lemma fetches_app a b : fetches (a ++ b) = fetches a + fetches b.
Proof. unfold fetches. rewrite filter_app, length_app. reflexivity. Qed.

Lemma submitted_app a b : submitted (a ++ b) = (submitted a ++ submitted b)%list.
Proof. unfold submitted. apply flat_map_app. Qed.

Lemma checks_txRounds env txId from count :
  checks (txRounds env txId from count) = count.
Proof.
  revert from. induction count as [|c IH]; intro from; simpl.
  - reflexivity.
  - unfold checks in *. simpl. now rewrite IH.
Qed.

Lemma fetches_fetchRounds env url from count :
  fetches (fetchRounds env url from count) = count.
Proof.
  revert from. induction count as [|c IH]; intro from; simpl.
  - reflexivity.
  - unfold fetches in *. simpl. now rewrite IH.
Qed.

(** ** Transaction poller *)

(** One iteration: a check that observes CONFIRMED returns its hash; a
    check that throws [null] or [undefined] ends the poller with the
    TypeError of its handler; any other outcome, another thrown error
    included, goes to the next iteration with one attempt less. *)
Lemma transactionLoop_step env txId step k p :
  transactionLoop txId step (S k) env p
  = match confirmedHash (getTransaction env (nChecked p)) with
    | Some h =>
        mkOut (Returns h) (checkedMore 1 p)
              (txRound txId (getTransaction env (nChecked p)))
    | None =>
        if nullish (getTransaction env (nChecked p))
        then mkOut (Throws (TypeError "error.message")) (checkedMore 1 p)
                   (txRound txId (getTransaction env (nChecked p)))
        else
          let o := transactionLoop txId step k env (checkedMore 1 p) in
          mkOut (res o) (pos o)
                (txRound txId (getTransaction env (nChecked p)) ++ evs o)
    end.
Proof.
  cbn [transactionLoop]. unfold bind, tryCatch, checkTransaction, bind, sleep,
    client_getTransaction, confirmedHash, strictEq, checkedMore, txRound; cbn.
  destruct (getTransaction env (nChecked p)) as [[tx|]|e]; cbn; try reflexivity.
  - destruct (Transaction.state tx) as [st|]; cbn; try reflexivity.
    destruct (st =? "CONFIRMED"); cbn; reflexivity.
  - destruct e; cbn; reflexivity.
Qed.

Lemma checkedMore_S k p : checkedMore k (checkedMore 1 p) = checkedMore (S k) p.
Proof. unfold checkedMore; cbn. f_equal. lia. Qed.

Lemma transactionLoop_timeout env txId step n : forall p,
  (forall j, j < n -> confirmedHash (getTransaction env (j + nChecked p)) = None) ->
  (forall j, j < n -> nullish (getTransaction env (j + nChecked p)) = false) ->
  transactionLoop txId step n env p
  = mkOut (Throws (TransactionTimeout step)) (checkedMore n p)
          (txRounds env txId (nChecked p) n).
Proof.
  induction n as [|n IH]; intros p Hnone Hsound.
  - cbn. now rewrite checkedMore_0.
  - rewrite transactionLoop_step.
    pose proof (Hnone 0 ltac:(lia)) as H0. cbn in H0. rewrite H0.
    pose proof (Hsound 0 ltac:(lia)) as N0. cbn in N0. rewrite N0. cbn zeta.
    rewrite IH.
    + cbn [res pos evs txRounds]. now rewrite checkedMore_S.
    + intros j Hj. cbn. replace (j + S (nChecked p)) with (S j + nChecked p) by lia.
      apply Hnone. lia.
    + intros j Hj. cbn. replace (j + S (nChecked p)) with (S j + nChecked p) by lia.
      apply Hsound. lia.
Qed.

Lemma transactionLoop_confirmed env txId step n : forall k p h,
  k < n ->
  (forall j, j < k -> confirmedHash (getTransaction env (j + nChecked p)) = None) ->
  (forall j, j < k -> nullish (getTransaction env (j + nChecked p)) = false) ->
  confirmedHash (getTransaction env (k + nChecked p)) = Some h ->
  transactionLoop txId step n env p
  = mkOut (Returns h) (checkedMore (S k) p) (txRounds env txId (nChecked p) (S k)).
Proof.
  induction n as [|n IH]; intros k p h Hk Hnone Hsound Hconf; [lia|].
  rewrite transactionLoop_step.
  destruct k as [|k].
  - cbn in Hconf. rewrite Hconf. reflexivity.
  - pose proof (Hnone 0 ltac:(lia)) as H0. cbn in H0. rewrite H0.
    pose proof (Hsound 0 ltac:(lia)) as N0. cbn in N0. rewrite N0. cbn zeta.
    rewrite (IH k (checkedMore 1 p) h).
    + cbn [res pos evs]. rewrite checkedMore_S. reflexivity.
    + lia.
    + intros j Hj. cbn. replace (j + S (nChecked p)) with (S j + nChecked p) by lia.
      apply Hnone. lia.
    + intros j Hj. cbn. replace (j + S (nChecked p)) with (S j + nChecked p) by lia.
      apply Hsound. lia.
    + cbn. replace (k + S (nChecked p)) with (S k + nChecked p) by lia. exact Hconf.
Qed.

Lemma unconfirmed_nullish r : nullish r = true -> confirmedHash r = None.
Proof. destruct r as [r|e]; [discriminate | reflexivity]. Qed.

Lemma transactionLoop_nullish env txId step n : forall k p,
  k < n ->
  (forall j, j < k -> confirmedHash (getTransaction env (j + nChecked p)) = None) ->
  (forall j, j < k -> nullish (getTransaction env (j + nChecked p)) = false) ->
  nullish (getTransaction env (k + nChecked p)) = true ->
  transactionLoop txId step n env p
  = mkOut (Throws (TypeError "error.message")) (checkedMore (S k) p)
          (txRounds env txId (nChecked p) (S k)).
Proof.
  induction n as [|n IH]; intros k p Hk Hnone Hsound Hnull; [lia|].
  rewrite transactionLoop_step.
  destruct k as [|k].
  - cbn in Hnull. rewrite (unconfirmed_nullish _ Hnull), Hnull. reflexivity.
  - pose proof (Hnone 0 ltac:(lia)) as H0. cbn in H0. rewrite H0.
    pose proof (Hsound 0 ltac:(lia)) as N0. cbn in N0. rewrite N0. cbn zeta.
    rewrite (IH k (checkedMore 1 p)).
    + cbn [res pos evs]. rewrite checkedMore_S. reflexivity.
    + lia.
    + intros j Hj. cbn. replace (j + S (nChecked p)) with (S j + nChecked p) by lia.
      apply Hnone. lia.
    + intros j Hj. cbn. replace (j + S (nChecked p)) with (S j + nChecked p) by lia.
      apply Hsound. lia.
    + cbn. replace (k + S (nChecked p)) with (S k + nChecked p) by lia. exact Hnull.
Qed.

(** Whatever the responses, the loop makes at most [n] checks. *)
Lemma transactionLoop_budget env txId step n : forall p,
  checks (evs (transactionLoop txId step n env p)) <= n.
Proof.
  induction n as [|n IH]; intro p.
  - cbn. lia.
  - rewrite transactionLoop_step.
    destruct (confirmedHash (getTransaction env (nChecked p))).
    + cbn. lia.
    + destruct (nullish (getTransaction env (nChecked p))); [cbn; lia|].
      cbn zeta. cbn [evs]. rewrite checks_app.
      specialize (IH (checkedMore 1 p)). unfold checks at 1. cbn. lia.
Qed.

(** C2.  The transaction poller returns the hash carried by the first
    status check that observes CONFIRMED, never makes more than N checks,
    and fails with the timeout error when N checks pass without
    CONFIRMED.  [waitForTransactionCompletion] is the poller at N = 40.
    A check passes when it comes back with a status or throws an error
    with a message to log; a check that throws [null] or [undefined]
    ends the poller there, with the TypeError of its handler.  At N = 3
    the statuses PENDING, PENDING, CONFIRMED give the hash at the third
    check, and PENDING, PENDING, PENDING give the timeout. *)
Theorem waitForTransactionCompletion_first_confirmed_or_timeout :
  (forall env txId step p,
      waitForTransactionCompletion txId step env p
      = pollTransaction 40 txId step env p)
  /\ (forall env N txId step p,
        let o := pollTransaction N txId step env p in
        checks (evs o) <= N
        /\ (forall k h,
              k < N ->
              (forall j, j < k ->
                         confirmedHash (getTransaction env (j + nChecked p)) = None) ->
              (forall j, j < k ->
                         nullish (getTransaction env (j + nChecked p)) = false) ->
              confirmedHash (getTransaction env (k + nChecked p)) = Some h ->
              res o = Returns h /\ checks (evs o) = S k)
        /\ ((forall j, j < N ->
                       confirmedHash (getTransaction env (j + nChecked p)) = None) ->
            (forall j, j < N ->
                       nullish (getTransaction env (j + nChecked p)) = false) ->
            res o = Throws (TransactionTimeout step) /\ checks (evs o) = N)
        /\ (forall k,
              k < N ->
              (forall j, j < k ->
                         confirmedHash (getTransaction env (j + nChecked p)) = None) ->
              (forall j, j < k ->
                         nullish (getTransaction env (j + nChecked p)) = false) ->
              nullish (getTransaction env (k + nChecked p)) = true ->
              res o = Throws (TypeError "error.message") /\ checks (evs o) = S k))
  /\ (let o := pollTransaction 3 "tx" "Burn"
                 (withStatuses [PENDING; PENDING; CONFIRMED]) start in
      res o = Returns (Some "0xb0b") /\ checks (evs o) = 3)
  /\ (let o := pollTransaction 3 "tx" "Burn"
                 (withStatuses [PENDING; PENDING; PENDING]) start in
      res o = Throws (TransactionTimeout "Burn") /\ checks (evs o) = 3).
Proof.
  split; [reflexivity|]. split; [|split; split; reflexivity].
  intros env N txId step p o. subst o. unfold pollTransaction.
  split; [apply transactionLoop_budget|]. split; [|split].
  - intros k h Hk Hnone Hsound Hconf.
    rewrite (transactionLoop_confirmed env txId step N k p h Hk Hnone Hsound Hconf).
    cbn [res evs]. split; [reflexivity|]. apply checks_txRounds.
  - intros Hnone Hsound. rewrite (transactionLoop_timeout env txId step N p Hnone Hsound).
    cbn [res evs]. split; [reflexivity|]. apply checks_txRounds.
  - intros k Hk Hnone Hsound Hnull.
    rewrite (transactionLoop_nullish env txId step N k p Hk Hnone Hsound Hnull).
    cbn [res evs]. split; [reflexivity|]. apply checks_txRounds.
Qed.

(** ** Attestation poller *)

Lemma attestationLoop_step env url N k p :
  attestationLoop url N (S k) env p
  = match attestedMessage (fetch env url (nFetched p)) with
    | Some m =>
        mkOut (Returns (Some (attestationOf m))) (fetchedMore 1 p)
              (fetchRound url (fetch env url (nFetched p)))
    | None =>
        if nullishFetch (fetch env url (nFetched p))
        then mkOut (Throws (TypeError "error.message")) (fetchedMore 1 p)
                   (fetchRound url (fetch env url (nFetched p)))
        else
          let o := attestationLoop url N k env (fetchedMore 1 p) in
          mkOut (res o) (pos o)
                (fetchRound url (fetch env url (nFetched p)) ++ evs o)
    end.
Proof.
  cbn [attestationLoop]. unfold bind, tryCatch, checkAttestation, bind, sleep,
    http_fetch, lift, attestedMessage, nullishFetch, nullish, readAttestation,
    fetchedMore, fetchRound, attestationOf; cbn.
  destruct (fetch env url (nFetched p)) as [response|e]; cbn.
  - destruct (Response.ok response); cbn.
    + destruct (Response.json response) as [data|e]; cbn.
      * destruct (Data.messages data) as [[|m rest]|]; cbn; try reflexivity.
        destruct (truthy (Message.attestation m)); cbn; reflexivity.
      * destruct e; cbn; reflexivity.
    + destruct (Response.status response =? 404)%Z; cbn; reflexivity.
  - destruct e; cbn; reflexivity.
Qed.

Lemma fetchedMore_S k p : fetchedMore k (fetchedMore 1 p) = fetchedMore (S k) p.
Proof. unfold fetchedMore; cbn. f_equal. lia. Qed.

Lemma attestationLoop_timeout env url N n : forall p,
  (forall j, j < n -> attestedMessage (fetch env url (j + nFetched p)) = None) ->
  (forall j, j < n -> nullishFetch (fetch env url (j + nFetched p)) = false) ->
  attestationLoop url N n env p
  = mkOut (Throws (AttestationTimeout N)) (fetchedMore n p)
          (fetchRounds env url (nFetched p) n).
Proof.
  induction n as [|n IH]; intros p Hnone Hsound.
  - cbn. now rewrite fetchedMore_0.
  - rewrite attestationLoop_step.
    pose proof (Hnone 0 ltac:(lia)) as H0. cbn in H0. rewrite H0.
    pose proof (Hsound 0 ltac:(lia)) as N0. cbn in N0. rewrite N0. cbn zeta.
    rewrite IH.
    + cbn [res pos evs fetchRounds]. now rewrite fetchedMore_S.
    + intros j Hj. cbn. replace (j + S (nFetched p)) with (S j + nFetched p) by lia.
      apply Hnone. lia.
    + intros j Hj. cbn. replace (j + S (nFetched p)) with (S j + nFetched p) by lia.
      apply Hsound. lia.
Qed.

Lemma attestationLoop_attested env url N n : forall k p m,
  k < n ->
  (forall j, j < k -> attestedMessage (fetch env url (j + nFetched p)) = None) ->
  (forall j, j < k -> nullishFetch (fetch env url (j + nFetched p)) = false) ->
  attestedMessage (fetch env url (k + nFetched p)) = Some m ->
  attestationLoop url N n env p
  = mkOut (Returns (Some (attestationOf m))) (fetchedMore (S k) p)
          (fetchRounds env url (nFetched p) (S k)).
Proof.
  induction n as [|n IH]; intros k p m Hk Hnone Hsound Hatt; [lia|].
  rewrite attestationLoop_step.
  destruct k as [|k].
  - cbn in Hatt. rewrite Hatt. reflexivity.
  - pose proof (Hnone 0 ltac:(lia)) as H0. cbn in H0. rewrite H0.
    pose proof (Hsound 0 ltac:(lia)) as N0. cbn in N0. rewrite N0. cbn zeta.
    rewrite (IH k (fetchedMore 1 p) m).
    + cbn [res pos evs]. rewrite fetchedMore_S. reflexivity.
    + lia.
    + intros j Hj. cbn. replace (j + S (nFetched p)) with (S j + nFetched p) by lia.
      apply Hnone. lia.
    + intros j Hj. cbn. replace (j + S (nFetched p)) with (S j + nFetched p) by lia.
      apply Hsound. lia.
    + cbn. replace (k + S (nFetched p)) with (S k + nFetched p) by lia. exact Hatt.
Qed.

Lemma unattested_nullish r : nullishFetch r = true -> attestedMessage r = None.
Proof.
  unfold nullishFetch, attestedMessage, nullish.
  destruct r as [response|e]; [|reflexivity].
  destruct (Response.ok response); [|reflexivity].
  destruct (Response.json response) as [data|e]; [discriminate | reflexivity].
Qed.

Lemma attestationLoop_nullish env url N n : forall k p,
  k < n ->
  (forall j, j < k -> attestedMessage (fetch env url (j + nFetched p)) = None) ->
  (forall j, j < k -> nullishFetch (fetch env url (j + nFetched p)) = false) ->
  nullishFetch (fetch env url (k + nFetched p)) = true ->
  attestationLoop url N n env p
  = mkOut (Throws (TypeError "error.message")) (fetchedMore (S k) p)
          (fetchRounds env url (nFetched p) (S k)).
Proof.
  induction n as [|n IH]; intros k p Hk Hnone Hsound Hnull; [lia|].
  rewrite attestationLoop_step.
  destruct k as [|k].
  - cbn in Hnull. rewrite (unattested_nullish _ Hnull), Hnull. reflexivity.
  - pose proof (Hnone 0 ltac:(lia)) as H0. cbn in H0. rewrite H0.
    pose proof (Hsound 0 ltac:(lia)) as N0. cbn in N0. rewrite N0. cbn zeta.
    rewrite (IH k (fetchedMore 1 p)).
    + cbn [res pos evs]. rewrite fetchedMore_S. reflexivity.
    + lia.
    + intros j Hj. cbn. replace (j + S (nFetched p)) with (S j + nFetched p) by lia.
      apply Hnone. lia.
    + intros j Hj. cbn. replace (j + S (nFetched p)) with (S j + nFetched p) by lia.
      apply Hsound. lia.
    + cbn. replace (k + S (nFetched p)) with (S k + nFetched p) by lia. exact Hnull.
Qed.

Lemma fetches_fetchRound url r : fetches (fetchRound url r) = 1.
Proof. reflexivity. Qed.

Lemma attestationLoop_budget env url N n : forall p,
  fetches (evs (attestationLoop url N n env p)) <= n.
Proof.
  induction n as [|n IH]; intro p.
  - cbn. lia.
  - rewrite attestationLoop_step.
    destruct (attestedMessage (fetch env url (nFetched p))).
    + cbn [evs]. rewrite fetches_fetchRound. lia.
    + destruct (nullishFetch (fetch env url (nFetched p)));
        [cbn [evs]; rewrite fetches_fetchRound; lia|].
      cbn zeta. cbn [evs]. rewrite fetches_app, fetches_fetchRound.
      specialize (IH (fetchedMore 1 p)). lia.
Qed.

Lemma waitForAttestation_supported env burnTxHash sourceBlockchain d p :
  getCCTPDomainId sourceBlockchain = Returns d ->
  waitForAttestation burnTxHash sourceBlockchain env p
  = attestationLoop (attestationUrl d burnTxHash) 40 40 env p.
Proof.
  intro Hd. unfold waitForAttestation, bind, lift.
  cbv beta iota delta [res pos evs]. rewrite Hd.
  cbv beta iota delta [app].
  generalize (attestationLoop (attestationUrl d burnTxHash) 40 40 env p).
  intros [r q e]. reflexivity.
Qed.

(** C3.  On a supported source chain the attestation poller keeps polling
    after a 404, after any other non-success status and after a body with
    an empty [messages]; it returns the message and attestation of the
    first response whose [messages[0].attestation] is non-empty; and it
    fails with the attestation timeout when 40 requests bring none.  A
    request passes when it brings a response or throws an error with a
    message to log; a request, or the reading of a body, that throws
    [null] or [undefined] ends the poller there, with the TypeError of
    its handler. *)
Theorem waitForAttestation_retries_until_attested :
  forall env burnTxHash sourceBlockchain d p,
    getCCTPDomainId sourceBlockchain = Returns d ->
    let url := attestationUrl d burnTxHash in
    let o := waitForAttestation burnTxHash sourceBlockchain env p in
    (forall response k q,
        fetch env url (nFetched q) = Returns response ->
        (Response.status response = 404%Z
         \/ Response.ok response = false
         \/ exists data, Response.json response = Returns data
                         /\ Data.messages data = Some []) ->
        let next := attestationLoop url 40 k env (fetchedMore 1 q) in
        attestationLoop url 40 (S k) env q
        = mkOut (res next) (pos next) (fetchRound url (Returns response) ++ evs next))
    /\ (forall k m,
          k < 40 ->
          (forall j, j < k -> attestedMessage (fetch env url (j + nFetched p)) = None) ->
          (forall j, j < k -> nullishFetch (fetch env url (j + nFetched p)) = false) ->
          attestedMessage (fetch env url (k + nFetched p)) = Some m ->
          res o = Returns (Some (Attestation.mk (Message.message m)
                                                (Message.attestation m)))
          /\ fetches (evs o) = S k)
    /\ ((forall j, j < 40 -> attestedMessage (fetch env url (j + nFetched p)) = None) ->
        (forall j, j < 40 -> nullishFetch (fetch env url (j + nFetched p)) = false) ->
        res o = Throws (AttestationTimeout 40) /\ fetches (evs o) = 40)
    /\ (forall k,
          k < 40 ->
          (forall j, j < k -> attestedMessage (fetch env url (j + nFetched p)) = None) ->
          (forall j, j < k -> nullishFetch (fetch env url (j + nFetched p)) = false) ->
          nullishFetch (fetch env url (k + nFetched p)) = true ->
          res o = Throws (TypeError "error.message") /\ fetches (evs o) = S k)
    /\ fetches (evs o) <= 40.
Proof.
  intros env burnTxHash sourceBlockchain d p Hd url o. subst o.
  rewrite (waitForAttestation_supported _ _ _ _ _ Hd). fold url.
  split; [|split; [|split; [|split]]].
  - intros response k q Hr Hkind next. rewrite attestationLoop_step, Hr.
    assert (attestedMessage (Returns response) = None
            /\ nullishFetch (Returns response) = false) as [-> ->]; [|reflexivity].
    unfold attestedMessage, nullishFetch.
    destruct Hkind as [H404 | [Hok | (data & Hjson & Hmsgs)]].
    + unfold Response.ok. rewrite H404. split; reflexivity.
    + rewrite Hok. split; reflexivity.
    + rewrite Hjson, Hmsgs. destruct (Response.ok response); split; reflexivity.
  - intros k m Hk Hnone Hsound Hatt.
    rewrite (attestationLoop_attested env url 40 40 k p m Hk Hnone Hsound Hatt).
    cbn [res evs]. split; [reflexivity|]. apply fetches_fetchRounds.
  - intros Hnone Hsound. rewrite (attestationLoop_timeout env url 40 40 p Hnone Hsound).
    cbn [res evs]. split; [reflexivity|]. apply fetches_fetchRounds.
  - intros k Hk Hnone Hsound Hnull.
    rewrite (attestationLoop_nullish env url 40 40 k p Hk Hnone Hsound Hnull).
    cbn [res evs]. split; [reflexivity|]. apply fetches_fetchRounds.
  - apply attestationLoop_budget.
Qed.

(** A 404, a 500 and an empty [messages] are polled through; the fourth
    response carries the attestation. *)
Lemma waitForAttestation_retries_until_attested_witness :
  let o := waitForAttestation (Some "0xb0b") "ETH-SEPOLIA"
             (withResponses [notFound; serverError; noMessages; attested]) start in
  res o = Returns (Some (Attestation.mk (Some "0xfeed") (Some "0xbeef")))
  /\ fetches (evs o) = 4.
Proof.
  refine (proj1 (proj2 (waitForAttestation_retries_until_attested
            (withResponses [notFound; serverError; noMessages; attested])
            (Some "0xb0b") "ETH-SEPOLIA" 0%Z start eq_refl))
          3 (Message.mk (Some "0xfeed") (Some "0xbeef")) _ _ _ _).
  - lia.
  - intros j Hj. destruct j as [|[|[|j]]]; [reflexivity | reflexivity | reflexivity | lia].
  - intros j Hj. destruct j as [|[|[|j]]]; [reflexivity | reflexivity | reflexivity | lia].
  - reflexivity.
Defined.

(** ** Domain / address encoder *)

(** C4.  [getCCTPDomainId] maps ETH and ETH-SEPOLIA to 0, AVAX to 1, MATIC
    and MATIC-AMOY to 7, and throws the unsupported-blockchain error on
    every other input. *)
Theorem getCCTPDomainId_table :
  getCCTPDomainId "ETH" = Returns 0%Z
  /\ getCCTPDomainId "ETH-SEPOLIA" = Returns 0%Z
  /\ getCCTPDomainId "AVAX" = Returns 1%Z
  /\ getCCTPDomainId "MATIC" = Returns 7%Z
  /\ getCCTPDomainId "MATIC-AMOY" = Returns 7%Z
  /\ (forall blockchain, In blockchain supportedChains ->
                         exists d, getCCTPDomainId blockchain = Returns d)
  /\ (forall blockchain, ~ In blockchain supportedChains ->
                         getCCTPDomainId blockchain
                         = Throws (UnsupportedBlockchain blockchain)).
Proof.
  repeat (split; [reflexivity|]). split.
  - intros blockchain Hin. cbn in Hin.
    repeat (destruct Hin as [<- | Hin]; [eexists; reflexivity|]). contradiction.
  - intros blockchain Hnot. unfold getCCTPDomainId.
    repeat match goal with
           | |- context [String.eqb blockchain ?c] =>
               destruct (String.eqb_spec blockchain c) as [-> | _];
               [exfalso; apply Hnot; cbn; tauto|]
           end.
    reflexivity.
Qed.

Lemma length_append (s t : string) :
  String.length (s ++ t) = String.length s + String.length t.
Proof. induction s as [|c s IH]; cbn; [reflexivity | now rewrite IH]. Qed.

Lemma length_repeatChar c n : String.length (repeatChar c n) = n.
Proof. induction n as [|n IH]; cbn; [reflexivity | now rewrite IH]. Qed.

Lemma allHex_append s t : allHex (s ++ t) = allHex s && allHex t.
Proof.
  induction s as [|c s IH]; cbn; [reflexivity|].
  rewrite IH. now rewrite andb_assoc.
Qed.

Lemma allHex_zeros n : allHex (repeatChar "0" n) = true.
Proof. induction n as [|n IH]; cbn; [reflexivity | exact IH]. Qed.

Lemma jsLength_append s t : jsLength (s ++ t) = jsLength s + jsLength t.
Proof. induction s as [|c s IH]; cbn; [reflexivity | rewrite IH; lia]. Qed.

Lemma jsLength_zeros n : jsLength (repeatChar "0" n) = n.
Proof. induction n as [|n IH]; cbn; [reflexivity | now rewrite IH]. Qed.

(** Hex digits are one byte and one code unit each. *)
Lemma jsLength_hex s : allHex s = true -> jsLength s = String.length s.
Proof.
  induction s as [|c s IH]; cbn; [reflexivity|].
  intro H. apply andb_prop in H as [Hc Hs]. rewrite (IH Hs).
  replace (codeUnits c) with 1; [reflexivity|].
  unfold isHexDigit in Hc. unfold codeUnits.
  destruct ((128 <=? nat_of_ascii c)%nat) eqn:H128.
  - apply Nat.leb_le in H128.
    repeat (apply orb_prop in Hc as [Hc | Hc]);
      apply andb_prop in Hc as [_ Hc]; apply Nat.leb_le in Hc; lia.
  - cbn [andb]. destruct ((240 <=? nat_of_ascii c)%nat) eqn:H240; [|reflexivity].
    apply Nat.leb_le in H240. apply Nat.leb_gt in H128. lia.
Qed.

Lemma padStart_length n s :
  jsLength (padStart n "0" s) = Nat.max n (jsLength s).
Proof. unfold padStart. rewrite jsLength_append, jsLength_zeros. lia. Qed.

(** Padding an already padded string changes nothing. *)
Lemma padStart_idempotent n s :
  padStart n "0" (padStart n "0" s) = padStart n "0" s.
Proof.
  unfold padStart at 1. rewrite padStart_length.
  replace (n - Nat.max n (jsLength s)) with 0 by lia. reflexivity.
Qed.

(** The prefix the function writes is the prefix it strips. *)
Lemma strip0x_prefixed s : strip0x ("0x" ++ s) = s.
Proof. reflexivity. Qed.

(** What [strip0x] leaves is the input less one leading "0x", or the
    input itself when it has no such prefix. *)
Lemma strip0x_spec address :
  address = "0x" ++ strip0x address
  \/ (address = strip0x address /\ forall rest, address <> "0x" ++ rest).
Proof.
  destruct address as [|c1 r1]; [right; split; [reflexivity | discriminate]|].
  destruct (Ascii.eqb_spec c1 "0") as [-> | H1].
  - destruct r1 as [|c2 rest]; [right; split; [reflexivity | discriminate]|].
    destruct (Ascii.eqb_spec c2 "x") as [-> | H2]; [left; reflexivity|].
    right. split.
    + destruct c2 as [[] [] [] [] [] [] [] []]; try reflexivity.
      exfalso. now apply H2.
    + intros r [= E]. now apply H2.
  - right. split.
    + destruct c1 as [[] [] [] [] [] [] [] []]; try reflexivity.
      exfalso. now apply H1.
    + intros r [= E _]. now apply H1.
Qed.

(** C5, as the code has it.  [addressToBytes32] is idempotent on every
    string.  Its output is "0x", then as many zeros as the input, less
    one leading "0x", lacks to 64 characters, then that input: at least
    64 characters after the prefix, exactly 64 when what is padded has at
    most 64, and hex digits throughout when what is padded consists of
    hex digits. *)
Theorem addressToBytes32_idempotent :
  forall address,
    exists body,
      (address = "0x" ++ body
       \/ (address = body /\ forall rest, address <> "0x" ++ rest))
      /\ let zeros := repeatChar "0" (64 - jsLength body) in
         addressToBytes32 address = Returns ("0x" ++ zeros ++ body)
         /\ addressToBytes32 ("0x" ++ zeros ++ body) = Returns ("0x" ++ zeros ++ body)
         /\ 64 <= jsLength (zeros ++ body)
         /\ (jsLength body <= 64 -> jsLength (zeros ++ body) = 64)
         /\ (allHex body = true ->
             allHex (zeros ++ body) = true
             /\ String.length (zeros ++ body) = jsLength (zeros ++ body)).
Proof.
  intro address. exists (strip0x address).
  split; [apply strip0x_spec|]. cbv zeta.
  fold (padStart 64 "0" (strip0x address)).
  split; [reflexivity|]. split; [|split; [|split]].
  - unfold addressToBytes32. rewrite strip0x_prefixed, padStart_idempotent.
    reflexivity.
  - rewrite padStart_length. lia.
  - intro Hlen. rewrite padStart_length. lia.
  - intro Hhex.
    assert (Hall : allHex (padStart 64 "0" (strip0x address)) = true)
      by (unfold padStart; now rewrite allHex_append, allHex_zeros, Hhex).
    split; [exact Hall | symmetry; now apply jsLength_hex].
Qed.

(** A 65-digit input comes back with its 65 digits: the output does not
    always have exactly 64 hex characters. *)
Lemma addressToBytes32_longer_than_64 :
  ~ (exists body,
        addressToBytes32 "fffffffffffffffffffffffffffffffffffffffffffffffffffffffffffffffff"
        = Returns ("0x" ++ body)
        /\ String.length body = 64 /\ allHex body = true).
Proof.
  intros (body & Hout & Hlen & _). vm_compute in Hout.
  injection Hout as <-. vm_compute in Hlen. discriminate Hlen.
Qed.

(** C6, as the code has it.  [addressToBytes32] never fails.  On a
    well-formed hex address (forty hex digits, with or without "0x") it
    returns the 32-byte form: "0x", 24 zeros, the forty digits. *)
Theorem addressToBytes32_pads_and_never_fails :
  forall address,
    (exists encoded, addressToBytes32 address = Returns encoded)
    /\ (wellFormedHexAddress address = true ->
        addressToBytes32 address
        = Returns ("0x" ++ repeatChar "0" 24 ++ strip0x address)
        /\ String.length (repeatChar "0" 24 ++ strip0x address) = 64
        /\ allHex (repeatChar "0" 24 ++ strip0x address) = true).
Proof.
  intro address. split; [eexists; reflexivity|].
  unfold wellFormedHexAddress. intro Hwf.
  apply andb_prop in Hwf as [Hlen Hhex]. apply Nat.eqb_eq in Hlen.
  split; [|split].
  - unfold addressToBytes32, padStart. rewrite (jsLength_hex _ Hhex), Hlen. reflexivity.
  - rewrite length_append, length_repeatChar, Hlen. reflexivity.
  - now rewrite allHex_append, allHex_zeros, Hhex.
Qed.

(** The address of the scenario's destination wallet, with and without
    its prefix. *)
Lemma addressToBytes32_pads_and_never_fails_witness :
  addressToBytes32 "0x2222222222222222222222222222222222222222"
  = Returns "0x0000000000000000000000002222222222222222222222222222222222222222"
  /\ addressToBytes32 "2222222222222222222222222222222222222222"
     = Returns "0x0000000000000000000000002222222222222222222222222222222222222222".
Proof.
  split.
  - exact (proj1 (proj2 (addressToBytes32_pads_and_never_fails
                           "0x2222222222222222222222222222222222222222") eq_refl)).
  - exact (proj1 (proj2 (addressToBytes32_pads_and_never_fails
                           "2222222222222222222222222222222222222222") eq_refl)).
Defined.

(** An input that is no hex address is padded and returned, not
    rejected. *)
Lemma addressToBytes32_accepts_malformed :
  wellFormedHexAddress "not-an-address" = false
  /\ addressToBytes32 "not-an-address"
     = Returns "0x00000000000000000000000000000000000000000000000000not-an-address"
  /\ ~ (exists e, addressToBytes32 "not-an-address" = Throws e).
Proof.
  split; [reflexivity|]. split; [reflexivity|].
  intros (e & He). discriminate He.
Qed.

(** ** Reasoning about runs *)

Lemma sat_mono {A} env (m : M A) (P Q : Thrown A -> list Event -> Prop) :
  sat env m P -> (forall r e, P r e -> Q r e) -> sat env m Q.
Proof. intros HP HPQ p. apply HPQ, HP. Qed.

Lemma sat_bind {A B} env (m : M A) (f : A -> M B)
      (P : Thrown A -> list Event -> Prop) (Q : Thrown B -> list Event -> Prop) :
  sat env m P ->
  (forall a e1, P (Returns a) e1 -> sat env (f a) (fun r e2 => Q r (e1 ++ e2)%list)) ->
  (forall err e1, P (Throws err) e1 -> Q (Throws err) e1) ->
  sat env (bind m f) Q.
Proof.
  intros Hm Hf Herr p. specialize (Hm p). rewrite bind_unfold.
  destruct (res (m env p)) as [a|err]; cbn [res evs].
  - apply (Hf a _ Hm).
  - apply (Herr err _ Hm).
Qed.

Lemma sat_ret {A} env (a : A) : sat env (ret a) (fun r e => r = Returns a /\ e = []).
Proof. intro p. split; reflexivity. Qed.

Lemma sat_lift {A} env (t : Thrown A) : sat env (lift t) (fun r e => r = t /\ e = []).
Proof. intro p. split; reflexivity. Qed.

Lemma sat_getEnv env : sat env getEnv (fun r e => r = Returns env /\ e = []).
Proof. intro p. split; reflexivity. Qed.

Lemma nullish_true {A} (r : Thrown A) : nullish r = true -> r = Throws Nullish.
Proof. destruct r as [a|[]]; try discriminate. reflexivity. Qed.

Lemma tryCatch_unfold {A} (m : M A) env p :
  tryCatch m env p
  = if nullish (res (m env p))
    then mkOut (Throws (TypeError "error.message")) (pos (m env p)) (evs (m env p))
    else mkOut (Returns (res (m env p))) (pos (m env p)) (evs (m env p)).
Proof.
  unfold tryCatch. destruct (res (m env p)) as [a|[]]; reflexivity.
Qed.

(** The rule of [try { m } catch (error) { ... }] followed by [f]: what
    [m] returns or throws goes on to [f], except [null] and [undefined],
    on which the handler throws its TypeError. *)
Lemma sat_try {A B} env (m : M A) (f : Thrown A -> M B)
      (P : Thrown A -> list Event -> Prop) (Q : Thrown B -> list Event -> Prop) :
  sat env m P ->
  (forall r e1, P r e1 -> nullish r = false ->
                sat env (f r) (fun r2 e2 => Q r2 (e1 ++ e2)%list)) ->
  (forall e1, P (Throws Nullish) e1 -> Q (Throws (TypeError "error.message")) e1) ->
  sat env (bind (tryCatch m) f) Q.
Proof.
  intros Hm Hf Herr p. specialize (Hm p). rewrite bind_unfold, tryCatch_unfold.
  destruct (nullish (res (m env p))) eqn:Hn; cbn [res pos evs].
  - apply Herr. now rewrite <- (nullish_true _ Hn).
  - now apply (Hf _ _ Hm).
Qed.

Lemma sat_askQuestion env question :
  sat env (askQuestion question)
      (fun r e => exists answer, r = Returns answer /\ e = [EvQuestion question answer]).
Proof. intro p. cbn. eexists. split; reflexivity. Qed.

Lemma sat_create env req :
  sat env (client_createContractExecutionTransaction req)
      (fun r e => e = [EvCreateTx req r]).
Proof. intro p. reflexivity. Qed.

(** What the look-ups of the script throw. *)
Lemma networkOf_throws blockchain err :
  Throws err = networkOf blockchain -> err = TypeError "SUPPORTED_NETWORKS[blockchain]".
Proof.
  unfold networkOf. destruct (entryOf blockchain); try discriminate. now intros [= ->].
Qed.

Lemma transmitter_throws blockchain err :
  Throws err = getMessageTransmitterAddress blockchain ->
  err = UnsupportedBlockchain blockchain.
Proof.
  unfold getMessageTransmitterAddress.
  repeat match goal with
         | |- context [String.eqb ?b ?x] => destruct (String.eqb b x); [discriminate|]
         end.
  now intros [= ->].
Qed.

Lemma domain_throws blockchain err :
  Throws err = getCCTPDomainId blockchain -> err = UnsupportedBlockchain blockchain.
Proof.
  unfold getCCTPDomainId.
  repeat match goal with
         | |- context [String.eqb ?b ?x] => destruct (String.eqb b x); [discriminate|]
         end.
  now intros [= ->].
Qed.

Lemma requireId_throws what tx err :
  Throws err = requireId what tx -> err = CreationFailed what.
Proof.
  unfold requireId. destruct tx as [id|]; [destruct (id =? EmptyString)|];
    try discriminate; now intros [= ->].
Qed.

(** *** Event lists of the pollers *)

Lemma txPolls_quiet txId e :
  Forall (isTxPoll txId) e -> submitted e = [] /\ fetches e = 0.
Proof.
  induction 1 as [|x l Hx _ [IHs IHf]]; [split; reflexivity|].
  destruct Hx as [-> | [r ->]]; split; cbn; assumption.
Qed.

Lemma attestationPolls_quiet c h e :
  Forall (isAttestationPoll c h) e -> submitted e = [] /\ checks e = 0.
Proof.
  induction 1 as [|x l Hx _ [IHs IHf]]; [split; reflexivity|].
  destruct Hx as [-> | (d & r & _ & ->)]; split; cbn; assumption.
Qed.

Lemma idle_nil : idle [].
Proof. repeat split. Qed.

Lemma idle_app a b : idle a -> idle b -> idle (a ++ b).
Proof.
  intros (Ha1 & Ha2 & Ha3) (Hb1 & Hb2 & Hb3). unfold idle.
  rewrite submitted_app, checks_app, fetches_app, Ha1, Ha2, Ha3, Hb1, Hb2, Hb3.
  repeat split.
Qed.

Lemma confirmedHash_some r h :
  confirmedHash r = Some h ->
  exists tx, r = Returns (Some tx)
             /\ Transaction.state tx = Some "CONFIRMED"
             /\ Transaction.txHash tx = h.
Proof.
  unfold confirmedHash, strictEq. destruct r as [[tx|]|err]; try discriminate.
  destruct (Transaction.state tx) as [st|] eqn:Hst; try discriminate.
  destruct (String.eqb_spec st "CONFIRMED") as [-> | _]; try discriminate.
  intros [= <-]. exists tx. repeat split. exact Hst.
Qed.

Lemma txRound_polls txId r : Forall (isTxPoll txId) (txRound txId r).
Proof.
  apply Forall_cons; [left; reflexivity|].
  apply Forall_cons; [right; eexists; reflexivity | apply Forall_nil].
Qed.

Lemma fetchRound_polls c h d r :
  getCCTPDomainId c = Returns d ->
  Forall (isAttestationPoll c h) (fetchRound (attestationUrl d h) r).
Proof.
  intro Hd. apply Forall_cons; [left; reflexivity|].
  apply Forall_cons; [right; exists d, r; split; [exact Hd | reflexivity]
                     | apply Forall_nil].
Qed.

Lemma transactionLoop_events env txId step n :
  sat env (transactionLoop txId step n)
      (fun r e =>
         Forall (isTxPoll txId) e
         /\ nullish r = false
         /\ forall h, r = Returns h ->
                      exists polls tx,
                        e = (polls ++ [EvGetTransaction txId (Returns (Some tx))])%list
                        /\ Forall (isTxPoll txId) polls
                        /\ Transaction.state tx = Some "CONFIRMED"
                        /\ Transaction.txHash tx = h).
Proof.
  induction n as [|n IH]; intro p.
  - cbn. split; [constructor | split; [reflexivity | discriminate]].
  - rewrite transactionLoop_step.
    pose proof (txRound_polls txId (getTransaction env (nChecked p))) as Hround.
    destruct (confirmedHash (getTransaction env (nChecked p))) as [h|] eqn:Hc.
    + apply confirmedHash_some in Hc as (tx & Hr & Hst & Hh). cbn [res evs].
      split; [exact Hround|]. split; [reflexivity|].
      intros h' [= <-]. exists [EvSleep 30000], tx. rewrite Hr.
      split; [reflexivity|]. split; [|split; [exact Hst | exact Hh]].
      apply Forall_cons; [left; reflexivity | apply Forall_nil].
    + destruct (nullish (getTransaction env (nChecked p))); cbn [res evs].
      { split; [exact Hround|]. split; [reflexivity | discriminate]. }
      cbn zeta. cbn [res evs]. destruct (IH (checkedMore 1 p)) as (Hall & Hn & Hret).
      split; [apply Forall_app; split; assumption|]. split; [exact Hn|].
      intros h Hh. destruct (Hret h Hh) as (polls & tx & He & Hpolls & Hst & Hhash).
      exists (txRound txId (getTransaction env (nChecked p)) ++ polls)%list, tx.
      rewrite He. rewrite <- app_assoc.
      split; [reflexivity|]. split; [|split; [exact Hst | exact Hhash]].
      apply Forall_app. split; assumption.
Qed.

Lemma sat_waitForTransactionCompletion env txId step :
  sat env (waitForTransactionCompletion txId step)
      (fun r e =>
         Forall (isTxPoll txId) e
         /\ nullish r = false
         /\ forall h, r = Returns h ->
                      exists polls tx,
                        e = (polls ++ [EvGetTransaction txId (Returns (Some tx))])%list
                        /\ Forall (isTxPoll txId) polls
                        /\ Transaction.state tx = Some "CONFIRMED"
                        /\ Transaction.txHash tx = h).
Proof. apply transactionLoop_events. Qed.

Lemma attestationLoop_events env c h d N n :
  getCCTPDomainId c = Returns d ->
  sat env (attestationLoop (attestationUrl d h) N n)
      (fun r e =>
         Forall (isAttestationPoll c h) e
         /\ nullish r = false
         /\ forall oa, r = Returns oa ->
                       exists m fr polls,
                         attestedMessage fr = Some m
                         /\ oa = Some (attestationOf m)
                         /\ e = (polls ++ [EvFetch (attestationUrl d h) fr])%list
                         /\ Forall (isAttestationPoll c h) polls).
Proof.
  intro Hd. induction n as [|n IH]; intro p.
  - cbn. split; [constructor | split; [reflexivity | discriminate]].
  - rewrite attestationLoop_step.
    set (fr := fetch env (attestationUrl d h) (nFetched p)).
    pose proof (fetchRound_polls c h d fr Hd) as Hround.
    destruct (attestedMessage fr) as [m|] eqn:Hm.
    + cbn [res evs]. split; [exact Hround|]. split; [reflexivity|].
      intros oa [= <-]. exists m, fr, [EvSleep 30000].
      split; [exact Hm|]. split; [reflexivity|]. split; [reflexivity|].
      apply Forall_cons; [left; reflexivity | apply Forall_nil].
    + destruct (nullishFetch fr); cbn [res evs].
      { split; [exact Hround|]. split; [reflexivity | discriminate]. }
      cbn zeta. cbn [res evs]. destruct (IH (fetchedMore 1 p)) as (Hall & Hn & Hret).
      split; [apply Forall_app; split; assumption|]. split; [exact Hn|].
      intros oa Hoa. destruct (Hret oa Hoa) as (m & fr' & polls & Hatt & -> & He & Hpolls).
      exists m, fr', (fetchRound (attestationUrl d h) fr ++ polls)%list.
      rewrite He, <- app_assoc.
      split; [exact Hatt|]. split; [reflexivity|]. split; [reflexivity|].
      apply Forall_app. split; assumption.
Qed.

Lemma sat_waitForAttestation env h c :
  sat env (waitForAttestation h c)
      (fun r e =>
         Forall (isAttestationPoll c h) e
         /\ nullish r = false
         /\ forall oa, r = Returns oa ->
                       exists d m fr polls,
                         getCCTPDomainId c = Returns d
                         /\ attestedMessage fr = Some m
                         /\ oa = Some (attestationOf m)
                         /\ e = (polls ++ [EvFetch (attestationUrl d h) fr])%list
                         /\ Forall (isAttestationPoll c h) polls).
Proof.
  intro p. destruct (getCCTPDomainId c) as [d|err] eqn:Hd.
  - rewrite (waitForAttestation_supported env h c d p Hd).
    destruct (attestationLoop_events env c h d 40 40 Hd p) as (Hall & Hn & Hret).
    split; [exact Hall|]. split; [exact Hn|]. intros oa Hoa.
    destruct (Hret oa Hoa) as (m & fr & polls & H1 & H2 & H3 & H4).
    exists d, m, fr, polls. repeat split; auto.
  - unfold waitForAttestation, bind, lift. cbv beta iota delta [res pos evs].
    rewrite Hd. cbv beta iota. split; [constructor|]. split; [|discriminate].
    symmetry in Hd. now rewrite (domain_throws _ _ Hd).
Qed.

(** ** Steps 3 and 4 *)

Ltac list_norm :=
  repeat (progress (repeat rewrite <- app_assoc; cbn [app]));
  repeat rewrite app_nil_r.

Lemma attestation_polls_with_fetch c h d fr polls :
  getCCTPDomainId c = Returns d ->
  Forall (isAttestationPoll c h) polls ->
  Forall (isAttestationPoll c h) (polls ++ [EvFetch (attestationUrl d h) fr]).
Proof.
  intros Hd Hpolls. apply Forall_app. split; [exact Hpolls|].
  apply Forall_cons; [right; exists d, fr; split; [exact Hd | reflexivity]
                     | apply Forall_nil].
Qed.

Lemma unsubmitted_uncreated e req resp :
  submitted e = [] -> ~ In (EvCreateTx req resp) e.
Proof.
  induction e as [|x e IH]; intros Hs Hin; [destruct Hin|].
  destruct Hin as [-> | Hin]; [discriminate Hs|].
  destruct x; cbn in Hs; try discriminate Hs; now apply IH.
Qed.

(** Steps 3 and 4 with one submission: only that one can have been
    rejected. *)
Lemma one_create_rejected polls url fr req resp after :
  submitted polls = [] -> submitted after = [] ->
  (createRejected (polls ++ EvFetch url fr :: EvCreateTx req resp :: after)
   <-> resp = Throws Nullish).
Proof.
  intros Hp Ha. split.
  - intros (req' & Hin). apply in_app_or in Hin as [Hin | [Hin | [Hin | Hin]]].
    + exfalso. exact (unsubmitted_uncreated _ _ _ Hp Hin).
    + discriminate Hin.
    + now injection Hin.
    + exfalso. exact (unsubmitted_uncreated _ _ _ Ha Hin).
  - intros ->. exists req. apply in_or_app. right. right. left. reflexivity.
Qed.

Lemma none_rejected e : submitted e = [] -> ~ createRejected e.
Proof. intros Hs (req & Hin). exact (unsubmitted_uncreated _ _ _ Hs Hin). Qed.

(** The mint of the recovery: after the attestation poll returned.  The
    body throws [null] or [undefined] only as the rejection of that
    mint. *)
Lemma sat_recoverBody env h c dw :
  sat env (recoverBody h c dw)
      (fun r e => stepsThreeFour c (Some h) dw e
                  /\ (nullish r = true <-> createRejected e)).
Proof.
  unfold recoverBody.
  assert (Hquiet : forall err e,
             nullish (@Throws unit err) = false ->
             Forall (isAttestationPoll c (Some h)) e ->
             stepsThreeFour c (Some h) dw e
             /\ (nullish (@Throws unit err) = true <-> createRejected e)).
  { intros err e Hn Hall. split; [left; exact Hall|]. rewrite Hn. split; [discriminate|].
    intro H. exfalso. revert H. apply none_rejected.
    now apply (attestationPolls_quiet c (Some h)). }
  eapply sat_bind; [apply sat_waitForAttestation | | ].
  2: { intros err e1 (Hall & Hn & _). now apply Hquiet. }
  intros oa e1 (_ & _ & Hret).
  destruct (Hret oa eq_refl) as (d & m & fr & polls & Hd & Hatt & -> & -> & Hpolls).
  pose proof (attestation_polls_with_fetch c (Some h) d fr polls Hd Hpolls) as Hfetched.
  eapply sat_bind; [apply sat_lift | | ].
  2: { intros err e [Herr ->]. list_norm. rewrite (networkOf_throws _ _ Herr).
       now apply Hquiet. }
  intros net e [_ ->].
  eapply sat_bind; [apply sat_lift | | ].
  2: { intros err e [Herr ->]. list_norm. rewrite (transmitter_throws _ _ Herr).
       now apply Hquiet. }
  intros mt e [Hmt ->].
  destruct (attestationPolls_quiet _ _ _ Hpolls) as [Hsp _].
  assert (Hmint : forall (r : Thrown unit) resp mintTx after,
             Forall (isTxPoll mintTx) after ->
             (nullish r = true <-> resp = Throws Nullish) ->
             stepsThreeFour c (Some h) dw
               (polls ++ EvFetch (attestationUrl d (Some h)) fr
                      :: EvCreateTx (mintRequest dw mt (attestationOf m)) resp :: after)
             /\ (nullish r = true
                 <-> createRejected
                       (polls ++ EvFetch (attestationUrl d (Some h)) fr
                              :: EvCreateTx (mintRequest dw mt (attestationOf m)) resp
                              :: after))).
  { intros r resp mintTx after Hafter Hr. split.
    - right. exists d, m, fr, polls, mt, resp, mintTx, after. repeat split; auto.
    - rewrite one_create_rejected; [exact Hr | exact Hsp |].
      now apply (txPolls_quiet mintTx). }
  eapply sat_bind; [apply sat_create | | ].
  2: { intros err e ->. list_norm. apply (Hmint _ _ EmptyString); [apply Forall_nil|].
       destruct err; split; intro H; first [reflexivity | discriminate H]. }
  intros mintResponse e ->.
  assert (Hsound : forall r : Thrown unit,
             nullish r = false ->
             (nullish r = true <-> Returns mintResponse = @Throws JsStr Nullish))
    by (intros r ->; split; discriminate).
  eapply sat_bind; [apply sat_lift | | ].
  2: { intros err e [Herr ->]. list_norm. apply (Hmint _ _ EmptyString); [apply Forall_nil|].
       apply Hsound. now rewrite (requireId_throws _ _ _ Herr). }
  intros mintTx e [_ ->].
  eapply sat_bind; [apply sat_waitForTransactionCompletion | | ].
  2: { intros err e (Hafter & Hn & _). list_norm. apply (Hmint _ _ mintTx); [exact Hafter|].
       now apply Hsound. }
  intros mintTxHash e (Hafter & _).
  eapply sat_mono; [apply sat_ret|]. intros r e' [-> ->].
  list_norm. apply (Hmint _ _ mintTx); [exact Hafter | now apply Hsound].
Qed.

(** Steps 3 and 4 of the full run. *)
Lemma sat_attestAndMint env h sw dw :
  sat env (attestAndMint h sw dw)
      (fun _ e => stepsThreeFour (Wallet.blockchain sw) h dw e).
Proof.
  unfold attestAndMint. set (c := Wallet.blockchain sw).
  eapply sat_bind; [apply sat_waitForAttestation | | ].
  2: { intros err e1 (Hall & _). left. exact Hall. }
  intros oa e1 (_ & _ & Hret).
  destruct (Hret oa eq_refl) as (d & m & fr & polls & Hd & Hatt & -> & -> & Hpolls).
  pose proof (attestation_polls_with_fetch c h d fr polls Hd Hpolls) as Hquiet.
  eapply sat_bind; [apply sat_lift | | ].
  2: { intros err e [_ ->]. left. list_norm. exact Hquiet. }
  intros net e [_ ->].
  eapply sat_bind; [apply sat_lift | | ].
  2: { intros err e [_ ->]. left. list_norm. exact Hquiet. }
  intros mt e [Hmt ->].
  assert (Hmint : forall resp mintTx after,
             Forall (isTxPoll mintTx) after ->
             stepsThreeFour c h dw
               (polls ++ EvFetch (attestationUrl d h) fr
                      :: EvCreateTx (mintRequest dw mt (attestationOf m)) resp :: after)).
  { intros resp mintTx after Hafter. right.
    exists d, m, fr, polls, mt, resp, mintTx, after. repeat split; auto. }
  eapply sat_bind; [apply sat_create | | ].
  2: { intros err e ->. list_norm. apply (Hmint _ EmptyString). apply Forall_nil. }
  intros mintResponse e ->.
  eapply sat_bind; [apply sat_lift | | ].
  2: { intros err e [_ ->]. list_norm. apply (Hmint _ EmptyString). apply Forall_nil. }
  intros mintTx e [_ ->].
  eapply sat_bind; [apply sat_waitForTransactionCompletion | | ].
  2: { intros err e (Hafter & _). list_norm. apply (Hmint _ mintTx). exact Hafter. }
  intros mintTxHash e (Hafter & _).
  eapply sat_bind; [apply sat_lift | | ].
  2: { intros err e' [_ ->]. list_norm. apply (Hmint _ mintTx). exact Hafter. }
  intros net1 e' [_ ->].
  eapply sat_bind; [apply sat_lift | | ].
  2: { intros err e' [_ ->]. list_norm. apply (Hmint _ mintTx). exact Hafter. }
  intros net2 e' [_ ->].
  eapply sat_mono; [apply sat_ret|]. intros r e' [_ ->].
  list_norm. apply (Hmint _ mintTx). exact Hafter.
Qed.

(** ** Steps 1 and 2 *)

Lemma networkOf_returns blockchain network :
  Returns network = networkOf blockchain -> isSupported blockchain = true.
Proof.
  unfold networkOf, isSupported. destruct (entryOf blockchain); try discriminate;
    reflexivity.
Qed.

Lemma requireId_returns what tx id :
  Returns id = requireId what tx -> tx = Some id.
Proof.
  unfold requireId. destruct tx as [x|]; [|discriminate].
  destruct (x =? EmptyString); [discriminate|]. now intros [= ->].
Qed.

Lemma submitted_polls_after txId (req : TxRequest.t) resp after :
  Forall (isTxPoll txId) after ->
  submitted (EvCreateTx req resp :: after) = [req]
  /\ fetches (EvCreateTx req resp :: after) = 0.
Proof.
  intro H. destruct (txPolls_quiet _ _ H) as [Hs Hf].
  change (EvCreateTx req resp :: after) with ([EvCreateTx req resp] ++ after)%list.
  rewrite submitted_app, fetches_app, Hs, Hf. split; reflexivity.
Qed.

Lemma sat_approveAndBurn env sw dw amt :
  sat env (approveAndBurn sw dw amt) (stepsOneTwo env sw dw amt).
Proof.
  unfold approveAndBurn.
  assert (Hnothing : forall err, stepsOneTwo env sw dw amt (Throws err) []).
  { intro err. split; [reflexivity|]. split; [left; reflexivity | discriminate]. }
  eapply sat_bind; [apply sat_getEnv | | intros err e [[=] _]].
  intros env' e [[= ->] ->].
  eapply sat_bind; [apply sat_lift | | intros err e [_ ->]; apply Hnothing].
  intros net e [Hnet ->]. symmetry in Hnet.
  set (a := approvalRequest sw (usdcContractOf net) (baseUnits env amt)).
  assert (Ha : isApprovalOf env sw amt a) by (exists net; split; [exact Hnet | reflexivity]).
  assert (Happroved : forall err ra txId after,
             Forall (isTxPoll txId) after ->
             stepsOneTwo env sw dw amt (Throws err) (EvCreateTx a ra :: after)).
  { intros err ra txId after Hafter.
    destruct (submitted_polls_after txId a ra after Hafter) as [Hs Hf].
    split; [exact Hf|]. split; [|discriminate].
    right. exists a. split; [exact Ha | left; exact Hs]. }
  eapply sat_bind; [apply sat_create | | ].
  2: { intros err e ->. list_norm. apply (Happroved _ _ EmptyString). apply Forall_nil. }
  intros approvalResponse e ->.
  eapply sat_bind; [apply sat_lift | | ].
  2: { intros err e [_ ->]. list_norm. apply (Happroved _ _ EmptyString). apply Forall_nil. }
  intros approvalTx e [_ ->].
  eapply sat_bind; [apply sat_waitForTransactionCompletion | | ].
  2: { intros err e (Hpolls & _). list_norm. apply (Happroved _ _ approvalTx). exact Hpolls. }
  intros approvalTxHash pollsA (HpollsA & _).
  eapply sat_bind; [apply sat_lift | | ].
  2: { intros err e [_ ->]. list_norm. apply (Happroved _ _ approvalTx). exact HpollsA. }
  intros net0 e [_ ->].
  eapply sat_bind; [apply sat_lift | | ].
  2: { intros err e [_ ->]. list_norm. apply (Happroved _ _ approvalTx). exact HpollsA. }
  intros d e [Hd ->].
  eapply sat_bind; [apply sat_lift | | ].
  2: { intros err e [_ ->]. list_norm. apply (Happroved _ _ approvalTx). exact HpollsA. }
  intros encoded e [Henc ->].
  eapply sat_bind; [apply sat_lift | | ].
  2: { intros err e [_ ->]. list_norm. apply (Happroved _ _ approvalTx). exact HpollsA. }
  intros net' e [Hnet' ->]. symmetry in Hnet'.
  rewrite Hnet in Hnet'. injection Hnet' as <-.
  set (b := burnRequest sw (usdcContractOf net) (baseUnits env amt) d encoded).
  assert (Hb : isBurnOf env sw dw amt b)
    by (exists net, d, encoded; repeat split; auto).
  destruct (txPolls_quiet _ _ HpollsA) as [HsA HfA].
  assert (Hsub : forall ra rb txId after,
             Forall (isTxPoll txId) after ->
             submitted (EvCreateTx a ra :: pollsA ++ EvCreateTx b rb :: after) = [a; b]
             /\ fetches (EvCreateTx a ra :: pollsA ++ EvCreateTx b rb :: after) = 0).
  { intros ra rb txId after Hafter.
    destruct (txPolls_quiet _ _ Hafter) as [Hs Hf].
    change (EvCreateTx a ra :: pollsA ++ EvCreateTx b rb :: after)
      with ([EvCreateTx a ra] ++ pollsA ++ [EvCreateTx b rb] ++ after)%list.
    rewrite !submitted_app, !fetches_app, HsA, HfA, Hs, Hf. split; reflexivity. }
  assert (Hburned : forall err ra rb txId after,
             Forall (isTxPoll txId) after ->
             stepsOneTwo env sw dw amt (Throws err)
                         (EvCreateTx a ra :: pollsA ++ EvCreateTx b rb :: after)).
  { intros err ra rb txId after Hafter.
    destruct (Hsub ra rb txId after Hafter) as [Hs Hf].
    split; [exact Hf|]. split; [|discriminate].
    right. exists a. split; [exact Ha|]. right. exists b. split; [exact Hb | exact Hs]. }
  eapply sat_bind; [apply sat_create | | ].
  2: { intros err e ->. list_norm. apply (Hburned _ _ _ EmptyString). apply Forall_nil. }
  intros burnResponse e ->.
  eapply sat_bind; [apply sat_lift | | ].
  2: { intros err e [_ ->]. list_norm. apply (Hburned _ _ _ EmptyString). apply Forall_nil. }
  intros burnTx e [HburnTx ->]. apply requireId_returns in HburnTx. subst burnResponse.
  eapply sat_mono; [apply sat_waitForTransactionCompletion|].
  intros r pollsB (HpollsB & _ & Hret). list_norm.
  destruct (Hsub (Returns approvalResponse) (Returns (Some burnTx)) burnTx pollsB HpollsB)
    as [Hs Hf].
  split; [exact Hf|]. split.
  - right. exists a. split; [exact Ha|]. right. exists b. split; [exact Hb | exact Hs].
  - intros h ->. destruct (Hret h eq_refl) as (polls & tx & -> & Hpolls & Hst & Hhash).
    split; [|exists a, b; repeat split; auto].
    exists (EvCreateTx a (Returns approvalResponse) :: pollsA), b, burnTx, polls, tx, [].
    list_norm. repeat split; auto.
Qed.

(** ** The saga *)

Lemma sat_transferBody env sw dw amt :
  sat env (transferBody sw dw amt) (fun _ e => saga env sw dw amt e).
Proof.
  unfold transferBody.
  eapply sat_bind; [apply sat_approveAndBurn | | ].
  - intros h e12 H12. eapply sat_mono; [apply sat_attestAndMint|].
    intros r e34 H34. exists (Returns h), e12, e34.
    split; [reflexivity | split; assumption].
  - intros err e12 H12. exists (Throws err), e12, []. rewrite app_nil_r.
    split; [reflexivity | split; [assumption | reflexivity]].
Qed.

(** The inner [catch] takes what the four steps throw; what leaves it
    is the TypeError of its handler at most. *)
Lemma sat_transferSteps env sw dw amt :
  sat env (transferSteps sw dw amt)
      (fun r e => nullish r = false /\ saga env sw dw amt e).
Proof.
  unfold transferSteps.
  eapply sat_try; [apply sat_transferBody | | ].
  - intros r e Hsaga _. eapply sat_mono; [apply sat_ret|].
    intros r0 e0 [-> ->]. rewrite app_nil_r. split; [reflexivity | exact Hsaga].
  - intros e Hsaga. split; [reflexivity | exact Hsaga].
Qed.

(** The recovery returns, unless the submission of the mint was rejected
    with [null] or [undefined]: then the TypeError of the handler leaves
    it. *)
Lemma sat_recoverSteps env h c dw :
  sat env (recoverSteps h c dw)
      (fun r e =>
         ((r = Returns tt /\ ~ createRejected e)
          \/ (r = Throws (TypeError "error.message") /\ createRejected e))
         /\ stepsThreeFour c (Some h) dw e).
Proof.
  unfold recoverSteps.
  eapply sat_try; [apply sat_recoverBody | | ].
  - intros r e [H34 Hiff] Hn. eapply sat_mono; [apply sat_ret|].
    intros r0 e0 [-> ->]. rewrite app_nil_r. split; [|exact H34].
    left. split; [reflexivity|]. intro H. apply Hiff in H. congruence.
  - intros e [H34 Hiff]. split; [|exact H34].
    right. split; [reflexivity|]. now apply Hiff.
Qed.

Lemma idle_question q a e : idle e -> idle (EvQuestion q a :: e).
Proof. intro H. exact H. Qed.

Lemma idle_balance id r e : idle e -> idle (EvGetWalletTokenBalance id r :: e).
Proof. intro H. exact H. Qed.

Lemma idle_listWallets id r e : idle e -> idle (EvListWallets id r :: e).
Proof. intro H. exact H. Qed.

Lemma idle_listWalletSets r e : idle e -> idle (EvListWalletSets r :: e).
Proof. intro H. exact H. Qed.

Ltac idle_tac :=
  list_norm;
  repeat first [ assumption | apply idle_nil | apply idle_question
               | apply idle_balance | apply idle_listWallets
               | apply idle_listWalletSets | apply idle_app ].

Lemma sat_listWallets env walletSetId :
  sat env (client_listWallets walletSetId) (fun r e => e = [EvListWallets walletSetId r]).
Proof. intro p. reflexivity. Qed.

Lemma sat_listWalletSets env :
  sat env client_listWalletSets (fun r e => e = [EvListWalletSets r]).
Proof. intro p. reflexivity. Qed.

Lemma sat_collectWallets env walletSets :
  sat env (collectWallets walletSets) (fun r e => idle e /\ nullish r = false).
Proof.
  induction walletSets as [|walletSet rest IH].
  - intro p. split; [apply idle_nil | reflexivity].
  - cbn [collectWallets].
    eapply sat_try.
    + apply sat_listWallets.
    + intros r e -> _.
      eapply sat_bind; [apply IH | | ].
      * intros more e [Hidle _]. eapply sat_mono; [apply sat_ret|].
        intros r0 e0 [-> ->]. split; [idle_tac | reflexivity].
      * intros err e [Hidle Hn]. split; [idle_tac | exact Hn].
    + intros e ->. split; [idle_tac | reflexivity].
Qed.

(** [getAllWallets] lists and submits nothing; what leaves it is a list
    or the TypeError of a handler. *)
Lemma sat_getAllWallets env :
  sat env getAllWallets (fun r e => idle e /\ nullish r = false).
Proof.
  unfold getAllWallets.
  eapply sat_try.
  - eapply (sat_bind env client_listWalletSets _ _ (fun _ e => idle e)).
    + apply sat_listWalletSets.
    + intros response e ->.
      destruct (List.length match response with Some l => l | None => [] end =? 0)%nat.
      * eapply sat_mono; [apply sat_ret|]. intros r0 e0 [_ ->]. idle_tac.
      * eapply sat_mono; [apply sat_collectWallets|]. intros r0 e0 [Hidle _]. idle_tac.
    + intros err e ->. idle_tac.
  - intros r e Hidle _.
    destruct r as [allWallets|err];
      (eapply sat_mono; [apply sat_ret|]; intros r0 e0 [-> ->];
       split; [idle_tac | reflexivity]).
  - intros e Hidle. split; [exact Hidle | reflexivity].
Qed.

Lemma sat_getWalletBalance env walletId :
  sat env (getWalletBalance walletId)
      (fun r e => exists resp, e = [EvGetWalletTokenBalance walletId resp]
                               /\ (r = Returns (balancesOf resp)
                                   \/ r = Throws (TypeError "error.message"))).
Proof.
  intro p. unfold getWalletBalance. rewrite bind_unfold, tryCatch_unfold.
  unfold client_getWalletTokenBalance. cbn [res pos evs].
  exists (getWalletTokenBalance env (nBalances p)).
  destruct (getWalletTokenBalance env (nBalances p)) as [[l|]|[]];
    cbn [nullish res pos evs]; split; try reflexivity; auto.
Qed.

Lemma arrayGet_In {A} (array : list A) index x :
  arrayGet array index = Some x -> In x array.
Proof.
  unfold arrayGet. destruct index as [i|]; [|discriminate].
  destruct (i <? 0)%Z; [discriminate|]. apply nth_error_In.
Qed.

Lemma selected_returns what wallet w :
  Returns w = selected what wallet -> wallet = Some w.
Proof. destruct wallet; cbn; [now intros [= ->] | discriminate]. Qed.

Lemma selected_throws what wallet err :
  Throws err = selected what wallet -> err = TypeError what /\ wallet = None.
Proof. destruct wallet; cbn; [discriminate | now intros [= ->]]. Qed.

(** The ways a dialogue stops: a [return], or a TypeError. *)
Ltac abort_idle :=
  eapply sat_mono; [apply sat_ret|];
  let r := fresh "r" in let e := fresh "e" in
  intros r e [-> ->]; split; [reflexivity | left; idle_tac].

Ltac throw_idle Herr :=
  split;
  [first [ rewrite (networkOf_throws _ _ Herr)
         | rewrite (proj1 (selected_throws _ _ _ Herr)) ]; reflexivity
  | left; idle_tac].

Lemma sat_transferDialogue env :
  sat env transferDialogue (fun r e => nullish r = false /\ transferRun env e).
Proof.
  unfold transferDialogue.
  eapply sat_bind; [apply sat_getEnv | | intros err e [[=] _]].
  intros env' e0 [[= ->] ->].
  eapply sat_bind; [apply sat_getAllWallets | | ].
  2: { intros err e [Hidle Hn]. split; [exact Hn | left; exact Hidle]. }
  intros allWallets eAll [HeAll _].
  destruct (List.length allWallets =? 0)%nat; [abort_idle|].
  set (supportedWallets :=
         filter (fun wallet => isSupported (Wallet.blockchain wallet)
                               && (Wallet.state wallet =? "LIVE")) allWallets).
  destruct (List.length supportedWallets <? 2)%nat; [abort_idle|].
  eapply sat_bind; [apply sat_askQuestion | | ].
  2: { intros err e (a & Ha & _). discriminate Ha. }
  intros sourceChoice e (a1 & _ & ->).
  destruct (outOfRange (choiceIndex sourceChoice) (List.length supportedWallets));
    [abort_idle|].
  eapply sat_bind; [apply sat_lift | | ].
  2: { intros err e [Herr ->]. throw_idle Herr. }
  intros sw e [Hsw ->]. apply selected_returns, arrayGet_In in Hsw.
  apply filter_In in Hsw as [_ Hsw]. apply andb_prop in Hsw as [HswSup HswLive].
  apply String.eqb_eq in HswLive.
  eapply sat_bind; [apply sat_lift | | ].
  2: { intros err e [Herr ->]. throw_idle Herr. }
  intros network e [_ ->]. clear network.
  eapply sat_bind; [apply sat_getWalletBalance | | ].
  2: { intros err e (resp & -> & [Hr | Hr]); [discriminate Hr|].
       injection Hr as ->. split; [reflexivity | left; idle_tac]. }
  intros sourceBalances e (balances & -> & [[= ->] | Hr]); [|discriminate Hr].
  destruct (PrimFloat.leb (findUSDCBalance env (balancesOf balances)) 0) eqn:Hbal;
    [abort_idle|].
  set (destinationWallets :=
         filter (fun wallet => negb (Wallet.blockchain wallet =? Wallet.blockchain sw))
                supportedWallets).
  destruct (List.length destinationWallets =? 0)%nat; [abort_idle|].
  eapply sat_bind; [apply sat_askQuestion | | ].
  2: { intros err e (a & Ha & _). discriminate Ha. }
  intros destChoice e (a2 & _ & ->).
  destruct (outOfRange (choiceIndex destChoice) (List.length destinationWallets));
    [abort_idle|].
  eapply sat_bind; [apply sat_lift | | ].
  2: { intros err e [Herr ->]. throw_idle Herr. }
  intros dw e [Hdw ->]. apply selected_returns, arrayGet_In in Hdw.
  apply filter_In in Hdw as [Hdw Hdiff].
  apply filter_In in Hdw as [_ Hdw]. apply andb_prop in Hdw as [HdwSup HdwLive].
  apply String.eqb_eq in HdwLive.
  apply negb_true_iff, String.eqb_neq in Hdiff.
  eapply sat_bind; [apply sat_lift | | ].
  2: { intros err e [Herr ->]. throw_idle Herr. }
  intros network e [_ ->]. clear network.
  eapply sat_bind; [apply sat_askQuestion | | ].
  2: { intros err e (a & Ha & _). discriminate Ha. }
  intros amountInput e (a3 & _ & ->).
  set (amt := parseFloat env amountInput).
  destruct (PrimFloat.is_nan amt || PrimFloat.leb amt 0) eqn:Hpositive; [abort_idle|].
  apply orb_false_elim in Hpositive as [Hnan Hpos].
  destruct (PrimFloat.ltb (findUSDCBalance env (balancesOf balances)) amt) eqn:Hmax;
    [abort_idle|].
  eapply sat_bind; [apply sat_lift | | ].
  2: { intros err e [Herr ->]. throw_idle Herr. }
  intros network e [_ ->]. clear network.
  eapply sat_bind; [apply sat_lift | | ].
  2: { intros err e [Herr ->]. throw_idle Herr. }
  intros network e [_ ->]. clear network.
  eapply sat_bind; [apply sat_askQuestion | | ].
  2: { intros err e (a & Ha & _). discriminate Ha. }
  intros confirmation e (a4 & _ & ->).
  destruct (negb (toLowerCase confirmation =? "yes")
            && negb (toLowerCase confirmation =? "y")); [abort_idle|].
  eapply sat_mono; [apply sat_transferSteps|].
  intros r e' [Hn Hsaga]. split; [exact Hn|]. right.
  exists (eAll ++ [EvQuestion (AskSourceWallet (List.length supportedWallets)) a1;
                   EvGetWalletTokenBalance (Wallet.id sw) balances;
                   EvQuestion (AskDestinationWallet (List.length destinationWallets)) a2;
                   EvQuestion (AskAmount (findUSDCBalance env (balancesOf balances))) a3;
                   EvQuestion AskConfirm a4])%list, sw, dw, amt, e'.
  split; [list_norm; reflexivity|]. split; [idle_tac|]. split; [|exact Hsaga].
  exists balances. split; [apply in_or_app; right; cbn; tauto|].
  repeat split; assumption.
Qed.

(** The outer [catch] never meets [null] or [undefined]: everything the
    dialogue and the steps can throw is an error object. *)
Lemma sat_performCrossChainTransfer env :
  sat env performCrossChainTransfer (fun r e => r = Returns tt /\ transferRun env e).
Proof.
  unfold performCrossChainTransfer.
  eapply sat_try; [apply sat_transferDialogue | | ].
  - intros r e [_ Hrun] _. eapply sat_mono; [apply sat_ret|].
    intros r0 e0 [-> ->]. rewrite app_nil_r. split; [reflexivity | exact Hrun].
  - intros e [Hn _]. discriminate Hn.
Qed.

(** [recoverWith] is a dialogue that submits nothing, then
    [recoverSteps] for a destination wallet of the menu. *)
Lemma sat_recoverWith_steps env h c (Q : Wallet.t -> Thrown unit -> list Event -> Prop) :
  (forall dw, sat env (recoverSteps h c dw) (Q dw)) ->
  sat env (recoverWith h c)
      (fun r e =>
         idle e
         \/ exists dialogue dw e',
             e = (dialogue ++ e')%list
             /\ idle dialogue
             /\ isSupported (Wallet.blockchain dw) = true
             /\ Wallet.blockchain dw <> c
             /\ Q dw r e').
Proof.
  intro Hsteps. unfold recoverWith.
  eapply sat_bind; [apply sat_getAllWallets | | ].
  2: { intros err e [Hidle _]. left. exact Hidle. }
  intros allWallets eAll [HeAll _].
  set (destinationWallets :=
         filter (fun wallet => negb (Wallet.blockchain wallet =? c)
                               && isSupported (Wallet.blockchain wallet)) allWallets).
  destruct (List.length destinationWallets =? 0)%nat.
  { eapply sat_mono; [apply sat_ret|]. intros r e [_ ->]. left. idle_tac. }
  eapply sat_bind; [apply sat_askQuestion | | ].
  2: { intros err e (a & Ha & _). discriminate Ha. }
  intros destChoice e (a1 & _ & ->).
  destruct (outOfRange (choiceIndex destChoice) (List.length destinationWallets)).
  { eapply sat_mono; [apply sat_ret|]. intros r e [_ ->]. left. idle_tac. }
  eapply sat_bind; [apply sat_lift | | ].
  2: { intros err e [_ ->]. left. idle_tac. }
  intros dw e [Hdw ->]. apply selected_returns, arrayGet_In in Hdw.
  apply filter_In in Hdw as [_ Hdw]. apply andb_prop in Hdw as [Hdiff HdwSup].
  apply negb_true_iff, String.eqb_neq in Hdiff.
  eapply sat_bind; [apply sat_lift | | ].
  2: { intros err e [_ ->]. left. idle_tac. }
  intros network e [_ ->]. clear network.
  eapply sat_mono; [apply Hsteps|].
  intros r e' HQ. right.
  exists (eAll ++ [EvQuestion (AskDestinationWallet (List.length destinationWallets)) a1])%list,
         dw, e'.
  split; [list_norm; reflexivity|]. split; [idle_tac|].
  repeat split; assumption.
Qed.


(** [recoverFromBurn] is its two prompts, then [recoverWith] for the
    hash typed and the chain selected. *)
Lemma sat_recoverFromBurn_steps env
      (Q : string -> string -> Wallet.t -> Thrown unit -> list Event -> Prop) :
  (forall h c dw, sat env (recoverSteps h (selectSourceBlockchain c) dw) (Q h c dw)) ->
  sat env recoverFromBurn
      (fun r e =>
         exists h,
           e = [EvQuestion AskBurnHash h]
           \/ exists c e',
               e = EvQuestion AskBurnHash h :: EvQuestion AskSourceBlockchain c :: e'
               /\ (idle e'
                   \/ exists dialogue dw e'',
                       e' = (dialogue ++ e'')%list
                       /\ idle dialogue
                       /\ isSupported (Wallet.blockchain dw) = true
                       /\ Wallet.blockchain dw <> selectSourceBlockchain c
                       /\ Q h c dw r e'')).
Proof.
  intro Hsteps. unfold recoverFromBurn.
  eapply sat_bind; [apply sat_askQuestion | | ].
  2: { intros err e (a & Ha & _). discriminate Ha. }
  intros burnTxHash e (h & [= ->] & ->).
  destruct (trim h =? EmptyString).
  - eapply sat_mono; [apply sat_ret|]. intros r e [_ ->]. exists h. left. reflexivity.
  - eapply sat_bind; [apply sat_askQuestion | | ].
    2: { intros err e (a & Ha & _). discriminate Ha. }
    intros sourceChoice e (c & [= ->] & ->).
    eapply sat_mono; [apply (sat_recoverWith_steps _ _ _ (Q h c)), Hsteps|].
    intros r e' Hrun. exists h. right. exists c, e'. split; [reflexivity | exact Hrun].
Qed.

Lemma sat_recoverFromBurn env :
  sat env recoverFromBurn
      (fun _ e =>
         exists h,
           e = [EvQuestion AskBurnHash h]
           \/ exists c e',
               e = EvQuestion AskBurnHash h :: EvQuestion AskSourceBlockchain c :: e'
               /\ recoveryRun h (selectSourceBlockchain c) e').
Proof.
  eapply sat_mono.
  - apply (sat_recoverFromBurn_steps
             env (fun h c dw _ e => stepsThreeFour (selectSourceBlockchain c) (Some h) dw e)).
    intros h c dw. eapply sat_mono; [apply sat_recoverSteps|]. intros r e [_ H34]. exact H34.
  - intros r e H. exact H.
Qed.

(** ** Where the mint sits in a run *)

Lemma mints_app a b : mints (a ++ b) = (mints a ++ mints b)%list.
Proof. unfold mints. now rewrite submitted_app, filter_app. Qed.

Lemma mints_of_nothing e : submitted e = [] -> mints e = [].
Proof. unfold mints. now intros ->. Qed.

Lemma mints_create req resp e :
  mints (EvCreateTx req resp :: e)
  = if TxRequest.abiFunctionSignature req =? mintSignature
    then req :: mints e else mints e.
Proof. reflexivity. Qed.

Lemma mints_other x e :
  (forall req resp, x <> EvCreateTx req resp) -> mints (x :: e) = mints e.
Proof. intro H. destruct x; try reflexivity. exfalso. eapply H. reflexivity. Qed.

(** A mint among the events shows among the mints. *)
Lemma mint_shows pre req resp post :
  TxRequest.abiFunctionSignature req = mintSignature ->
  mints (pre ++ EvCreateTx req resp :: post) <> [].
Proof.
  intros Hsig. rewrite mints_app, mints_create, Hsig, String.eqb_refl.
  intro H. apply app_eq_nil in H as [_ H]. discriminate H.
Qed.

(** The only mint of a list sits at one place. *)
Lemma mint_position l1 y ry l2 : forall pre x rx post,
  (l1 ++ EvCreateTx y ry :: l2 = pre ++ EvCreateTx x rx :: post)%list ->
  mints l1 = [] -> mints l2 = [] ->
  TxRequest.abiFunctionSignature x = mintSignature ->
  pre = l1 /\ x = y /\ rx = ry /\ post = l2.
Proof.
  induction l1 as [|a l1 IH]; intros pre x rx post Heq H1 H2 Hsig.
  - destruct pre as [|b pre]; cbn in Heq.
    + injection Heq as -> -> ->. repeat split.
    + injection Heq as _ ->. exfalso. revert H2. now apply mint_shows.
  - destruct pre as [|b pre]; cbn in Heq.
    + injection Heq as -> _. exfalso.
      rewrite mints_create, Hsig, String.eqb_refl in H1. discriminate H1.
    + injection Heq as <- Heq.
      assert (mints l1 = []) as H1'.
      { change (a :: l1) with ([a] ++ l1)%list in H1. rewrite mints_app in H1.
        now apply app_eq_nil in H1. }
      destruct (IH pre x rx post Heq H1' H2 Hsig) as (-> & -> & -> & ->).
      repeat split.
Qed.

Lemma mints_approval env sw amt a :
  isApprovalOf env sw amt a ->
  (TxRequest.abiFunctionSignature a =? mintSignature) = false.
Proof. intros (net & _ & ->). reflexivity. Qed.

Lemma mints_burn env sw dw amt b :
  isBurnOf env sw dw amt b ->
  (TxRequest.abiFunctionSignature b =? mintSignature) = false.
Proof. intros (net & d & enc & _ & _ & _ & ->). reflexivity. Qed.

Lemma mints_stepsOneTwo env sw dw amt r e :
  stepsOneTwo env sw dw amt r e -> mints e = [].
Proof.
  intros (_ & Hsub & _). unfold mints.
  destruct Hsub as [-> | (a & Ha & [-> | (b & Hb & ->)])]; cbn.
  - reflexivity.
  - now rewrite (mints_approval _ _ _ _ Ha).
  - now rewrite (mints_approval _ _ _ _ Ha), (mints_burn _ _ _ _ _ Hb).
Qed.

(** In a run that ends with steps 3 and 4, a mint found among the events
    is the attested mint, and what precedes it ends in the attested
    response. *)
Lemma mint_located prefix e34 c h dw pre req resp post :
  mints prefix = [] ->
  stepsThreeFour c h dw e34 ->
  (prefix ++ e34 = pre ++ EvCreateTx req resp :: post)%list ->
  TxRequest.abiFunctionSignature req = mintSignature ->
  exists polls d fr m messageTransmitter,
    pre = (prefix ++ polls ++ [EvFetch (attestationUrl d h) fr])%list
    /\ Forall (isAttestationPoll c h) polls
    /\ getCCTPDomainId c = Returns d
    /\ attestedMessage fr = Some m
    /\ getMessageTransmitterAddress (Wallet.blockchain dw) = Returns messageTransmitter
    /\ req = mintRequest dw messageTransmitter (attestationOf m).
Proof.
  intros Hprefix H34 Heq Hsig.
  destruct H34 as [Hpolls | (d & m & fr & polls & mt & resp' & mintTx & after
                             & Hd & Hmt & Hatt & -> & Hpolls & Hafter)].
  - exfalso. apply (mint_shows pre req resp post Hsig). rewrite <- Heq, mints_app, Hprefix.
    apply mints_of_nothing. now apply (attestationPolls_quiet c h).
  - assert (Hbefore : mints (prefix ++ polls ++ [EvFetch (attestationUrl d h) fr]) = []).
    { rewrite !mints_app, Hprefix.
      rewrite (mints_of_nothing polls) by now apply (attestationPolls_quiet c h).
      reflexivity. }
    assert (Hafter' : mints after = [])
      by (apply mints_of_nothing; now apply (txPolls_quiet mintTx)).
    assert (Heq' : ((prefix ++ polls ++ [EvFetch (attestationUrl d h) fr])
                      ++ EvCreateTx (mintRequest dw mt (attestationOf m)) resp' :: after
                    = pre ++ EvCreateTx req resp :: post)%list).
    { rewrite <- Heq. list_norm. reflexivity. }
    destruct (mint_position _ _ _ _ _ _ _ _ Heq' Hbefore Hafter' Hsig)
      as (-> & -> & _ & _).
    exists polls, d, fr, m, mt. repeat split; auto.
Qed.

(** ** The saga never mints without an attestation *)

Lemma burn_confirmed_later h e more :
  burnConfirmedIn h e -> submitted more = [] -> checks more = 0 ->
  burnConfirmedIn h (e ++ more).
Proof.
  intros (e0 & burnReq & burnTx & polls & tx & later & -> & Hsig & Hpolls & Hst & Hh
          & Hs & Hc) Hs' Hc'.
  exists e0, burnReq, burnTx, polls, tx, (later ++ more)%list.
  rewrite submitted_app, checks_app, Hs, Hs', Hc, Hc'.
  split; [list_norm; reflexivity|]. repeat split; auto.
Qed.

Lemma burn_confirmed_earlier h e before :
  burnConfirmedIn h e -> burnConfirmedIn h (before ++ e).
Proof.
  intros (e0 & burnReq & burnTx & polls & tx & later & -> & Hrest).
  exists (before ++ e0)%list, burnReq, burnTx, polls, tx, later.
  split; [list_norm; reflexivity | exact Hrest].
Qed.

(** C1.  In every run of [performCrossChainTransfer] and of
    [recoverFromBurn], a submitted [receiveMessage] transaction comes
    right after a response of the attestation service, requested for the
    burn hash of the run, that carries a non-empty attestation; the two
    parameters of the mint are the message and the attestation of that
    response.  In the full run the burn hash is the one reported by the
    status check that confirmed the burn; in the recovery it is the
    answer to the first prompt. *)
Theorem mint_only_after_attestation :
  (forall env p pre req resp post,
      evs (performCrossChainTransfer env p) = (pre ++ EvCreateTx req resp :: post)%list ->
      TxRequest.abiFunctionSignature req = "receiveMessage(bytes,bytes)" ->
      exists burnTxHash,
        burnConfirmedIn burnTxHash pre /\ attestedJustBefore burnTxHash pre req)
  /\ (forall env p pre req resp post,
        evs (recoverFromBurn env p) = (pre ++ EvCreateTx req resp :: post)%list ->
        TxRequest.abiFunctionSignature req = "receiveMessage(bytes,bytes)" ->
        exists burnTxHash rest,
          pre = EvQuestion AskBurnHash burnTxHash :: rest
          /\ attestedJustBefore (Some burnTxHash) pre req).
Proof.
  split.
  - intros env p pre req resp post Heq Hsig.
    destruct (sat_performCrossChainTransfer env p) as [_ Hrun]. rewrite Heq in Hrun.
    destruct Hrun as [(Hs & _) | (dialogue & sw & dw & amt & e' & He & Hidle & _ & Hsaga)].
    { exfalso. apply (mint_shows pre req resp post Hsig). now apply mints_of_nothing. }
    destruct Hsaga as (r & e12 & e34 & -> & H12 & H34).
    pose proof (mints_stepsOneTwo _ _ _ _ _ _ H12) as Hm12.
    assert (Hmd : mints dialogue = []) by (apply mints_of_nothing, Hidle).
    destruct r as [h|err].
    + assert (Hprefix : mints (dialogue ++ e12) = []) by now rewrite mints_app, Hmd, Hm12.
      assert (Heq' : ((dialogue ++ e12) ++ e34 = pre ++ EvCreateTx req resp :: post)%list)
        by (rewrite He; list_norm; reflexivity).
      destruct (mint_located _ _ _ _ _ _ _ _ _ Hprefix H34 Heq' Hsig)
        as (polls & d & fr & m & mt & -> & Hpolls & Hd & Hatt & Hmt & ->).
      exists h. split.
      * destruct H12 as (_ & _ & Hburn). destruct (Hburn h eq_refl) as [Hconfirmed _].
        destruct (attestationPolls_quiet _ _ _
                    (attestation_polls_with_fetch _ h d fr polls Hd Hpolls)) as [Hs Hc].
        rewrite <- app_assoc. apply burn_confirmed_earlier.
        now apply burn_confirmed_later.
      * exists ((dialogue ++ e12) ++ polls)%list, d, fr, m.
        split; [list_norm; reflexivity|]. split; [exact Hatt | reflexivity].
    + subst e34. exfalso. apply (mint_shows pre req resp post Hsig).
      rewrite He, app_nil_r, mints_app, Hmd, Hm12. reflexivity.
  - intros env p pre req resp post Heq Hsig.
    destruct (sat_recoverFromBurn env p) as (h & Hrun). rewrite Heq in Hrun.
    destruct Hrun as [He | (c & e' & He & Hrun)].
    { exfalso. apply (mint_shows pre req resp post Hsig). now rewrite He. }
    destruct Hrun as [(Hs & _) | (dialogue & dw & e34 & -> & Hidle & _ & _ & H34)].
    { exfalso. apply (mint_shows pre req resp post Hsig). rewrite He.
      rewrite !mints_other by discriminate. now apply mints_of_nothing. }
    set (asked := [EvQuestion AskBurnHash h; EvQuestion AskSourceBlockchain c]) in *.
    assert (Hprefix : mints (asked ++ dialogue) = []).
    { rewrite mints_app. rewrite (mints_of_nothing dialogue) by apply Hidle. reflexivity. }
    assert (Heq' : ((asked ++ dialogue) ++ e34 = pre ++ EvCreateTx req resp :: post)%list)
      by (rewrite He; reflexivity).
    destruct (mint_located _ _ _ _ _ _ _ _ _ Hprefix H34 Heq' Hsig)
      as (polls & d & fr & m & mt & -> & Hpolls & Hd & Hatt & Hmt & ->).
    exists h, ((EvQuestion AskSourceBlockchain c :: dialogue)
                 ++ polls ++ [EvFetch (attestationUrl d (Some h)) fr])%list.
    split; [reflexivity|].
    exists ((asked ++ dialogue) ++ polls)%list, d, fr, m.
    split; [list_norm; reflexivity|]. split; [exact Hatt | reflexivity].
Qed.

(** ** Recovery against the full run *)





(** A [try] whose handler only logs: it returns, unless the handler
    meets [null] or [undefined]. *)
Lemma caught_effects {A} (m : M A) env p :
  res ((tryCatch m ;;; ret tt) env p)
  = (if nullish (res (m env p)) then Throws (TypeError "error.message") else Returns tt)
  /\ pos ((tryCatch m ;;; ret tt) env p) = pos (m env p)
  /\ evs ((tryCatch m ;;; ret tt) env p) = evs (m env p).
Proof.
  rewrite bind_unfold, tryCatch_unfold.
  destruct (nullish (res (m env p))); cbn [res pos evs ret]; rewrite ?app_nil_r;
    repeat split.
Qed.

(** What steps 3 and 4 submit: nothing, or the one mint built from an
    attested response found among the events. *)
Lemma submitted_stepsThreeFour c h dw e :
  stepsThreeFour c h dw e ->
  submitted e = []
  \/ exists d m fr messageTransmitter,
       getCCTPDomainId c = Returns d
       /\ getMessageTransmitterAddress (Wallet.blockchain dw) = Returns messageTransmitter
       /\ attestedMessage fr = Some m
       /\ In (EvFetch (attestationUrl d h) fr) e
       /\ submitted e = [mintRequest dw messageTransmitter (attestationOf m)].
Proof.
  intros [Hpolls | (d & m & fr & polls & mt & resp & mintTx & after
                    & Hd & Hmt & Hatt & -> & Hpolls & Hafter)].
  - left. now apply (attestationPolls_quiet c h).
  - right. exists d, m, fr, mt. repeat split; auto.
    + apply in_or_app. right. left. reflexivity.
    + destruct (attestationPolls_quiet _ _ _ Hpolls) as [Hs _].
      destruct (txPolls_quiet _ _ Hafter) as [Hs' _].
      rewrite submitted_app, Hs.
      change (submitted (EvFetch (attestationUrl d h) fr
                           :: EvCreateTx (mintRequest dw mt (attestationOf m)) resp :: after))
        with (mintRequest dw mt (attestationOf m) :: submitted after).
      now rewrite Hs'.
Qed.







(** ** What the saga submits *)

(** The submissions of the saga are a prefix of: the approval, the burn,
    the mint built from an attested response. *)
Lemma saga_submitted env sw dw amt e :
  saga env sw dw amt e ->
  submitted e = []
  \/ exists a,
       isApprovalOf env sw amt a
       /\ (submitted e = [a]
           \/ exists b,
                isBurnOf env sw dw amt b
                /\ (submitted e = [a; b]
                    \/ exists burnTxHash d m fr messageTransmitter,
                         getCCTPDomainId (Wallet.blockchain sw) = Returns d
                         /\ getMessageTransmitterAddress (Wallet.blockchain dw)
                            = Returns messageTransmitter
                         /\ attestedMessage fr = Some m
                         /\ In (EvFetch (attestationUrl d burnTxHash) fr) e
                         /\ submitted e
                            = [a; b; mintRequest dw messageTransmitter (attestationOf m)])).
Proof.
  intros (r & e12 & e34 & -> & (_ & Hsub & Hret) & H34). rewrite submitted_app.
  destruct r as [h|err].
  - destruct (Hret h eq_refl) as (_ & a & b & Ha & Hb & ->).
    right. exists a. split; [exact Ha|]. right. exists b. split; [exact Hb|].
    destruct (submitted_stepsThreeFour _ _ _ _ H34)
      as [-> | (d & m & fr & mt & Hd & Hmt & Hatt & Hin & ->)].
    + left. reflexivity.
    + right. exists h, d, m, fr, mt. repeat split; auto.
      apply in_or_app. right. exact Hin.
  - subst e34. cbn [submitted flat_map]. rewrite app_nil_r.
    destruct Hsub as [-> | (a & Ha & [-> | (b & Hb & ->)])].
    + left. reflexivity.
    + right. exists a. split; [exact Ha | left; reflexivity].
    + right. exists a. split; [exact Ha|]. right. exists b.
      split; [exact Hb | left; reflexivity].
Qed.

(** C8.  With a transfer amount of 50 whose product with 1000000 prints
    as "50000000", the saga submits, in this order and as far as it
    gets: the approval of "50000000" base units for the TokenMessenger,
    on the USDC contract that [SUPPORTED_NETWORKS] gives for the source
    chain; the burn of "50000000" with the destination domain id of
    [getCCTPDomainId] and the destination address encoded by
    [addressToBytes32]; the mint with the message and attestation of a
    response of the attestation service. *)
Theorem transfer_of_50_submits_base_units :
  forall env sw dw p,
    numberToString env (PrimFloat.mul 50 1000000) = "50000000" ->
    let o := transferSteps sw dw 50 env p in
    submitted (evs o) = []
    \/ exists sourceNetwork,
         networkOf (Wallet.blockchain sw) = Returns sourceNetwork
         /\ let usdcContract := usdcContractOf sourceNetwork in
            let approval :=
              TxRequest.mk (Wallet.id sw) usdcContract "approve(address,uint256)"
                           [Some TokenMessenger; Some "50000000"]
                           (Fee.mk "level" (Fee.mkConfig "MEDIUM")) in
            submitted (evs o) = [approval]
            \/ exists domain encoded,
                 getCCTPDomainId (Wallet.blockchain dw) = Returns domain
                 /\ addressToBytes32 (Wallet.address dw) = Returns encoded
                 /\ let burn :=
                      TxRequest.mk (Wallet.id sw) (Some TokenMessenger)
                                   "depositForBurn(uint256,uint32,bytes32,address)"
                                   [Some "50000000"; Some (intToString domain);
                                    Some encoded; usdcContract]
                                   (Fee.mk "level" (Fee.mkConfig "MEDIUM")) in
                    submitted (evs o) = [approval; burn]
                    \/ exists burnTxHash d m fr messageTransmitter,
                         getCCTPDomainId (Wallet.blockchain sw) = Returns d
                         /\ getMessageTransmitterAddress (Wallet.blockchain dw)
                            = Returns messageTransmitter
                         /\ attestedMessage fr = Some m
                         /\ In (EvFetch (attestationUrl d burnTxHash) fr) (evs o)
                         /\ submitted (evs o)
                            = [approval; burn;
                               TxRequest.mk (Wallet.id dw) (Some messageTransmitter)
                                            "receiveMessage(bytes,bytes)"
                                            [Message.message m; Message.attestation m]
                                            (Fee.mk "level" (Fee.mkConfig "MEDIUM"))].
Proof.
  intros env sw dw p Hprint o. subst o.
  destruct (sat_transferSteps env sw dw 50 p) as [_ Hsaga].
  destruct (saga_submitted _ _ _ _ _ Hsaga) as [Hnone | (a & (net & Hnet & ->) & Hrest)].
  { left. exact Hnone. }
  right. exists net. split; [exact Hnet|]. cbv zeta.
  unfold approvalRequest, baseUnits in Hrest. rewrite Hprint in Hrest.
  destruct Hrest
    as [Hone | (b & (net' & domain & encoded & Hnet' & Hd & Henc & ->) & Hrest)].
  { left. exact Hone. }
  rewrite Hnet in Hnet'. injection Hnet' as <-.
  right. exists domain, encoded. split; [exact Hd|]. split; [exact Henc|].
  unfold burnRequest, baseUnits in Hrest. rewrite Hprint in Hrest.
  destruct Hrest as [Htwo | (h & d & m & fr & mt & Hsd & Hmt & Hatt & Hin & Hthree)].
  - left. exact Htwo.
  - right. exists h, d, m, fr, mt. repeat split; auto.
Qed.

(** The end-to-end scenario: 100 USDC on the source wallet, 50 asked
    for.  The whole run submits the approval and the burn of "50000000"
    and the mint of the attested message. *)
Lemma transfer_of_50_submits_base_units_witness :
  numberToString transferScenario (PrimFloat.mul 50 1000000) = "50000000"
  /\ submitted (evs (performCrossChainTransfer transferScenario start))
     = submitted (evs (transferSteps listedSepolia listedAmoy 50 transferScenario
                                     (mkPos 4 1 1 1 0 0 0)))
  /\ submitted (evs (transferSteps listedSepolia listedAmoy 50 transferScenario
                                   (mkPos 4 1 1 1 0 0 0)))
     = [TxRequest.mk "w-1" (Some "0x1c7D4B196Cb0C7B01d743Fbc6116a902379C7238")
                     "approve(address,uint256)"
                     [Some TokenMessenger; Some "50000000"]
                     (Fee.mk "level" (Fee.mkConfig "MEDIUM"));
        TxRequest.mk "w-1" (Some TokenMessenger)
                     "depositForBurn(uint256,uint32,bytes32,address)"
                     [Some "50000000"; Some "7";
                      Some "0x0000000000000000000000002222222222222222222222222222222222222222";
                      Some "0x1c7D4B196Cb0C7B01d743Fbc6116a902379C7238"]
                     (Fee.mk "level" (Fee.mkConfig "MEDIUM"));
        TxRequest.mk "w-2" (Some "0x7865fAfC2db2093669d92c0F33AeEF291086BEFD")
                     "receiveMessage(bytes,bytes)"
                     [Some "0xfeed"; Some "0xbeef"]
                     (Fee.mk "level" (Fee.mkConfig "MEDIUM"))].
Proof.
  split; [vm_compute; reflexivity|]. split; [vm_compute; reflexivity|].
  destruct (transfer_of_50_submits_base_units transferScenario listedSepolia listedAmoy
              (mkPos 4 1 1 1 0 0 0) eq_refl)
    as [H | (net & _ & [H | (domain & encoded & _ & _
                             & [H | (h & d & m & fr & mt & _ & _ & _ & _ & H)])])].
  1-3: exfalso; vm_compute in H; discriminate H.
  vm_compute. reflexivity.
Defined.

(** ** Admission of a transfer *)

(** C9.  The guards of the dialogue let a transfer through that they
    should stop.  In [unreadableBalance] the USDC entry of the source
    wallet has no amount: [findUSDCBalance] makes NaN of it, and both
    [sourceUSDCBalance <= 0] and [transferAmount > sourceUSDCBalance] are
    false on NaN; the run asks for an amount, takes 50 and submits the
    approval, the burn and the mint.  In [inheritedChain] the first wallet
    is on a chain called "constructor", a name every object inherits:
    [SUPPORTED_NETWORKS[wallet.blockchain]] is truthy, the wallet is
    offered, and the approval (with no contract address) and the burn are
    submitted from it. *)
Theorem transfer_admitted_without_a_balance :
  PrimFloat.is_nan
    (findUSDCBalance unreadableBalance
                     (balancesOf (getWalletTokenBalance unreadableBalance 0))) = true
  /\ res (performCrossChainTransfer unreadableBalance start) = Returns tt
  /\ submitted (evs (performCrossChainTransfer unreadableBalance start))
     = [TxRequest.mk "w-1" (Some "0x1c7D4B196Cb0C7B01d743Fbc6116a902379C7238")
                     "approve(address,uint256)"
                     [Some TokenMessenger; Some "50000000"]
                     (Fee.mk "level" (Fee.mkConfig "MEDIUM"));
        TxRequest.mk "w-1" (Some TokenMessenger)
                     "depositForBurn(uint256,uint32,bytes32,address)"
                     [Some "50000000"; Some "7";
                      Some "0x0000000000000000000000002222222222222222222222222222222222222222";
                      Some "0x1c7D4B196Cb0C7B01d743Fbc6116a902379C7238"]
                     (Fee.mk "level" (Fee.mkConfig "MEDIUM"));
        TxRequest.mk "w-2" (Some "0x7865fAfC2db2093669d92c0F33AeEF291086BEFD")
                     "receiveMessage(bytes,bytes)"
                     [Some "0xfeed"; Some "0xbeef"]
                     (Fee.mk "level" (Fee.mkConfig "MEDIUM"))]
  /\ supportedNetwork "constructor" = None
  /\ isSupported "constructor" = true
  /\ submitted (evs (performCrossChainTransfer inheritedChain start))
     = [TxRequest.mk "w-5" None
                     "approve(address,uint256)"
                     [Some TokenMessenger; Some "50000000"]
                     (Fee.mk "level" (Fee.mkConfig "MEDIUM"));
        TxRequest.mk "w-5" (Some TokenMessenger)
                     "depositForBurn(uint256,uint32,bytes32,address)"
                     [Some "50000000"; Some "7";
                      Some "0x0000000000000000000000002222222222222222222222222222222222222222";
                      None]
                     (Fee.mk "level" (Fee.mkConfig "MEDIUM"))].
Proof. repeat split; vm_compute; reflexivity. Qed.

(** ** The source-blockchain prompt of the recovery *)

Lemma no_fetch_when_none e url r : fetches e = 0 -> ~ In (EvFetch url r) e.
Proof.
  unfold fetches. induction e as [|x e IH]; intros H Hin; [destruct Hin|].
  destruct Hin as [-> | Hin]; [discriminate H|].
  destruct x; cbn in H; try discriminate H; now apply IH.
Qed.

Lemma fetch_among_attestation_polls c h e url r :
  Forall (isAttestationPoll c h) e -> In (EvFetch url r) e ->
  exists d, getCCTPDomainId c = Returns d /\ url = attestationUrl d h.
Proof.
  intros Hall Hin. rewrite Forall_forall in Hall.
  destruct (Hall _ Hin) as [H | (d & r' & Hd & H)]; [discriminate H|].
  injection H as -> _. exists d. split; [exact Hd | reflexivity].
Qed.

Lemma fetch_in_stepsThreeFour c h dw e url r :
  stepsThreeFour c h dw e -> In (EvFetch url r) e ->
  exists d, getCCTPDomainId c = Returns d /\ url = attestationUrl d h.
Proof.
  intros [Hpolls | (d & m & fr & polls & mt & resp & mintTx & after
                    & Hd & _ & _ & -> & Hpolls & Hafter)] Hin.
  - exact (fetch_among_attestation_polls c h e url r Hpolls Hin).
  - apply in_app_or in Hin as [Hin | [Hin | [Hin | Hin]]].
    + exact (fetch_among_attestation_polls c h polls url r Hpolls Hin).
    + injection Hin as <- _. exists d. split; [exact Hd | reflexivity].
    + discriminate Hin.
    + exfalso. destruct (txPolls_quiet _ _ Hafter) as [_ Hf].
      exact (no_fetch_when_none _ _ _ Hf Hin).
Qed.

Lemma bind_askQuestion {B} question (f : string -> M B) env p :
  bind (askQuestion question) f env p
  = let answer := trim (stdin env (nAsked p)) in
    let o := f answer env (askedMore 1 p) in
    mkOut (res o) (pos o) (EvQuestion question answer :: evs o).
Proof. reflexivity. Qed.




(* ================================================================== *)
(** * Further properties of the script *)

(** ** The chain tables *)

Lemma In_supportedChains blockchain :
  In blockchain supportedChains <->
  (blockchain = "ETH" \/ blockchain = "MATIC" \/ blockchain = "AVAX"
   \/ blockchain = "ETH-SEPOLIA" \/ blockchain = "MATIC-AMOY").
Proof.
  unfold supportedChains. cbn. split.
  - intros [H | [H | [H | [H | [H | []]]]]]; subst; tauto.
  - intros [H | [H | [H | [H | H]]]]; subst; tauto.
Qed.

Ltac by_chain blockchain :=
  repeat match goal with
         | |- context [String.eqb blockchain ?c] =>
             destruct (String.eqb_spec blockchain c)
         | |- context [String.eqb ?c blockchain] =>
             destruct (String.eqb_spec c blockchain)
         end.

Lemma ownEntry_iff blockchain :
  (exists network, supportedNetwork blockchain = Some network)
  <-> In blockchain supportedChains.
Proof.
  rewrite In_supportedChains.
  unfold supportedNetwork, SUPPORTED_NETWORKS, lookupNetwork.
  split.
  - intros [network H]. revert H. by_chain blockchain; subst; try tauto. discriminate.
  - intros [H | [H | [H | [H | H]]]]; subst; eexists; reflexivity.
Qed.

Lemma isSupported_iff blockchain :
  isSupported blockchain = true
  <-> In blockchain supportedChains \/ In blockchain inheritedNames.
Proof.
  unfold isSupported, entryOf.
  destruct (supportedNetwork blockchain) as [network|] eqn:Hown.
  - split; [|reflexivity]. intros _. left. apply ownEntry_iff. now exists network.
  - destruct (existsb (String.eqb blockchain) inheritedNames) eqn:Hin.
    + split; [|reflexivity]. intros _. right.
      apply existsb_exists in Hin as (x & Hx & Heq). apply String.eqb_eq in Heq. now subst.
    + split; [discriminate|]. intros [H | H].
      * apply ownEntry_iff in H as [network H]. congruence.
      * exfalso. assert (existsb (String.eqb blockchain) inheritedNames = true); [|congruence].
        apply existsb_exists. exists blockchain. split; [exact H | apply String.eqb_refl].
Qed.

Lemma domain_iff blockchain :
  (exists d, getCCTPDomainId blockchain = Returns d) <-> In blockchain supportedChains.
Proof.
  rewrite In_supportedChains. split.
  - intros [d Hd]. revert Hd. unfold getCCTPDomainId.
    by_chain blockchain; subst; try tauto. discriminate.
  - intros [H | [H | [H | [H | H]]]]; subst; eexists; reflexivity.
Qed.

Lemma transmitter_iff blockchain :
  (exists a, getMessageTransmitterAddress blockchain = Returns a)
  <-> In blockchain supportedChains.
Proof.
  rewrite In_supportedChains. split.
  - intros [a Ha]. revert Ha. unfold getMessageTransmitterAddress.
    by_chain blockchain; subst; try tauto. discriminate.
  - intros [H | [H | [H | [H | H]]]]; subst; eexists; reflexivity.
Qed.

(** X1.  The tables of the script know the same five chains: a chain
    is an own key of [SUPPORTED_NETWORKS] exactly when [getCCTPDomainId]
    returns for it, exactly when [getMessageTransmitterAddress] returns
    for it, and exactly when [getExplorerUrl] gives a link that ends in
    the transaction hash.  The test [SUPPORTED_NETWORKS[blockchain]] of
    the wallet filters accepts more: the five chains and the names that
    the object inherits, for which it yields an object without
    [usdcContract] and the two switches throw. *)
Theorem chain_tables_agree :
  forall blockchain,
    ((exists network, supportedNetwork blockchain = Some network)
     <-> In blockchain supportedChains)
    /\ ((exists d, getCCTPDomainId blockchain = Returns d)
        <-> In blockchain supportedChains)
    /\ ((exists a, getMessageTransmitterAddress blockchain = Returns a)
        <-> In blockchain supportedChains)
    /\ ((exists base, forall txHash,
            getExplorerUrl blockchain txHash = base ++ template txHash)
        <-> In blockchain supportedChains)
    /\ (isSupported blockchain = true
        <-> In blockchain supportedChains \/ In blockchain inheritedNames)
    /\ (In blockchain inheritedNames ->
        networkOf blockchain = Returns (Inherited blockchain)
        /\ usdcContractOf (Inherited blockchain) = None
        /\ getCCTPDomainId blockchain = Throws (UnsupportedBlockchain blockchain)
        /\ getMessageTransmitterAddress blockchain = Throws (UnsupportedBlockchain blockchain)).
Proof.
  intro blockchain.
  split; [apply ownEntry_iff|]. split; [apply domain_iff|].
  split; [apply transmitter_iff|].
  split; [|split; [apply isSupported_iff|]].
  - rewrite In_supportedChains. split.
    + intros [base Hbase]. revert Hbase. unfold getExplorerUrl.
      by_chain blockchain; subst; try tauto.
      intro Hbase. exfalso.
      pose proof (Hbase (Some EmptyString)) as H0.
      pose proof (Hbase (Some "x")) as H1.
      apply (f_equal String.length) in H0. apply (f_equal String.length) in H1.
      rewrite !length_append in H0, H1. cbn [template String.length] in H0, H1. lia.
    + intros [H | [H | [H | [H | H]]]]; subst; eexists; intro; reflexivity.
  - intro Hin. cbn in Hin.
    repeat (destruct Hin as [<- | Hin]; [repeat split|]). destruct Hin.
Qed.

(** The name "constructor": accepted by the wallet filters, unknown to
    the switches. *)
Lemma chain_tables_agree_witness :
  isSupported "constructor" = true
  /\ networkOf "constructor" = Returns (Inherited "constructor")
  /\ getCCTPDomainId "constructor" = Throws (UnsupportedBlockchain "constructor").
Proof.
  destruct (chain_tables_agree "constructor") as (_ & _ & _ & _ & Hsup & Hinh).
  split; [apply Hsup; right; cbn; tauto|].
  destruct Hinh as (Hnet & _ & Hd & _); [cbn; tauto|].
  split; [exact Hnet | exact Hd].
Defined.

(** ** The pollers: what fails and what does not *)

(** X2.  On a source chain that [getCCTPDomainId] does not know,
    [waitForAttestation] fails at once with the unsupported-blockchain
    error: no wait, no HTTP request. *)
Theorem waitForAttestation_unsupported_chain :
  forall env burnTxHash sourceBlockchain p,
    ~ In sourceBlockchain supportedChains ->
    waitForAttestation burnTxHash sourceBlockchain env p
    = mkOut (Throws (UnsupportedBlockchain sourceBlockchain)) p [].
Proof.
  intros env burnTxHash sourceBlockchain p Hnot.
  assert (Hd : getCCTPDomainId sourceBlockchain
               = Throws (UnsupportedBlockchain sourceBlockchain)).
  { rewrite In_supportedChains in Hnot. unfold getCCTPDomainId.
    by_chain sourceBlockchain; subst; try (exfalso; tauto). reflexivity. }
  unfold waitForAttestation, bind, lift. cbv beta iota delta [res pos evs].
  rewrite Hd. reflexivity.
Qed.

Lemma waitForAttestation_unsupported_chain_witness :
  waitForAttestation (Some "0xb0b") "SOL-DEVNET" transferScenario start
  = mkOut (Throws (UnsupportedBlockchain "SOL-DEVNET")) start [].
Proof.
  apply waitForAttestation_unsupported_chain.
  intro H. cbn in H. repeat (destruct H as [H | H]; [discriminate H|]). exact H.
Defined.

Lemma transactionLoop_errors env txId step n : forall p e,
  res (transactionLoop txId step n env p) = Throws e ->
  (e = TransactionTimeout step
   /\ checks (evs (transactionLoop txId step n env p)) = n)
  \/ (e = TypeError "error.message"
      /\ exists k, k < n
                   /\ nullish (getTransaction env (k + nChecked p)) = true
                   /\ checks (evs (transactionLoop txId step n env p)) = S k).
Proof.
  induction n as [|n IH]; intros p e.
  - cbn. intros [= <-]. left. split; reflexivity.
  - rewrite transactionLoop_step.
    destruct (confirmedHash (getTransaction env (nChecked p))); [discriminate|].
    destruct (nullish (getTransaction env (nChecked p))) eqn:Hnull.
    + cbn [res evs]. intros [= <-]. right. split; [reflexivity|].
      exists 0. split; [lia|]. split; [exact Hnull | reflexivity].
    + cbn zeta. cbn [res evs]. intro H.
      destruct (IH _ _ H) as [[-> Hn] | (-> & k & Hk & Hnullk & Hn)].
      * left. split; [reflexivity|]. rewrite checks_app, Hn. reflexivity.
      * right. split; [reflexivity|]. exists (S k). split; [lia|].
        split; [|rewrite checks_app, Hn; reflexivity].
        cbn in Hnullk. replace (S k + nChecked p) with (k + S (nChecked p)) by lia.
        exact Hnullk.
Qed.

Lemma attestationLoop_errors env url N n : forall p e,
  res (attestationLoop url N n env p) = Throws e ->
  (e = AttestationTimeout N
   /\ fetches (evs (attestationLoop url N n env p)) = n)
  \/ (e = TypeError "error.message"
      /\ exists k, k < n
                   /\ nullishFetch (fetch env url (k + nFetched p)) = true
                   /\ fetches (evs (attestationLoop url N n env p)) = S k).
Proof.
  induction n as [|n IH]; intros p e.
  - cbn. intros [= <-]. left. split; reflexivity.
  - rewrite attestationLoop_step.
    destruct (attestedMessage (fetch env url (nFetched p))); [discriminate|].
    destruct (nullishFetch (fetch env url (nFetched p))) eqn:Hnull.
    + cbn [res evs]. intros [= <-]. right. split; [reflexivity|].
      exists 0. split; [lia|]. split; [exact Hnull | reflexivity].
    + cbn zeta. cbn [res evs]. intro H.
      destruct (IH _ _ H) as [[-> Hn] | (-> & k & Hk & Hnullk & Hn)].
      * left. split; [reflexivity|].
        rewrite fetches_app, fetches_fetchRound, Hn. reflexivity.
      * right. split; [reflexivity|]. exists (S k). split; [lia|].
        split; [|rewrite fetches_app, fetches_fetchRound, Hn; reflexivity].
        cbn in Hnullk. replace (S k + nFetched p) with (k + S (nFetched p)) by lia.
        exact Hnullk.
Qed.

(** X3.  What goes wrong inside a polling loop is logged and the loop
    goes on, as long as what was thrown is an error with a message.  The
    errors of [waitForTransactionCompletion] are its timeout, raised
    after exactly 40 status checks, and the TypeError of its handler,
    raised right after a check that [getTransaction] rejected with [null]
    or [undefined].  On a supported source chain the errors of
    [waitForAttestation] are its timeout, raised after exactly 40
    requests, and the TypeError of its handler, raised right after a
    request in which [fetch] or the reading of the body threw [null] or
    [undefined]; no HTTP status and no other error ends it. *)
Theorem pollers_fail_in_two_ways :
  (forall env txId step p e,
      let o := waitForTransactionCompletion txId step env p in
      res o = Throws e ->
      (e = TransactionTimeout step /\ checks (evs o) = 40)
      \/ (e = TypeError "error.message"
          /\ exists k, k < 40
                       /\ nullish (getTransaction env (k + nChecked p)) = true
                       /\ checks (evs o) = S k))
  /\ (forall env burnTxHash sourceBlockchain p e,
        let o := waitForAttestation burnTxHash sourceBlockchain env p in
        In sourceBlockchain supportedChains ->
        res o = Throws e ->
        (e = AttestationTimeout 40 /\ fetches (evs o) = 40)
        \/ (e = TypeError "error.message"
            /\ exists d k,
                getCCTPDomainId sourceBlockchain = Returns d
                /\ k < 40
                /\ nullishFetch (fetch env (attestationUrl d burnTxHash) (k + nFetched p))
                   = true
                /\ fetches (evs o) = S k)).
Proof.
  split.
  - intros env txId step p e. apply transactionLoop_errors.
  - intros env burnTxHash sourceBlockchain p e o Hin. subst o.
    apply domain_iff in Hin as [d Hd].
    rewrite (waitForAttestation_supported env burnTxHash sourceBlockchain d p Hd).
    intro H. destruct (attestationLoop_errors _ _ _ _ _ _ H)
      as [Htimeout | (-> & k & Hk & Hnull & Hn)].
    + left. exact Htimeout.
    + right. split; [reflexivity|]. exists d, k. repeat split; assumption.
Qed.

(** Nobody answers: both pollers time out after 40 rounds.  The status
    check is rejected with [null] at the third round: the poller ends
    there. *)
Lemma pollers_fail_in_two_ways_witness :
  checks (evs (waitForTransactionCompletion "tx-1" "Burn" silent start)) = 40
  /\ fetches (evs (waitForAttestation (Some "0xb0b") "ETH-SEPOLIA" silent start)) = 40
  /\ res (waitForTransactionCompletion "tx-1" "Burn" rejectedCheck start)
     = Throws (TypeError "error.message")
  /\ checks (evs (waitForTransactionCompletion "tx-1" "Burn" rejectedCheck start)) = 3.
Proof.
  assert (Htx : res (waitForTransactionCompletion "tx-1" "Burn" silent start)
                = Throws (TransactionTimeout "Burn")) by (vm_compute; reflexivity).
  assert (Hatt : res (waitForAttestation (Some "0xb0b") "ETH-SEPOLIA" silent start)
                 = Throws (AttestationTimeout 40)) by (vm_compute; reflexivity).
  assert (Hchain : In "ETH-SEPOLIA" supportedChains) by (cbn; tauto).
  split; [|split].
  - destruct (proj1 pollers_fail_in_two_ways _ _ _ _ _ Htx) as [[_ H] | [H _]];
      [exact H | discriminate H].
  - destruct (proj2 pollers_fail_in_two_ways _ _ _ _ _ Hchain Hatt) as [[_ H] | [H _]];
      [exact H | discriminate H].
  - split; vm_compute; reflexivity.
Defined.

(** ** Wallet and balance lookup *)

Lemma listedSets_app a b : listedSets (a ++ b) = (listedSets a ++ listedSets b)%list.
Proof. unfold listedSets. apply flat_map_app. Qed.

Lemma walletsMore_S k p :
  walletsMore k (walletsMore 1 p) = walletsMore (S k) p.
Proof. unfold walletsMore; cbn. f_equal. lia. Qed.

Lemma bind_try_listWallets {B} walletSetId
      (f : Thrown (option (list Wallet.t)) -> M B) env p :
  bind (tryCatch (client_listWallets walletSetId)) f env p
  = let r := listWallets env (nWallets p) in
    if nullish r
    then mkOut (Throws (TypeError "error.message")) (walletsMore 1 p)
               [EvListWallets walletSetId r]
    else let o := f r env (walletsMore 1 p) in
         mkOut (res o) (pos o) (EvListWallets walletSetId r :: evs o).
Proof.
  rewrite bind_unfold, tryCatch_unfold. unfold client_listWallets. cbn [res pos evs].
  cbv zeta. destruct (nullish (listWallets env (nWallets p))); reflexivity.
Qed.

(** The loop of [getAllWallets] lists the sets in order and gathers what
    the listings return; it goes past a listing that fails with an error
    and ends, with the TypeError of its handler, at one that is rejected
    with [null] or [undefined]. *)
Lemma collectWallets_run env walletSets : forall p,
  let o := collectWallets walletSets env p in
  ((forall i, i < List.length walletSets ->
              nullish (listWallets env (i + nWallets p)) = false)
   /\ res o = Returns (gathered env walletSets (nWallets p))
   /\ pos o = walletsMore (List.length walletSets) p
   /\ listedSets (evs o) = map WalletSet.id walletSets)
  \/ (exists k,
         k < List.length walletSets
         /\ (forall i, i < k -> nullish (listWallets env (i + nWallets p)) = false)
         /\ nullish (listWallets env (k + nWallets p)) = true
         /\ res o = Throws (TypeError "error.message")
         /\ listedSets (evs o) = map WalletSet.id (firstn (S k) walletSets)).
Proof.
  induction walletSets as [|walletSet rest IH]; intro p; cbv zeta.
  - left. cbn. destruct p; repeat split. intros i Hi. lia.
  - cbn [collectWallets]. rewrite bind_try_listWallets. cbv zeta.
    destruct (nullish (listWallets env (nWallets p))) eqn:Hnull.
    + right. exists 0. cbn [res evs List.length]. split; [lia|].
      split; [intros i Hi; lia|]. split; [exact Hnull|]. split; reflexivity.
    + rewrite bind_unfold.
      destruct (IH (walletsMore 1 p))
        as [(Hall & Hres & Hpos & Hlisted) | (k & Hk & Hall & Hnk & Hres & Hlisted)];
        rewrite Hres; cbn [res pos evs ret].
      * left. split; [|split; [|split]].
        -- intros [|i] Hi; [exact Hnull|].
           replace (S i + nWallets p) with (i + nWallets (walletsMore 1 p))
             by (cbn; lia).
           apply Hall. cbn in Hi. lia.
        -- cbn [gathered nWallets walletsMore Nat.add].
           destruct (listWallets env (nWallets p)) as [[ws|]|err]; reflexivity.
        -- rewrite Hpos, walletsMore_S. reflexivity.
        -- rewrite app_nil_r.
           change (listedSets (EvListWallets (WalletSet.id walletSet)
                                             (listWallets env (nWallets p))
                                 :: evs (collectWallets rest env (walletsMore 1 p))))
             with (WalletSet.id walletSet
                     :: listedSets (evs (collectWallets rest env (walletsMore 1 p)))).
           now rewrite Hlisted.
      * right. exists (S k). split; [cbn; lia|]. split; [|split; [|split]].
        -- intros [|i] Hi; [exact Hnull|].
           replace (S i + nWallets p) with (i + nWallets (walletsMore 1 p))
             by (cbn; lia).
           apply Hall. lia.
        -- replace (S k + nWallets p) with (k + nWallets (walletsMore 1 p))
             by (cbn; lia).
           exact Hnk.
        -- reflexivity.
        -- change (listedSets (EvListWallets (WalletSet.id walletSet)
                                             (listWallets env (nWallets p))
                                 :: evs (collectWallets rest env (walletsMore 1 p))))
             with (WalletSet.id walletSet
                     :: listedSets (evs (collectWallets rest env (walletsMore 1 p)))).
           rewrite Hlisted. reflexivity.
Qed.

Lemma getAllWallets_run env p :
  let response := listWalletSets env (nWalletSets p) in
  let walletSets := setsOf response in
  let o := getAllWallets env p in
  (nullish response = false
   /\ (forall i, i < List.length walletSets ->
                 nullish (listWallets env (i + nWallets p)) = false)
   /\ res o = Returns (gathered env walletSets (nWallets p))
   /\ listedSets (evs o) = map WalletSet.id walletSets)
  \/ (exists k,
         k < List.length walletSets
         /\ (forall i, i < k -> nullish (listWallets env (i + nWallets p)) = false)
         /\ nullish (listWallets env (k + nWallets p)) = true
         /\ res o = Returns []
         /\ listedSets (evs o) = map WalletSet.id (firstn (S k) walletSets))
  \/ (nullish response = true
      /\ res o = Throws (TypeError "error.message")
      /\ listedSets (evs o) = []).
Proof.
  cbv zeta. unfold getAllWallets.
  rewrite bind_unfold, tryCatch_unfold, bind_unfold.
  unfold client_listWalletSets. cbn [res pos evs].
  destruct (listWalletSets env (nWalletSets p)) as [[walletSets|]|err];
    cbn [setsOf].
  - destruct walletSets as [|walletSet rest]; cbn [List.length Nat.eqb].
    { left. cbn. repeat split. intros i Hi. lia. }
    match goal with
    | |- context [collectWallets ?l env ?q] =>
        destruct (collectWallets_run env l q)
          as [(Hall & Hres & _ & Hlisted) | (k & Hk & Hall & Hnk & Hres & Hlisted)];
        cbv zeta in *; rewrite Hres; cbn [res pos evs nullish ret]
    end.
    + left. split; [reflexivity|]. split; [exact Hall|]. split; [reflexivity|].
      rewrite app_nil_r. exact Hlisted.
    + right. left. exists k. split; [exact Hk|]. split; [exact Hall|].
      split; [exact Hnk|]. split; [reflexivity|]. rewrite app_nil_r. exact Hlisted.
  - left. cbn. repeat split. intros i Hi. lia.
  - destruct err; cbn; try (left; repeat split; intros i Hi; lia).
    right. right. repeat split.
Qed.

Lemma In_gathered env walletSets w : forall from,
  In w (gathered env walletSets from)
  <-> exists i walletSet raws raw,
        nth_error walletSets i = Some walletSet
        /\ listWallets env (i + from) = Returns (Some raws)
        /\ In raw raws
        /\ w = annotate walletSet raw.
Proof.
  induction walletSets as [|walletSet rest IH]; intro from.
  - cbn. split; [intros [] | intros ([|i] & ws & raws & raw & H & _); discriminate H].
  - cbn [gathered]. rewrite in_app_iff, IH. split.
    + intros [Hin | (i & ws & raws & raw & Hnth & Hresp & Hraw & ->)].
      * destruct (listWallets env from) as [[raws|]|err] eqn:Hresp; try destruct Hin.
        apply in_map_iff in Hin as (raw & <- & Hraw).
        exists 0, walletSet, raws, raw. repeat split; auto.
      * exists (S i), ws, raws, raw. repeat split; auto.
        now replace (S i + from) with (i + S from) by lia.
    + intros ([|i] & ws & raws & raw & Hnth & Hresp & Hraw & ->).
      * cbn in Hnth, Hresp. injection Hnth as <-. left. rewrite Hresp.
        now apply in_map.
      * right. exists i, ws, raws, raw. repeat split; auto.
        now replace (i + S from) with (S i + from) by lia.
Qed.

(** X4.  [getAllWallets] asks for the wallets of the wallet sets once
    each, in the order of the sets.  A listing that fails with an error
    is logged and skipped: when none is rejected with [null] or
    [undefined], every set is listed and the result is exactly the
    wallets of the listings that succeeded, each tagged with the name and
    id of the set it was listed under; when the sets cannot be listed it
    is no wallet.  A listing rejected with [null] or [undefined] ends the
    loop there and the result is no wallet at all; the listing of the
    sets so rejected makes [getAllWallets] throw the TypeError of its
    handler. *)
Theorem getAllWallets_gathers_every_set :
  forall env p,
    let response := listWalletSets env (nWalletSets p) in
    let walletSets := setsOf response in
    let o := getAllWallets env p in
    (nullish response = false
     /\ (forall i, i < List.length walletSets ->
                   nullish (listWallets env (i + nWallets p)) = false)
     /\ exists allWallets,
         res o = Returns allWallets
         /\ listedSets (evs o) = map WalletSet.id walletSets
         /\ (forall w,
               In w allWallets
               <-> exists i walletSet raws raw,
                     nth_error walletSets i = Some walletSet
                     /\ listWallets env (i + nWallets p) = Returns (Some raws)
                     /\ In raw raws
                     /\ w = Wallet.mk (Wallet.id raw) (Wallet.address raw)
                                      (Wallet.blockchain raw) (Wallet.state raw)
                                      (Some (WalletSet.name walletSet))
                                      (Some (WalletSet.id walletSet))))
    \/ (exists k,
           k < List.length walletSets
           /\ (forall i, i < k -> nullish (listWallets env (i + nWallets p)) = false)
           /\ nullish (listWallets env (k + nWallets p)) = true
           /\ res o = Returns []
           /\ listedSets (evs o) = map WalletSet.id (firstn (S k) walletSets))
    \/ (nullish response = true
        /\ res o = Throws (TypeError "error.message")
        /\ listedSets (evs o) = []).
Proof.
  intros env p response walletSets o.
  destruct (getAllWallets_run env p) as [(Hn & Hall & Hres & Hlisted) | [H | H]];
    [left | right; left; exact H | right; right; exact H].
  split; [exact Hn|]. split; [exact Hall|].
  exists (gathered env walletSets (nWallets p)).
  split; [exact Hres|]. split; [exact Hlisted|].
  intro w. apply In_gathered.
Qed.

Lemma prefix_iff sub : forall s,
  String.prefix sub s = true <-> exists rest, s = sub ++ rest.
Proof.
  induction sub as [|c sub IH]; intro s.
  - destruct s; cbn; split; eauto.
  - destruct s as [|d s]; cbn.
    + split; [discriminate | intros [rest H]; discriminate H].
    + destruct (Ascii.ascii_dec c d) as [<- | Hne].
      * rewrite IH. split; intros [rest H]; exists rest.
        -- now rewrite H.
        -- now injection H.
      * split; [discriminate|]. intros [rest H]. injection H as H _.
        now symmetry in H.
Qed.

(** [includes] is the substring test. *)
Lemma includes_iff sub : forall s,
  includes sub s = true <-> exists before after, s = before ++ sub ++ after.
Proof.
  induction s as [|c s IH]; cbn [includes]; rewrite orb_true_iff, prefix_iff.
  - split.
    + intros [[rest H] | H]; [|discriminate H]. exists EmptyString, rest. exact H.
    + intros (before & after & H). left.
      destruct before; [|discriminate H]. exists after. exact H.
  - rewrite IH. split.
    + intros [[rest H] | (before & after & H)].
      * exists EmptyString, rest. exact H.
      * exists (String c before), after. cbn. now rewrite H.
    + intros ([|d before] & after & H).
      * left. exists after. exact H.
      * right. cbn in H. injection H as _ H. exists before, after. exact H.
Qed.

Lemma find_none_iff {A} (f : A -> bool) l :
  find f l = None <-> forall x, In x l -> f x = false.
Proof.
  induction l as [|a l IH]; cbn.
  - split; [intros _ x [] | reflexivity].
  - destruct (f a) eqn:Hfa.
    + split; [discriminate|]. intro H. rewrite (H a) in Hfa by now left. discriminate.
    + rewrite IH. split.
      * intros H x [<- | Hx]; auto.
      * intros H x Hx. apply H. now right.
Qed.

(** X5.  [findUSDCBalance] reads the amount of the first balance whose
    token has the symbol "USDC" or a name containing "USD Coin"; later
    entries are ignored, and without such an entry the balance is 0. *)
Theorem findUSDCBalance_first_match :
  forall env,
    (forall tokenBalances,
        (forall b, In b tokenBalances -> isUSDC b = false) ->
        findUSDCBalance env tokenBalances = 0%float)
    /\ (forall before b after,
          (forall x, In x before -> isUSDC x = false) ->
          isUSDC b = true ->
          findUSDCBalance env (before ++ b :: after)
          = parseFloat env (template (TokenBalance.amount b)))
    /\ (forall b,
          isUSDC b = true
          <-> exists token,
                TokenBalance.token b = Some token
                /\ (Token.symbol token = Some "USDC"
                    \/ exists name l r,
                         Token.name token = Some name
                         /\ name = l ++ "USD Coin" ++ r)).
Proof.
  intro env. split; [|split].
  - intros tokenBalances Hnone. unfold findUSDCBalance.
    now rewrite (proj2 (find_none_iff isUSDC tokenBalances) Hnone).
  - intros before b after Hbefore Hb. unfold findUSDCBalance.
    induction before as [|x before IH]; cbn [app find].
    + now rewrite Hb.
    + rewrite (Hbefore x) by now left. apply IH. intros y Hy. apply Hbefore. now right.
  - intro b. unfold isUSDC, strictEq.
    destruct (TokenBalance.token b) as [token|].
    + rewrite orb_true_iff. split.
      * intros [Hsym | Hname]; exists token; (split; [reflexivity|]).
        -- left. destruct (Token.symbol token) as [sym|]; [|discriminate].
           apply String.eqb_eq in Hsym. now subst.
        -- right. destruct (Token.name token) as [name|]; [|discriminate].
           apply includes_iff in Hname as (l & r & ->). exists (l ++ "USD Coin" ++ r), l, r.
           split; reflexivity.
      * intros (token' & [= <-] & [Hsym | (name & l & r & Hname & ->)]).
        -- left. rewrite Hsym. reflexivity.
        -- right. rewrite Hname. apply includes_iff. exists l, r. reflexivity.
    + split; [discriminate | intros (token & H & _); discriminate H].
Qed.

(** ** The first prompt of the recovery *)

Lemma skipWhiteSpace_character w s :
  In w whiteSpaceCharacters ->
  skipWhiteSpace (w ++ s) = Some s /\ 0 < String.length w.
Proof.
  intro Hin. cbn in Hin.
  repeat (destruct Hin as [<- | Hin]; [split; [reflexivity | cbn; lia]|]).
  destruct Hin.
Qed.

Lemma skipAll_blank characters : forall fuel,
  Forall (fun c => In c whiteSpaceCharacters) characters ->
  String.length (fold_right append EmptyString characters) <= fuel ->
  skipAll fuel (fold_right append EmptyString characters) = EmptyString.
Proof.
  induction characters as [|w rest IH]; intros fuel Hall Hfuel.
  - destruct fuel; reflexivity.
  - cbn [fold_right] in *. apply Forall_cons_iff in Hall as [Hw Hrest].
    destruct (skipWhiteSpace_character w (fold_right append EmptyString rest) Hw)
      as [Hskip Hlen].
    rewrite length_append in Hfuel.
    destruct fuel as [|fuel]; [lia|].
    cbn [skipAll]. rewrite Hskip. apply IH; [exact Hrest | lia].
Qed.

Lemma trim_blank line : blank line -> trim line = EmptyString.
Proof.
  intros (characters & Hall & ->). unfold trim, trimStart.
  now rewrite skipAll_blank.
Qed.

(** X6.  When the line typed for the burn hash is empty or made of
    white-space characters only (those that [trim] removes: blanks, tabs,
    line ends, the no-break space and the other Unicode spaces),
    [recoverFromBurn] returns after that one prompt: it asks nothing more
    and calls no service. *)
Theorem recoverFromBurn_requires_a_hash :
  forall env p,
    blank (stdin env (nAsked p)) ->
    recoverFromBurn env p
    = mkOut (Returns tt) (askedMore 1 p) [EvQuestion AskBurnHash EmptyString].
Proof.
  intros env p Hblank. unfold recoverFromBurn. rewrite bind_askQuestion. cbv zeta.
  rewrite (trim_blank _ Hblank). reflexivity.
Qed.

(** A blank, a tab and a no-break space. *)
Lemma recoverFromBurn_requires_a_hash_witness :
  evs (recoverFromBurn (scenario [" " ++ utf8 [9] ++ utf8 [194; 160]; "1"; "1"]) start)
  = [EvQuestion AskBurnHash EmptyString].
Proof.
  refine (f_equal evs
                  (recoverFromBurn_requires_a_hash
                     (scenario [" " ++ utf8 [9] ++ utf8 [194; 160]; "1"; "1"]) start _)).
  exists [" "; utf8 [9]; utf8 [194; 160]]. split; [|reflexivity].
  repeat (apply Forall_cons; [vm_compute; tauto|]). apply Forall_nil.
Defined.

(** ** How long a run can poll *)

Lemma sleeps_app a b : sleeps (a ++ b) = sleeps a + sleeps b.
Proof. unfold sleeps. rewrite filter_app, length_app. reflexivity. Qed.

Ltac within_now :=
  unfold within; cbn;
  repeat split; try lia; repeat (apply Forall_cons; [exact I || reflexivity|]);
  try apply Forall_nil.

Lemma within_nil c f : within c f [].
Proof. within_now. Qed.

Lemma within_app c1 f1 c2 f2 a b :
  within c1 f1 a -> within c2 f2 b -> within (c1 + c2) (f1 + f2) (a ++ b).
Proof.
  unfold within. rewrite checks_app, fetches_app, sleeps_app.
  intros (? & ? & ? & Ha) (? & ? & ? & Hb).
  repeat split; try lia. apply Forall_app. split; assumption.
Qed.

Lemma within_weaken c f c' f' e : within c f e -> c <= c' -> f <= f' -> within c' f' e.
Proof. unfold within. intros (? & ? & ? & ?) ? ?. repeat split; try lia. assumption. Qed.

Lemma sat_within_bind {A B} env (m : M A) (k : A -> M B) c1 f1 c f :
  sat env m (fun _ e => within c1 f1 e) ->
  c1 <= c -> f1 <= f ->
  (forall a, sat env (k a) (fun _ e => within (c - c1) (f - f1) e)) ->
  sat env (bind m k) (fun _ e => within c f e).
Proof.
  intros Hm Hc Hf Hk.
  eapply sat_bind; [exact Hm | | ].
  - intros a e1 H1. eapply sat_mono; [apply Hk|].
    intros r e2 H2. cbv beta.
    eapply within_weaken; [apply (within_app _ _ _ _ _ _ H1 H2) | lia | lia].
  - intros err e1 H1. eapply within_weaken; [exact H1 | lia | lia].
Qed.

Lemma sat_within_try {A} env (m : M A) c f :
  sat env m (fun _ e => within c f e) ->
  sat env (tryCatch m) (fun _ e => within c f e).
Proof.
  intros H p. rewrite tryCatch_unfold.
  destruct (nullish (res (m env p))); apply H.
Qed.

Lemma sat_within_more {A} env (m : M A) c f c' f' :
  sat env m (fun _ e => within c f e) -> c <= c' -> f <= f' ->
  sat env m (fun _ e => within c' f' e).
Proof. intros H Hc Hf p. eapply within_weaken; [apply H | exact Hc | exact Hf]. Qed.

(** Calls that neither wait nor poll. *)
Ltac no_poll := intro; within_now.

Lemma within_ret {A} env (a : A) c f : sat env (ret a) (fun _ e => within c f e).
Proof. no_poll. Qed.

Lemma within_throw {A} env err c f : sat env (@throw A err) (fun _ e => within c f e).
Proof. no_poll. Qed.

Lemma within_lift {A} env (t : Thrown A) c f : sat env (lift t) (fun _ e => within c f e).
Proof. no_poll. Qed.

Lemma within_getEnv env : sat env getEnv (fun _ e => within 0 0 e).
Proof. no_poll. Qed.

Lemma within_askQuestion env q : sat env (askQuestion q) (fun _ e => within 0 0 e).
Proof. no_poll. Qed.

Lemma within_create env req :
  sat env (client_createContractExecutionTransaction req) (fun _ e => within 0 0 e).
Proof. no_poll. Qed.

Lemma within_listWallets env id : sat env (client_listWallets id) (fun _ e => within 0 0 e).
Proof. no_poll. Qed.

Lemma within_listWalletSets env : sat env client_listWalletSets (fun _ e => within 0 0 e).
Proof. no_poll. Qed.

Lemma within_balance env id :
  sat env (client_getWalletTokenBalance id) (fun _ e => within 0 0 e).
Proof. no_poll. Qed.

Lemma within_transactionLoop env txId step n :
  sat env (transactionLoop txId step n) (fun _ e => within n 0 e).
Proof.
  induction n as [|n IH]; intro p.
  - cbn. apply within_nil.
  - rewrite transactionLoop_step.
    assert (Hround : within 1 0 (txRound txId (getTransaction env (nChecked p))))
      by within_now.
    destruct (confirmedHash (getTransaction env (nChecked p))).
    + cbn [evs]. eapply within_weaken; [exact Hround | lia | lia].
    + destruct (nullish (getTransaction env (nChecked p))).
      * cbn [evs]. eapply within_weaken; [exact Hround | lia | lia].
      * cbn zeta. cbn [evs]. apply (within_app 1 0 n 0); [exact Hround | apply IH].
Qed.

Lemma within_waitForTransactionCompletion env txId step :
  sat env (waitForTransactionCompletion txId step) (fun _ e => within 40 0 e).
Proof. apply within_transactionLoop. Qed.

Lemma within_attestationLoop env url N n :
  sat env (attestationLoop url N n) (fun _ e => within 0 n e).
Proof.
  induction n as [|n IH]; intro p.
  - cbn. apply within_nil.
  - rewrite attestationLoop_step.
    assert (Hround : within 0 1 (fetchRound url (fetch env url (nFetched p))))
      by within_now.
    destruct (attestedMessage (fetch env url (nFetched p))).
    + cbn [evs]. eapply within_weaken; [exact Hround | lia | lia].
    + destruct (nullishFetch (fetch env url (nFetched p))).
      * cbn [evs]. eapply within_weaken; [exact Hround | lia | lia].
      * cbn zeta. cbn [evs]. apply (within_app 0 1 0 n); [exact Hround | apply IH].
Qed.

Lemma within_waitForAttestation env h c :
  sat env (waitForAttestation h c) (fun _ e => within 0 40 e).
Proof.
  unfold waitForAttestation.
  apply (sat_within_bind env _ _ 0 0 0 40); [apply within_lift | lia | lia |].
  intro d. apply within_attestationLoop.
Qed.

(** One step through a sequence of calls, with the budget left. *)
Ltac within_step :=
  lazymatch goal with
  | |- sat _ (bind (waitForTransactionCompletion _ _) _) _ =>
      eapply (sat_within_bind _ _ _ 40 0);
      [apply within_waitForTransactionCompletion | lia | lia | cbn [Nat.sub]; intros ?]
  | |- sat _ (bind (waitForAttestation _ _) _) _ =>
      eapply (sat_within_bind _ _ _ 0 40);
      [apply within_waitForAttestation | lia | lia | cbn [Nat.sub]; intros ?]
  | |- sat _ (bind _ _) _ =>
      eapply (sat_within_bind _ _ _ 0 0);
      [first [ apply within_lift | apply within_getEnv | apply within_askQuestion
             | apply within_create | apply within_ret
             | apply sat_within_try, within_listWallets
             | apply sat_within_try, within_balance
             | apply within_listWalletSets | eassumption ]
      | lia | lia | cbn [Nat.sub]; intros ?]
  | |- sat _ (waitForTransactionCompletion _ _) _ =>
      eapply sat_within_more; [apply within_waitForTransactionCompletion | lia | lia]
  | |- sat _ (ret _) _ => apply within_ret
  | |- sat _ (throw _) _ => apply within_throw
  | |- sat _ (lift _) _ => apply within_lift
  | |- sat _ (if ?c then _ else _) _ => destruct c
  | |- sat _ (match ?x with _ => _ end) _ => destruct x
  end.

Lemma within_approveAndBurn env sw dw amt :
  sat env (approveAndBurn sw dw amt) (fun _ e => within 80 0 e).
Proof. unfold approveAndBurn. repeat within_step. Qed.

Lemma within_attestAndMint env h sw dw :
  sat env (attestAndMint h sw dw) (fun _ e => within 40 40 e).
Proof. unfold attestAndMint. repeat within_step. Qed.

Lemma within_recoverBody env h c dw :
  sat env (recoverBody h c dw) (fun _ e => within 40 40 e).
Proof. unfold recoverBody. repeat within_step. Qed.

Lemma within_transferSteps env sw dw amt :
  sat env (transferSteps sw dw amt) (fun _ e => within 120 40 e).
Proof.
  unfold transferSteps.
  apply (sat_within_bind env _ _ 120 40 120 40); [|lia|lia|intro; apply within_ret].
  apply sat_within_try. unfold transferBody.
  apply (sat_within_bind env _ _ 80 0 120 40);
    [apply within_approveAndBurn | lia | lia |].
  intro h. cbn [Nat.sub]. apply within_attestAndMint.
Qed.

Lemma within_recoverSteps env h c dw :
  sat env (recoverSteps h c dw) (fun _ e => within 40 40 e).
Proof.
  unfold recoverSteps.
  apply (sat_within_bind env _ _ 40 40 40 40); [|lia|lia|intro; apply within_ret].
  apply sat_within_try, within_recoverBody.
Qed.

Lemma within_collectWallets env walletSets :
  sat env (collectWallets walletSets) (fun _ e => within 0 0 e).
Proof.
  induction walletSets as [|walletSet rest IH]; cbn [collectWallets].
  - apply within_ret.
  - within_step. cbv zeta. within_step. apply within_ret.
Qed.

Lemma within_getAllWallets env :
  sat env getAllWallets (fun _ e => within 0 0 e).
Proof.
  unfold getAllWallets.
  apply (sat_within_bind env _ _ 0 0 0 0); [|lia|lia|].
  - apply sat_within_try. within_step. cbv zeta.
    within_step; [apply within_ret | apply within_collectWallets].
  - intro r. cbn [Nat.sub]. destruct r; apply within_ret.
Qed.

Lemma within_getWalletBalance env id :
  sat env (getWalletBalance id) (fun _ e => within 0 0 e).
Proof. unfold getWalletBalance. repeat within_step. Qed.

Ltac within_dialogue :=
  lazymatch goal with
  | |- sat _ (bind getAllWallets _) _ =>
      eapply (sat_within_bind _ _ _ 0 0);
      [apply within_getAllWallets | lia | lia | cbn [Nat.sub]; intros ?]
  | |- sat _ (bind (getWalletBalance _) _) _ =>
      eapply (sat_within_bind _ _ _ 0 0);
      [apply within_getWalletBalance | lia | lia | cbn [Nat.sub]; intros ?]
  | |- sat _ (transferSteps _ _ _) _ => apply within_transferSteps
  | |- sat _ (recoverSteps _ _ _) _ => apply within_recoverSteps
  | |- sat _ (let x := _ in _) _ => cbv zeta
  | _ => within_step
  end.

Lemma within_transferDialogue env :
  sat env transferDialogue (fun _ e => within 120 40 e).
Proof. unfold transferDialogue. repeat within_dialogue. Qed.

Lemma within_recoverWith env h c :
  sat env (recoverWith h c) (fun _ e => within 40 40 e).
Proof. unfold recoverWith. repeat within_dialogue. Qed.

Lemma within_performCrossChainTransfer env :
  sat env performCrossChainTransfer (fun _ e => within 120 40 e).
Proof.
  unfold performCrossChainTransfer.
  apply (sat_within_bind env _ _ 120 40 120 40); [|lia|lia|intro; apply within_ret].
  apply sat_within_try, within_transferDialogue.
Qed.

Lemma within_recoverFromBurn env :
  sat env recoverFromBurn (fun _ e => within 40 40 e).
Proof. unfold recoverFromBurn. repeat within_dialogue. apply within_recoverWith. Qed.

(** X7.  Polling is bounded.  A run of [performCrossChainTransfer] makes
    at most 120 status checks and 40 requests to the attestation
    service; a run of [recoverFromBurn] at most 40 of each.  There are as
    many waits as checks and requests together, each of 30 seconds: a
    full run waits at most 80 minutes and a recovery at most 40. *)
Theorem polling_is_bounded :
  forall env p,
    (let e := evs (performCrossChainTransfer env p) in
     checks e <= 120 /\ fetches e <= 40
     /\ sleeps e = checks e + fetches e
     /\ Forall (fun ev => forall ms, ev = EvSleep ms -> ms = 30000%Z) e)
    /\ (let e := evs (recoverFromBurn env p) in
        checks e <= 40 /\ fetches e <= 40
        /\ sleeps e = checks e + fetches e
        /\ Forall (fun ev => forall ms, ev = EvSleep ms -> ms = 30000%Z) e).
Proof.
  assert (Hwaits : forall e, Forall waitsHalfMinute e ->
                             Forall (fun ev => forall ms, ev = EvSleep ms -> ms = 30000%Z) e).
  { intros e. apply Forall_impl. intros ev Hev ms ->. exact Hev. }
  intros env p. split.
  - destruct (within_performCrossChainTransfer env p) as (Hc & Hf & Hs & Hw).
    cbv zeta. auto.
  - destruct (within_recoverFromBurn env p) as (Hc & Hf & Hs & Hw).
    cbv zeta. auto.
Qed.

(** ** The dialogue of the full run, in detail *)

Lemma sat_getWalletBalance_env env walletId :
  sat env (getWalletBalance walletId)
      (fun r e => exists k,
           e = [EvGetWalletTokenBalance walletId (getWalletTokenBalance env k)]
           /\ (r = Returns (balancesOf (getWalletTokenBalance env k))
               \/ r = Throws (TypeError "error.message"))).
Proof.
  intro p. unfold getWalletBalance. rewrite bind_unfold, tryCatch_unfold.
  unfold client_getWalletTokenBalance. cbn [res pos evs].
  exists (nBalances p).
  destruct (getWalletTokenBalance env (nBalances p)) as [[l|]|[]];
    cbn [nullish res pos evs]; split; try reflexivity; auto.
Qed.

Lemma isSupported_networkOf blockchain err :
  isSupported blockchain = true -> Throws err <> networkOf blockchain.
Proof.
  unfold isSupported, networkOf. destruct (entryOf blockchain); discriminate.
Qed.

Lemma listed_getAllWallets env :
  sat env getAllWallets
      (fun r e => idle e /\ forall l, r = Returns l -> forall w, In w l -> listed env w).
Proof.
  intro p. destruct (sat_getAllWallets env p) as [Hidle _].
  split; [exact Hidle|]. intros l Hl w Hin.
  destruct (getAllWallets_run env p)
    as [(_ & _ & Hres & _) | [(k & _ & _ & _ & Hres & _) | (_ & Hres & _)]];
    cbv zeta in Hres; rewrite Hres in Hl; [|injection Hl as <-; destruct Hin | discriminate Hl].
  injection Hl as <-.
  apply In_gathered in Hin as (i & ws & raws & raw & _ & Hresp & Hraw & ->).
  exists ws, raws, raw, (i + nWallets p). repeat split; assumption.
Qed.

Lemma listingRejected_cons id r e :
  listingRejected (EvListWallets id r :: e) = nullish r || listingRejected e.
Proof. reflexivity. Qed.

Lemma tagged_collectWallets env walletSets :
  sat env (collectWallets walletSets)
      (fun r e => nullish r = false
                  /\ match r with
                     | Returns l => l = tagged walletSets e /\ listingRejected e = false
                     | Throws _ => listingRejected e = true
                     end).
Proof.
  induction walletSets as [|walletSet rest IH].
  - intro p. repeat split.
  - cbn [collectWallets].
    eapply sat_try.
    + apply sat_listWallets.
    + intros r e -> Hn.
      eapply sat_bind; [apply IH | | ].
      * intros more e [_ [-> Hrej]]. eapply sat_mono; [apply sat_ret|].
        intros r0 e0 [-> ->]. rewrite app_nil_r. split; [reflexivity|].
        cbn [app]. rewrite listingRejected_cons, Hn, Hrej.
        split; [|reflexivity].
        destruct r as [[wallets|]|err]; reflexivity.
      * intros err e [Hnull Hrej]. split; [exact Hnull|].
        cbn [app]. rewrite listingRejected_cons, Hrej. apply orb_true_r.
    + intros e ->. split; [reflexivity|]. cbn. reflexivity.
Qed.

Lemma found_getAllWallets env :
  sat env getAllWallets
      (fun r e => idle e
                  /\ match r with
                     | Returns l => l = walletsIn e
                     | Throws _ => walletsIn e = []
                     end
                  /\ forall w, In w (walletsIn e) -> listed env w).
Proof.
  assert (Hfound : sat env getAllWallets
                       (fun r e => match r with
                                   | Returns l => l = walletsIn e
                                   | Throws _ => walletsIn e = []
                                   end)).
  { unfold getAllWallets.
    eapply (sat_try env _ _
                    (fun r e => match r with
                                | Returns l => l = walletsIn e
                                | Throws _ => walletsIn e = []
                                end)).
    - eapply (sat_bind env client_listWalletSets).
      + apply sat_listWalletSets.
      + intros response e ->.
        destruct response as [[|walletSet walletSets]|];
          cbn [List.length Nat.eqb];
          try (eapply sat_mono; [apply sat_ret|]; intros r0 e0 [-> ->]; reflexivity).
        eapply sat_mono; [apply tagged_collectWallets|].
        intros r0 e0 [_ H]. cbn [app walletsIn].
        destruct r0 as [l|err]; [destruct H as [-> ->] | rewrite H]; reflexivity.
      + intros err e ->. reflexivity.
    - intros r e He _.
      destruct r as [allWallets|err];
        (eapply sat_mono; [apply sat_ret|]; intros r0 e0 [-> ->];
         rewrite app_nil_r; now rewrite He).
    - intros e He. exact He. }
  intro p. destruct (listed_getAllWallets env p) as (Hidle & Hlisted).
  pose proof (Hfound p) as Hr. cbv beta in Hr.
  split; [exact Hidle|]. split; [exact Hr|].
  destruct (res (getAllWallets env p)) as [l|err] eqn:Hl.
  - rewrite <- Hr. exact (Hlisted l eq_refl).
  - rewrite Hr. intros w [].
Qed.

Lemma arrayGet_picked {A} (menu : list A) answer x :
  outOfRange (choiceIndex answer) (List.length menu) = false ->
  arrayGet menu (choiceIndex answer) = Some x ->
  picked menu answer x.
Proof.
  unfold choiceIndex, picked.
  destruct (parseInt answer) as [k|]; [|intros _ H; discriminate H].
  cbn [option_map outOfRange arrayGet]. intros Hrange Hget.
  apply orb_false_elim in Hrange as [Hneg Hlen]. rewrite Hneg in Hget.
  apply Z.ltb_ge in Hneg. apply Z.leb_gt in Hlen.
  exists k. split; [reflexivity|]. split; [lia | exact Hget].
Qed.

Ltac stop_idle :=
  eapply sat_mono; [apply sat_ret|];
  let r := fresh "r" in let e := fresh "e" in
  intros r e [_ ->]; left; idle_tac.

Lemma sat_transferDialogue_admitting env :
  sat env transferDialogue
      (fun _ e =>
         idle e
         \/ exists dialogue sw dw amt p',
              e = (dialogue ++ evs (transferSteps sw dw amt env p'))%list
              /\ admittingDialogue env dialogue sw dw amt).
Proof.
  unfold transferDialogue.
  eapply sat_bind; [apply sat_getEnv | | intros err e [[=] _]].
  intros env' e0 [[= ->] ->].
  eapply sat_bind; [apply found_getAllWallets | | ].
  2: { intros err e (Hidle & _). left. exact Hidle. }
  intros allWallets eAll (HeAll & Hall & Hlisted). symmetry in Hall.
  rewrite Hall in Hlisted.
  destruct (List.length allWallets =? 0)%nat; [stop_idle|].
  set (supportedWallets :=
         filter (fun wallet => isSupported (Wallet.blockchain wallet)
                               && (Wallet.state wallet =? "LIVE")) allWallets).
  destruct (List.length supportedWallets <? 2)%nat eqn:Hcount; [stop_idle|].
  apply Nat.ltb_ge in Hcount.
  eapply sat_bind; [apply sat_askQuestion | | ].
  2: { intros err e (a & Ha & _). discriminate Ha. }
  intros sourceChoice e (a1 & [= ->] & ->).
  destruct (outOfRange (choiceIndex a1) (List.length supportedWallets)) eqn:Hrange1;
    [stop_idle|].
  eapply sat_bind; [apply sat_lift | | ].
  2: { intros err e [_ ->]. left. idle_tac. }
  intros sw e [Hsw ->]. apply selected_returns in Hsw.
  pose proof (arrayGet_picked _ _ _ Hrange1 Hsw) as Hpick1. apply arrayGet_In in Hsw.
  apply filter_In in Hsw as [HswIn Hsw]. apply andb_prop in Hsw as [HswSup HswLive].
  apply String.eqb_eq in HswLive.
  eapply sat_bind; [apply sat_lift | | ].
  2: { intros err e [_ ->]. left. idle_tac. }
  intros network e [_ ->]. clear network.
  eapply sat_bind; [apply sat_getWalletBalance_env | | ].
  2: { intros err e (k & -> & _). left. idle_tac. }
  intros sourceBalances e (k & -> & [[= ->] | Hr]); [|discriminate Hr].
  set (balances := getWalletTokenBalance env k).
  destruct (PrimFloat.leb (findUSDCBalance env (balancesOf balances)) 0) eqn:Hbal;
    [stop_idle|].
  set (destinationWallets :=
         filter (fun wallet => negb (Wallet.blockchain wallet =? Wallet.blockchain sw))
                supportedWallets).
  destruct (List.length destinationWallets =? 0)%nat; [stop_idle|].
  eapply sat_bind; [apply sat_askQuestion | | ].
  2: { intros err e (a & Ha & _). discriminate Ha. }
  intros destChoice e (a2 & [= ->] & ->).
  destruct (outOfRange (choiceIndex a2) (List.length destinationWallets)) eqn:Hrange2;
    [stop_idle|].
  eapply sat_bind; [apply sat_lift | | ].
  2: { intros err e [_ ->]. left. idle_tac. }
  intros dw e [Hdw ->]. apply selected_returns in Hdw.
  pose proof (arrayGet_picked _ _ _ Hrange2 Hdw) as Hpick2. apply arrayGet_In in Hdw.
  apply filter_In in Hdw as [Hdw Hdiff].
  apply filter_In in Hdw as [HdwIn Hdw]. apply andb_prop in Hdw as [HdwSup HdwLive].
  apply String.eqb_eq in HdwLive.
  apply negb_true_iff, String.eqb_neq in Hdiff.
  eapply sat_bind; [apply sat_lift | | ].
  2: { intros err e [_ ->]. left. idle_tac. }
  intros network e [_ ->]. clear network.
  eapply sat_bind; [apply sat_askQuestion | | ].
  2: { intros err e (a & Ha & _). discriminate Ha. }
  intros amountInput e (a3 & [= ->] & ->).
  set (amt := parseFloat env a3).
  destruct (PrimFloat.is_nan amt || PrimFloat.leb amt 0) eqn:Hpositive; [stop_idle|].
  apply orb_false_elim in Hpositive as [Hnan Hpos].
  destruct (PrimFloat.ltb (findUSDCBalance env (balancesOf balances)) amt) eqn:Hmax;
    [stop_idle|].
  eapply sat_bind; [apply sat_lift | | ].
  2: { intros err e [_ ->]. left. idle_tac. }
  intros network e [_ ->]. clear network.
  eapply sat_bind; [apply sat_lift | | ].
  2: { intros err e [_ ->]. left. idle_tac. }
  intros network e [_ ->]. clear network.
  eapply sat_bind; [apply sat_askQuestion | | ].
  2: { intros err e (a & Ha & _). discriminate Ha. }
  intros confirmation e (a4 & [= ->] & ->).
  destruct (negb (toLowerCase a4 =? "yes") && negb (toLowerCase a4 =? "y")) eqn:Hyes;
    [stop_idle|].
  assert (Hconfirmed : toLowerCase a4 = "yes" \/ toLowerCase a4 = "y").
  { apply andb_false_iff in Hyes as [H | H]; apply negb_false_iff, String.eqb_eq in H; auto. }
  intro p'. right.
  set (dialogue :=
         (eAll ++ [EvQuestion (AskSourceWallet (List.length supportedWallets)) a1;
                   EvGetWalletTokenBalance (Wallet.id sw) balances;
                   EvQuestion (AskDestinationWallet (List.length destinationWallets)) a2;
                   EvQuestion (AskAmount (findUSDCBalance env (balancesOf balances))) a3;
                   EvQuestion AskConfirm a4])%list).
  exists dialogue, sw, dw, amt, p'.
  split; [subst dialogue; list_norm; reflexivity|].
  exists eAll, (List.length supportedWallets), a1, k,
         (List.length destinationWallets), a2, a3, a4.
  cbv zeta. fold balances.
  split; [reflexivity|]. split; [exact HeAll|]. split; [exact Hcount|].
  split; [exact Hbal|]. split; [reflexivity|]. split; [exact Hconfirmed|].
  split.
  { exists balances. split; [subst dialogue; apply in_or_app; right; cbn; tauto|].
    repeat split; assumption. }
  split; [now apply Hlisted|]. split; [now apply Hlisted|].
  unfold chosenWallets. cbv zeta. rewrite Hall.
  split; [reflexivity|]. split; [reflexivity|]. split; assumption.
Qed.

Lemma sat_performCrossChainTransfer_admitting env :
  sat env performCrossChainTransfer
      (fun _ e =>
         idle e
         \/ exists dialogue sw dw amt p',
              e = (dialogue ++ evs (transferSteps sw dw amt env p'))%list
              /\ admittingDialogue env dialogue sw dw amt).
Proof.
  intro p. unfold performCrossChainTransfer.
  destruct (caught_effects transferDialogue env p) as (_ & _ & ->).
  apply sat_transferDialogue_admitting.
Qed.

(** ** What the dialogue guarantees about a transfer *)

Lemma submitted_dialogue_steps dialogue steps :
  idle dialogue -> submitted (dialogue ++ steps) = submitted steps.
Proof. intros (Hs & _). now rewrite submitted_app, Hs. Qed.

Lemma admitting_idle env dialogue sw dw amt :
  admittingDialogue env dialogue sw dw amt -> idle dialogue.
Proof.
  intros (listing & n1 & a1 & k & n2 & a2 & a3 & a4 & Hd & Hidle & _).
  cbv zeta in Hd. rewrite Hd. idle_tac.
Qed.

(** X8.  Without a USDC balance there is no transfer.  When no balance
    response holds a USDC entry, be it that the query throws, that it
    returns no list or that no token matches,
    [performCrossChainTransfer] submits no transaction and polls
    nothing. *)
Theorem no_usdc_no_transfer :
  forall env p,
    (forall k b, In b (balancesOf (getWalletTokenBalance env k)) -> isUSDC b = false) ->
    let e := evs (performCrossChainTransfer env p) in
    submitted e = [] /\ checks e = 0 /\ fetches e = 0.
Proof.
  intros env p Hnone e. subst e.
  destruct (sat_performCrossChainTransfer_admitting env p)
    as [Hidle | (dialogue & sw & dw & amt & p' & _ & Hadm)]; [exact Hidle|].
  exfalso.
  destruct Hadm as (listing & n1 & a1 & k & n2 & a2 & a3 & a4 & _ & _ & _ & Hbal & _).
  cbv zeta in Hbal. unfold findUSDCBalance in Hbal.
  rewrite (proj2 (find_none_iff isUSDC _) (Hnone k)) in Hbal.
  vm_compute in Hbal. discriminate Hbal.
Qed.

(** The balance query fails: the run stops after it. *)
Lemma no_usdc_no_transfer_witness :
  let env := scenarioWith [sepoliaWallet; amoyWallet] offline ["1"; "1"; "50"; "yes"] in
  submitted (evs (performCrossChainTransfer env start)) = []
  /\ checks (evs (performCrossChainTransfer env start)) = 0
  /\ fetches (evs (performCrossChainTransfer env start)) = 0.
Proof.
  apply (no_usdc_no_transfer
           (scenarioWith [sepoliaWallet; amoyWallet] offline ["1"; "1"; "50"; "yes"])
           start).
  intros k b Hin. destruct Hin.
Defined.

(** X9.  No transaction without a yes.  Whenever
    [performCrossChainTransfer] submits a transaction, the confirmation
    prompt was asked before the first submission and answered, in any
    letter case, with "yes" or "y". *)
Theorem transfer_requires_confirmation :
  forall env p,
    submitted (evs (performCrossChainTransfer env p)) <> [] ->
    exists before confirmation after,
      evs (performCrossChainTransfer env p)
      = (before ++ EvQuestion AskConfirm confirmation :: after)%list
      /\ submitted before = []
      /\ (toLowerCase confirmation = "yes" \/ toLowerCase confirmation = "y").
Proof.
  intros env p Hsome.
  destruct (sat_performCrossChainTransfer_admitting env p)
    as [(Hs & _) | (dialogue & sw & dw & amt & p' & He & Hadm)]; [contradiction|].
  destruct Hadm as (listing & n1 & a1 & k & n2 & a2 & a3 & a4
                    & Hd & (Hs & _) & _ & _ & _ & Hyes & _).
  cbv zeta in Hd.
  exists (listing ++ [EvQuestion (AskSourceWallet n1) a1;
                      EvGetWalletTokenBalance (Wallet.id sw) (getWalletTokenBalance env k);
                      EvQuestion (AskDestinationWallet n2) a2;
                      EvQuestion (AskAmount (findUSDCBalance env
                                               (balancesOf (getWalletTokenBalance env k))))
                                 a3])%list,
         a4, (evs (transferSteps sw dw amt env p')).
  split; [rewrite He, Hd; list_norm; reflexivity|].
  split; [rewrite submitted_app, Hs; reflexivity | exact Hyes].
Qed.

Lemma transfer_requires_confirmation_witness :
  exists before after,
    evs (performCrossChainTransfer transferScenario start)
    = (before ++ EvQuestion AskConfirm "yes" :: after)%list
    /\ submitted before = [].
Proof.
  assert (Hsome : submitted (evs (performCrossChainTransfer transferScenario start)) <> [])
    by (vm_compute; discriminate).
  destruct (transfer_requires_confirmation transferScenario start Hsome)
    as (before & confirmation & after & He & Hs & _).
  exists before, after. split; [|exact Hs].
  rewrite He. repeat f_equal.
  assert (Hin : In (EvQuestion AskConfirm confirmation)
                   (evs (performCrossChainTransfer transferScenario start)))
    by (rewrite He; apply in_or_app; right; left; reflexivity).
  revert Hin. vm_compute. intro Hin.
  repeat (destruct Hin as [Hin | Hin]; [try discriminate Hin|]);
    [now injection Hin | destruct Hin].
Defined.

(** X10.  The amount on chain is the amount typed.  In a run of
    [performCrossChainTransfer] that submits anything, with [amountInput]
    the answer to the amount prompt and [amount] the text of
    [parseFloat(amountInput) * 1000000]: the approval is made on the USDC
    contract of the source chain, as [SUPPORTED_NETWORKS] gives it, and
    allows the TokenMessenger to spend [amount]; the burn is made on the
    TokenMessenger, from the same wallet, of the same [amount] of the
    same USDC contract. *)
Theorem approval_and_burn_carry_the_typed_amount :
  forall env p,
    let e := evs (performCrossChainTransfer env p) in
    submitted e <> [] ->
    exists balance amountInput walletId usdcContract,
      In (EvQuestion (AskAmount balance) amountInput) e
      /\ (exists sourceWallet sourceNetwork,
             walletId = Wallet.id sourceWallet
             /\ networkOf (Wallet.blockchain sourceWallet) = Returns sourceNetwork
             /\ usdcContract = usdcContractOf sourceNetwork)
      /\ let amount :=
           numberToString env (PrimFloat.mul (parseFloat env amountInput) 1000000) in
         (forall req, In req (signed approveSignature e) ->
                      TxRequest.walletId req = walletId
                      /\ TxRequest.contractAddress req = usdcContract
                      /\ TxRequest.abiParameters req
                         = [Some TokenMessenger; Some amount])
         /\ (forall req, In req (signed burnSignature e) ->
                         TxRequest.walletId req = walletId
                         /\ TxRequest.contractAddress req = Some TokenMessenger
                         /\ exists domain encoded,
                              TxRequest.abiParameters req
                              = [Some amount; Some domain; Some encoded;
                                 usdcContract]).
Proof.
  intros env p e Hsome. subst e.
  destruct (sat_performCrossChainTransfer_admitting env p)
    as [(Hs & _) | (dialogue & sw & dw & amt & p' & He & Hadm)]; [contradiction|].
  pose proof (admitting_idle _ _ _ _ _ Hadm) as Hidle.
  destruct Hadm as (listing & n1 & a1 & k & n2 & a2 & a3 & a4
                    & Hd & _ & _ & _ & Hamt & _).
  cbv zeta in Hd. subst amt.
  destruct (sat_transferSteps env sw dw (parseFloat env a3) p') as [_ Hsaga].
  apply saga_submitted in Hsaga.
  rewrite He in Hsome |- *. unfold signed.
  rewrite (submitted_dialogue_steps _ _ Hidle) in Hsome |- *.
  destruct Hsaga as [Hnone | (a & (net & Hnet & ->) & Hrest)]; [contradiction|].
  exists (findUSDCBalance env (balancesOf (getWalletTokenBalance env k))), a3,
         (Wallet.id sw), (usdcContractOf net).
  split.
  { apply in_or_app. left. rewrite Hd. apply in_or_app. right. cbn. tauto. }
  split; [exists sw, net; repeat split; exact Hnet|].
  cbv zeta. unfold baseUnits in Hrest.
  destruct Hrest
    as [-> | (b & (net' & d & enc & Hnet' & _ & _ & ->)
              & [-> | (h & d' & m & fr & mt & _ & _ & _ & _ & ->)])];
    try (rewrite Hnet in Hnet'; injection Hnet' as <-);
    unfold baseUnits; cbn;
    (split; intros req Hin;
     repeat (destruct Hin as [<- | Hin]; [cbn; repeat split; eauto|]);
     destruct Hin).
Qed.

Lemma approval_and_burn_carry_the_typed_amount_witness :
  exists balance walletId usdcContract,
    In (EvQuestion (AskAmount balance) "50")
       (evs (performCrossChainTransfer transferScenario start))
    /\ forall req,
         In req (signed approveSignature
                        (evs (performCrossChainTransfer transferScenario start))) ->
         TxRequest.walletId req = walletId
         /\ TxRequest.contractAddress req = usdcContract
         /\ TxRequest.abiParameters req = [Some TokenMessenger; Some "50000000"].
Proof.
  assert (Hsome : submitted (evs (performCrossChainTransfer transferScenario start)) <> [])
    by (vm_compute; discriminate).
  destruct (approval_and_burn_carry_the_typed_amount transferScenario start Hsome)
    as (balance & amountInput & walletId & usdc & Hin & _ & Happroval & _).
  assert (amountInput = "50") as ->.
  { revert Hin. vm_compute. intro Hin.
    repeat (destruct Hin as [Hin | Hin]; [try discriminate Hin|]);
      [now injection Hin | destruct Hin]. }
  exists balance, walletId, usdc. split; [exact Hin | exact Happroval].
Defined.

Lemma saga_signatures env sw dw amt e :
  saga env sw dw amt e ->
  submitted e = []
  \/ exists a, TxRequest.abiFunctionSignature a = approveSignature
       /\ TxRequest.fee a = mediumFee
       /\ (submitted e = [a]
           \/ exists b, TxRequest.abiFunctionSignature b = burnSignature
                /\ TxRequest.fee b = mediumFee
                /\ (submitted e = [a; b]
                    \/ exists m, TxRequest.abiFunctionSignature m = mintSignature
                         /\ TxRequest.fee m = mediumFee
                         /\ submitted e = [a; b; m])).
Proof.
  intro Hsaga. apply saga_submitted in Hsaga.
  destruct Hsaga as [Hs | (a & (net & _ & ->) & Hrest)]; [left; exact Hs|].
  right. exists (approvalRequest sw (usdcContractOf net) (baseUnits env amt)).
  split; [reflexivity|]. split; [reflexivity|].
  destruct Hrest as [Hs | (b & (net' & d & enc & _ & _ & _ & ->) & Hrest)];
    [left; exact Hs|].
  right. exists (burnRequest sw (usdcContractOf net') (baseUnits env amt) d enc).
  split; [reflexivity|]. split; [reflexivity|].
  destruct Hrest as [Hs | (h & d' & m & fr & mt & _ & _ & _ & _ & Hs)];
    [left; exact Hs|].
  right. exists (mintRequest dw mt (attestationOf m)).
  split; [reflexivity|]. split; [reflexivity|]. exact Hs.
Qed.

(** The recovery submits nothing, or the one mint. *)
Lemma recovery_submits env p :
  submitted (evs (recoverFromBurn env p)) = []
  \/ exists m, TxRequest.abiFunctionSignature m = mintSignature
       /\ TxRequest.fee m = mediumFee
       /\ submitted (evs (recoverFromBurn env p)) = [m].
Proof.
  destruct (sat_recoverFromBurn env p) as (h & [He | (c & e' & He & Hrun)]);
    rewrite He; [left; reflexivity|].
  change (submitted (EvQuestion AskBurnHash h :: EvQuestion AskSourceBlockchain c :: e'))
    with (submitted e').
  destruct Hrun as [(Hs & _) | (dialogue & dw' & e34 & -> & Hidle & _ & _ & H34)];
    [left; exact Hs|].
  rewrite (submitted_dialogue_steps _ _ Hidle).
  destruct (submitted_stepsThreeFour _ _ _ _ H34)
    as [Hs | (d & m & fr & mt & _ & _ & _ & _ & Hs)]; [left; exact Hs|].
  right. exists (mintRequest dw' mt (attestationOf m)).
  split; [reflexivity|]. split; [reflexivity|]. exact Hs.
Qed.

(** X11.  A run submits each step at most once and in order.  The
    function signatures of what [performCrossChainTransfer] submits are
    an initial part of: approve, depositForBurn, receiveMessage; those
    of [recoverFromBurn] are nothing or receiveMessage alone.  Every
    transaction of either run asks for the MEDIUM fee level. *)
Theorem submissions_in_order_and_once :
  forall env p,
    (exists rest,
        (map TxRequest.abiFunctionSignature
             (submitted (evs (performCrossChainTransfer env p))) ++ rest)%list
        = ["approve(address,uint256)";
           "depositForBurn(uint256,uint32,bytes32,address)";
           "receiveMessage(bytes,bytes)"])
    /\ (exists rest,
          (map TxRequest.abiFunctionSignature
               (submitted (evs (recoverFromBurn env p))) ++ rest)%list
          = ["receiveMessage(bytes,bytes)"])
    /\ (forall req,
          In req (submitted (evs (performCrossChainTransfer env p)))
          \/ In req (submitted (evs (recoverFromBurn env p))) ->
          TxRequest.fee req = Fee.mk "level" (Fee.mkConfig "MEDIUM")).
Proof.
  intros env p.
  assert (Hfull :
            exists sw dw amt e',
              saga env sw dw amt e'
              /\ submitted (evs (performCrossChainTransfer env p)) = submitted e').
  { destruct (sat_performCrossChainTransfer env p) as [_ [(Hs & _) | Hrun]].
    - exists sepoliaWallet, sepoliaWallet, 0%float, []. split; [|exact Hs].
      exists (Throws NoAttestation), [], [].
      split; [reflexivity|]. split; [|reflexivity].
      split; [reflexivity|]. split; [left; reflexivity | discriminate].
    - destruct Hrun as (dialogue & sw & dw & amt & e' & He & Hidle & _ & Hsaga).
      exists sw, dw, amt, e'. split; [exact Hsaga|].
      rewrite He. now apply submitted_dialogue_steps. }
  destruct Hfull as (sw & dw & amt & e' & Hsaga & Hsame).
  apply saga_signatures in Hsaga. rewrite <- Hsame in Hsaga. clear Hsame e'.
  pose proof (recovery_submits env p) as Hrecovery.
  split; [|split].
  - destruct Hsaga as [-> | (a & Ha & _ & [-> | (b & Hb & _ & [-> | (m & Hm & _ & ->)])])];
      cbn [map app]; rewrite ?Ha, ?Hb, ?Hm; eexists; reflexivity.
  - destruct Hrecovery as [-> | (m & Hm & _ & ->)];
      cbn [map app]; rewrite ?Hm; eexists; reflexivity.
  - intros req [Hin | Hin].
    + destruct Hsaga as [Hs | (a & _ & Fa & [Hs | (b & _ & Fb & [Hs | (m & _ & Fm & Hs)])])];
        rewrite Hs in Hin; cbn in Hin;
        repeat (destruct Hin as [<- | Hin]; [assumption|]); destruct Hin.
    + destruct Hrecovery as [Hs | (m & _ & Fm & Hs)];
        rewrite Hs in Hin; cbn in Hin;
        repeat (destruct Hin as [<- | Hin]; [assumption|]); destruct Hin.
Qed.

(** ** The burn waits for the approval *)

Lemma signed_app s a b : signed s (a ++ b) = (signed s a ++ signed s b)%list.
Proof. unfold signed. now rewrite submitted_app, filter_app. Qed.

Lemma signed_of_nothing s e : submitted e = [] -> signed s e = [].
Proof. unfold signed. now intros ->. Qed.

Lemma signed_create s req resp e :
  signed s (EvCreateTx req resp :: e)
  = if TxRequest.abiFunctionSignature req =? s then req :: signed s e else signed s e.
Proof. reflexivity. Qed.

Lemma signed_shows s pre req resp post :
  TxRequest.abiFunctionSignature req = s ->
  signed s (pre ++ EvCreateTx req resp :: post) <> [].
Proof.
  intros Hsig. rewrite signed_app, signed_create, Hsig, String.eqb_refl.
  intro H. apply app_eq_nil in H as [_ H]. discriminate H.
Qed.

Lemma unsigned_guarded e : signed burnSignature e = [] -> burnGuarded e.
Proof.
  intros Hnone pre req resp post -> Hsig. exfalso.
  exact (signed_shows _ pre req resp post Hsig Hnone).
Qed.

(** Events with no burn among them, put after guarded ones. *)
Lemma guarded_then_unsigned e more :
  burnGuarded e -> signed burnSignature more = [] -> burnGuarded (e ++ more).
Proof.
  intros He Hmore pre req resp post Heq Hsig.
  apply app_eq_app in Heq as [l [[-> Hl] | [-> Hl]]].
  - destruct l as [|x l]; cbn [app] in Hl.
    + exfalso. rewrite <- Hl in Hmore.
      exact (signed_shows _ [] req resp post Hsig Hmore).
    + injection Hl as <- _. exact (He pre req resp l eq_refl Hsig).
  - exfalso. rewrite Hl in Hmore. exact (signed_shows _ l req resp post Hsig Hmore).
Qed.

(** Events that submit nothing, put before guarded ones. *)
Lemma unsubmitted_then_guarded dialogue e :
  submitted dialogue = [] -> burnGuarded e -> burnGuarded (dialogue ++ e).
Proof.
  intros Hd He pre req resp post Heq Hsig.
  apply app_eq_app in Heq as [l [[-> Hl] | [-> Hl]]].
  - exfalso. rewrite submitted_app in Hd. apply app_eq_nil in Hd as [_ Hd].
    destruct l as [|x l]; cbn [app] in Hl.
    + destruct (He [] req resp post (eq_sym Hl) Hsig)
        as (before & approval & Hpre & _ & (a & tx & polls & t & Ha & _)).
      destruct before; cbn in Hpre; rewrite Ha in Hpre; discriminate Hpre.
    + injection Hl as <- _. discriminate Hd.
  - destruct (He l req resp post Hl Hsig) as (before & approval & -> & Hb & Ha).
    exists (dialogue ++ before)%list, approval.
    split; [now rewrite app_assoc|]. split; [|exact Ha].
    now rewrite submitted_app, Hd, Hb.
Qed.

Lemma unsigned_polls s txId e : Forall (isTxPoll txId) e -> signed s e = [].
Proof. intro H. apply signed_of_nothing. now apply (txPolls_quiet txId). Qed.

(** Steps 1 and 2 submit the burn only after the approval is confirmed. *)
Lemma guarded_approveAndBurn env sw dw amt :
  sat env (approveAndBurn sw dw amt) (fun _ e => burnGuarded e).
Proof.
  unfold approveAndBurn.
  eapply sat_bind; [apply sat_getEnv | | intros err e [[=] _]].
  intros env' e [[= ->] ->].
  eapply sat_bind; [apply sat_lift | | intros err e [_ ->]; now apply unsigned_guarded].
  intros net e [_ ->].
  set (a := TxRequest.mk (Wallet.id sw) (usdcContractOf net) approveSignature
                         [Some TokenMessenger; Some (baseUnits env amt)]
                         (Fee.mk "level" (Fee.mkConfig "MEDIUM"))).
  assert (Happroved : forall ra txId after,
             Forall (isTxPoll txId) after ->
             burnGuarded (EvCreateTx a ra :: after)).
  { intros ra txId after Hafter. apply unsigned_guarded.
    rewrite signed_create. cbn [TxRequest.abiFunctionSignature a].
    now apply (unsigned_polls _ txId). }
  eapply sat_bind; [apply sat_create | | ].
  2: { intros err e ->. list_norm. apply (Happroved _ EmptyString). apply Forall_nil. }
  intros approvalResponse e ->.
  eapply sat_bind; [apply sat_lift | | ].
  2: { intros err e [_ ->]. list_norm. apply (Happroved _ EmptyString). apply Forall_nil. }
  intros approvalTx e [HapprovalTx ->]. apply requireId_returns in HapprovalTx.
  subst approvalResponse.
  eapply sat_bind; [apply sat_waitForTransactionCompletion | | ].
  2: { intros err e [Hpolls _]. list_norm. apply (Happroved _ approvalTx). exact Hpolls. }
  intros approvalTxHash pollsA (HpollsA & _ & Hret).
  destruct (Hret _ eq_refl) as (polls & tx & -> & Hpolls & Hst & _). clear Hret.
  eapply sat_bind; [apply sat_lift | | ].
  2: { intros err e [_ ->]. list_norm. apply (Happroved _ approvalTx).
       list_norm. exact HpollsA. }
  intros net0 e [_ ->].
  eapply sat_bind; [apply sat_lift | | ].
  2: { intros err e [_ ->]. list_norm. apply (Happroved _ approvalTx).
       list_norm. exact HpollsA. }
  intros d e [_ ->].
  eapply sat_bind; [apply sat_lift | | ].
  2: { intros err e [_ ->]. list_norm. apply (Happroved _ approvalTx).
       list_norm. exact HpollsA. }
  intros encoded e [_ ->].
  eapply sat_bind; [apply sat_lift | | ].
  2: { intros err e [_ ->]. list_norm. apply (Happroved _ approvalTx).
       list_norm. exact HpollsA. }
  intros net' e [_ ->].
  set (approval := (EvCreateTx a (Returns (Some approvalTx))
                      :: polls ++ [EvGetTransaction approvalTx (Returns (Some tx))])%list).
  assert (Happroval : approvalConfirmed approval).
  { exists a, approvalTx, polls, tx. repeat split; auto. }
  assert (Hburned : forall b rb txId after,
             Forall (isTxPoll txId) after ->
             burnGuarded (EvCreateTx a (Returns (Some approvalTx))
                            :: polls ++ EvGetTransaction approvalTx (Returns (Some tx))
                            :: EvCreateTx b rb :: after)).
  { intros b rb txId after Hafter.
    replace (EvCreateTx a (Returns (Some approvalTx))
               :: polls ++ EvGetTransaction approvalTx (Returns (Some tx))
               :: EvCreateTx b rb :: after)%list
      with (approval ++ EvCreateTx b rb :: after)%list
      by (subst approval; list_norm; reflexivity).
    intros pre req resp post Heq Hsig.
    apply app_eq_app in Heq as [l [[Hl Hr] | [-> Hr]]].
    - destruct l as [|x l]; cbn [app] in Hr.
      + rewrite app_nil_r in Hl. subst pre.
        exists [], approval. repeat split. exact Happroval.
      + injection Hr as <- ->. exfalso.
        assert (Hnone : signed burnSignature approval = []).
        { subst approval. rewrite signed_create. cbn [TxRequest.abiFunctionSignature a].
          now apply (unsigned_polls _ approvalTx). }
        rewrite Hl in Hnone.
        exact (signed_shows _ pre req resp l Hsig Hnone).
    - destruct l as [|x l]; cbn [app] in Hr.
      + rewrite app_nil_r. exists [], approval. repeat split. exact Happroval.
      + injection Hr as _ ->. exfalso.
        pose proof (unsigned_polls burnSignature txId _ Hafter) as Hnone.
        exact (signed_shows _ l req resp post Hsig Hnone). }
  eapply sat_bind; [apply sat_create | | ].
  2: { intros err e ->. list_norm. apply (Hburned _ _ EmptyString). apply Forall_nil. }
  intros burnResponse e ->.
  eapply sat_bind; [apply sat_lift | | ].
  2: { intros err e [_ ->]. list_norm. apply (Hburned _ _ EmptyString). apply Forall_nil. }
  intros burnTx e [_ ->].
  eapply sat_mono; [apply sat_waitForTransactionCompletion|].
  intros r pollsB [HpollsB _]. list_norm. apply (Hburned _ _ burnTx). exact HpollsB.
Qed.

Lemma unsigned_stepsThreeFour c h dw e :
  stepsThreeFour c h dw e -> signed burnSignature e = [].
Proof.
  intro H34. unfold signed.
  destruct (submitted_stepsThreeFour _ _ _ _ H34) as [-> | (d & m & fr & mt & _ & _ & _ & _ & ->)];
    reflexivity.
Qed.

Lemma guarded_transferSteps env sw dw amt :
  sat env (transferSteps sw dw amt) (fun _ e => burnGuarded e).
Proof.
  assert (Hbody : sat env (transferBody sw dw amt) (fun _ e => burnGuarded e)).
  { unfold transferBody.
    eapply (sat_bind env _ _ _ (fun _ e => burnGuarded e));
      [apply guarded_approveAndBurn | | intros err e H; exact H].
    intros h e12 H12. eapply sat_mono; [apply sat_attestAndMint|].
    intros r e34 H34. apply guarded_then_unsigned; [exact H12|].
    exact (unsigned_stepsThreeFour _ _ _ _ H34). }
  intro p. unfold transferSteps.
  destruct (caught_effects (transferBody sw dw amt) env p) as (_ & _ & ->).
  apply Hbody.
Qed.

(** X12.  The burn waits for the approval.  Wherever a run of
    [performCrossChainTransfer] submits a [depositForBurn], the events
    before it end in the submission of an [approve] that returned a
    transaction id, the status checks of that id, and the check that saw
    it CONFIRMED; nothing was submitted before that approval. *)
Theorem burn_only_after_confirmed_approval :
  forall env p pre req resp post,
    evs (performCrossChainTransfer env p) = (pre ++ EvCreateTx req resp :: post)%list ->
    TxRequest.abiFunctionSignature req
    = "depositForBurn(uint256,uint32,bytes32,address)" ->
    exists before approvalReq approvalTx polls tx,
      pre = (before ++ EvCreateTx approvalReq (Returns (Some approvalTx))
                    :: polls ++ [EvGetTransaction approvalTx (Returns (Some tx))])%list
      /\ submitted before = []
      /\ TxRequest.abiFunctionSignature approvalReq = "approve(address,uint256)"
      /\ Forall (isTxPoll approvalTx) polls
      /\ Transaction.state tx = Some "CONFIRMED".
Proof.
  intros env p pre req resp post Heq Hsig.
  assert (Hguarded : burnGuarded (evs (performCrossChainTransfer env p))).
  { destruct (sat_performCrossChainTransfer_admitting env p)
      as [(Hs & _) | (dialogue & sw & dw & amt & p' & -> & Hadm)].
    - now apply unsigned_guarded, signed_of_nothing.
    - apply unsubmitted_then_guarded; [apply (admitting_idle _ _ _ _ _ Hadm)|].
      apply guarded_transferSteps. }
  destruct (Hguarded pre req resp post Heq Hsig)
    as (before & approval & -> & Hbefore & (a & approvalTx & polls & tx & -> & Ha & Hp & Hst)).
  exists before, a, approvalTx, polls, tx. repeat split; auto.
Qed.


Lemma burn_only_after_confirmed_approval_witness :
  exists before approvalReq approvalTx polls tx,
    firstn 10 (evs (performCrossChainTransfer transferScenario start))
    = (before ++ EvCreateTx approvalReq (Returns (Some approvalTx))
              :: polls ++ [EvGetTransaction approvalTx (Returns (Some tx))])%list
    /\ submitted before = []
    /\ TxRequest.abiFunctionSignature approvalReq = "approve(address,uint256)"
    /\ Forall (isTxPoll approvalTx) polls
    /\ Transaction.state tx = Some "CONFIRMED".
Proof.
  apply (burn_only_after_confirmed_approval
           transferScenario start
           (firstn 10 (evs (performCrossChainTransfer transferScenario start)))
           (burnRequest listedSepolia (Some "0x1c7D4B196Cb0C7B01d743Fbc6116a902379C7238")
                        "50000000" 7
                        "0x0000000000000000000000002222222222222222222222222222222222222222")
           (Returns (Some "tx-burn"))
           (skipn 11 (evs (performCrossChainTransfer transferScenario start)))).
  - vm_compute. reflexivity.
  - reflexivity.
Defined.

(** ** How the two entries end *)

Lemma answers_app a b : answers (a ++ b) = (answers a ++ answers b)%list.
Proof. unfold answers. apply flat_map_app. Qed.

Lemma answers_txPolls txId e : Forall (isTxPoll txId) e -> answers e = [].
Proof.
  induction 1 as [|x l Hx _ IH]; [reflexivity|].
  destruct Hx as [-> | [r ->]]; exact IH.
Qed.

Lemma answers_attestationPolls c h e :
  Forall (isAttestationPoll c h) e -> answers e = [].
Proof.
  induction 1 as [|x l Hx _ IH]; [reflexivity|].
  destruct Hx as [-> | (d & r & _ & ->)]; exact IH.
Qed.

Lemma answers_stepsThreeFour c h dw e : stepsThreeFour c h dw e -> answers e = [].
Proof.
  intros [Hpolls | (d & m & fr & polls & mt & resp & mintTx & after
                    & _ & _ & _ & -> & Hpolls & Hafter)].
  - exact (answers_attestationPolls _ _ _ Hpolls).
  - rewrite answers_app, (answers_attestationPolls _ _ _ Hpolls).
    exact (answers_txPolls _ _ Hafter).
Qed.

Lemma setsRejected_app a b : setsRejected (a ++ b) = setsRejected a || setsRejected b.
Proof. unfold setsRejected. apply existsb_app. Qed.

Lemma setsRejected_txPolls txId e : Forall (isTxPoll txId) e -> setsRejected e = false.
Proof.
  induction 1 as [|x l Hx _ IH]; [reflexivity|].
  destruct Hx as [-> | [r ->]]; exact IH.
Qed.

Lemma setsRejected_attestationPolls c h e :
  Forall (isAttestationPoll c h) e -> setsRejected e = false.
Proof.
  induction 1 as [|x l Hx _ IH]; [reflexivity|].
  destruct Hx as [-> | (d & r & _ & ->)]; exact IH.
Qed.

Lemma setsRejected_stepsThreeFour c h dw e :
  stepsThreeFour c h dw e -> setsRejected e = false.
Proof.
  intros [Hpolls | (d & m & fr & polls & mt & resp & mintTx & after
                    & _ & _ & _ & -> & Hpolls & Hafter)].
  - exact (setsRejected_attestationPolls _ _ _ Hpolls).
  - rewrite setsRejected_app, (setsRejected_attestationPolls _ _ _ Hpolls).
    exact (setsRejected_txPolls _ _ Hafter).
Qed.

Lemma answers_collectWallets env walletSets :
  sat env (collectWallets walletSets)
      (fun r e => answers e = [] /\ setsRejected e = false /\ nullish r = false).
Proof.
  induction walletSets as [|walletSet rest IH].
  - intro p. repeat split.
  - cbn [collectWallets].
    eapply sat_try.
    + apply sat_listWallets.
    + intros r e -> _.
      eapply sat_bind; [apply IH | | ].
      * intros more e He. eapply sat_mono; [apply sat_ret|].
        intros r0 e0 [-> ->]. rewrite app_nil_r.
        destruct He as (Ha & Hs & _). repeat split; assumption.
      * intros err e He. exact He.
    + intros e ->. repeat split.
Qed.

(** [getAllWallets] asks nothing; it throws when the listing of the
    sets is rejected with [null] or [undefined], and only then. *)
Lemma answers_getAllWallets env :
  sat env getAllWallets
      (fun r e => answers e = [] /\ idle e
                  /\ ((exists l, r = Returns l) /\ setsRejected e = false
                      \/ r = Throws (TypeError "error.message") /\ setsRejected e = true)).
Proof.
  assert (Hquiet : sat env getAllWallets
                       (fun r e => answers e = []
                                   /\ ((exists l, r = Returns l) /\ setsRejected e = false
                                       \/ r = Throws (TypeError "error.message")
                                          /\ setsRejected e = true))).
  { unfold getAllWallets.
    eapply (sat_try env _ _ (fun r e => answers e = [] /\ setsRejected e = nullish r)).
    - eapply (sat_bind env client_listWalletSets).
      + apply sat_listWalletSets.
      + intros response e ->.
        destruct (List.length match response with Some l => l | None => [] end =? 0)%nat.
        * eapply sat_mono; [apply sat_ret|]. intros r0 e0 [-> ->]. split; reflexivity.
        * eapply sat_mono; [apply answers_collectWallets|].
          intros r0 e0 (Ha & Hs & Hn). split; [exact Ha|].
          rewrite setsRejected_app, Hs, Hn. reflexivity.
      + intros err e ->. split; [reflexivity|]. destruct err; reflexivity.
    - intros r e [Ha Hs] Hn. rewrite Hn in Hs.
      destruct r as [allWallets|err];
        (eapply sat_mono; [apply sat_ret|]; intros r0 e0 [-> ->];
         rewrite app_nil_r; split; [exact Ha|]; left; split; [eexists; reflexivity | exact Hs]).
    - intros e [Ha Hs]. split; [exact Ha|]. right. split; [reflexivity | exact Hs]. }
  intro p. destruct (Hquiet p) as [Ha Hr]. destruct (sat_getAllWallets env p) as [Hidle _].
  split; [exact Ha|]. split; [exact Hidle | exact Hr].
Qed.

Lemma outOfRange_number index count :
  outOfRange (choiceIndex index) count = true -> parseInt index <> None.
Proof.
  unfold choiceIndex. destruct (parseInt index); [discriminate|]. cbn. discriminate.
Qed.

Lemma arrayGet_number {A} (array : list A) index x :
  arrayGet array (choiceIndex index) = Some x -> parseInt index <> None.
Proof.
  unfold choiceIndex. destruct (parseInt index); [discriminate|]. cbn. discriminate.
Qed.

Lemma arrayGet_undefined {A} (array : list A) index :
  outOfRange (choiceIndex index) (List.length array) = false ->
  arrayGet array (choiceIndex index) = None ->
  parseInt index = None.
Proof.
  unfold choiceIndex. destruct (parseInt index) as [n|]; [|reflexivity].
  cbn [option_map outOfRange arrayGet]. intros Hrange Hget. exfalso.
  apply orb_false_elim in Hrange as [Hneg Hlen].
  rewrite Hneg in Hget. apply nth_error_None in Hget.
  apply Z.leb_gt in Hlen. apply Z.ltb_ge in Hneg. lia.
Qed.

(** One destination prompt after events without a prompt. *)
Lemma one_destination_choice listing count answer steps :
  answers listing = [] -> answers steps = [] ->
  (destinationNotANumber (listing ++ EvQuestion (AskDestinationWallet count) answer :: steps)
   <-> parseInt answer = None).
Proof.
  intros Hl Hs. unfold destinationNotANumber. rewrite answers_app, Hl.
  change (answers (EvQuestion (AskDestinationWallet count) answer :: steps))
    with ((AskDestinationWallet count, answer) :: answers steps).
  rewrite Hs. cbn [app]. split.
  - intros (n & a & [[= <- <-] | []] & Hnan). exact Hnan.
  - intro Hnan. exists count, answer. split; [left; reflexivity | exact Hnan].
Qed.

Lemma no_destination_choice e : answers e = [] -> ~ destinationNotANumber e.
Proof. intros He (n & a & Hin & _). rewrite He in Hin. destruct Hin. Qed.

Lemma createRejected_dialogue dialogue steps :
  submitted dialogue = [] ->
  (createRejected (dialogue ++ steps) <-> createRejected steps).
Proof.
  intro Hs. split; intros (req & Hin); exists req.
  - apply in_app_or in Hin as [Hin | Hin]; [|exact Hin].
    exfalso. exact (unsubmitted_uncreated _ _ _ Hs Hin).
  - apply in_or_app. right. exact Hin.
Qed.

Lemma outcome_recoverWith env h c :
  sat env (recoverWith h c) recoveryOutcome.
Proof.
  unfold recoverWith.
  eapply sat_bind; [apply answers_getAllWallets | | ].
  2: { intros err e (Hquiet & Hidle & [[[l Hl] _] | [Hr Hs]]); [discriminate Hl|].
       injection Hr as ->.
       right. right. split; [reflexivity|].
       split; [now apply no_destination_choice|]. left. split; assumption. }
  intros allWallets eAll (Hquiet & HeAll & [[_ Hsets] | [Hr _]]); [|discriminate Hr].
  assert (Hcreate : ~ createRejected eAll) by (apply none_rejected, HeAll).
  set (destinationWallets :=
         filter (fun wallet => negb (Wallet.blockchain wallet =? c)
                               && isSupported (Wallet.blockchain wallet)) allWallets).
  destruct (List.length destinationWallets =? 0)%nat.
  { eapply sat_mono; [apply sat_ret|]. intros r e [-> ->]. left.
    rewrite app_nil_r. split; [reflexivity|].
    split; [now apply no_destination_choice|]. split; assumption. }
  eapply sat_bind; [apply sat_askQuestion | | ].
  2: { intros err e (a & Ha & _). discriminate Ha. }
  intros destChoice e (a1 & [= ->] & ->).
  set (count := List.length destinationWallets).
  pose proof (one_destination_choice eAll count a1 [] Hquiet eq_refl) as Halone.
  assert (Hasked : idle (eAll ++ [EvQuestion (AskDestinationWallet count) a1])) by idle_tac.
  assert (Hsets' : setsRejected (eAll ++ [EvQuestion (AskDestinationWallet count) a1])
                   = false) by (rewrite setsRejected_app, Hsets; reflexivity).
  destruct (outOfRange (choiceIndex a1) count) eqn:Hrange.
  { eapply sat_mono; [apply sat_ret|]. intros r e [-> ->]. left.
    split; [reflexivity|]. list_norm. rewrite Halone.
    split; [exact (outOfRange_number _ _ Hrange)|].
    split; [exact Hsets' | apply none_rejected, Hasked]. }
  eapply sat_bind; [apply sat_lift | | ].
  2: { intros err e [Herr ->]. right. left. list_norm.
       destruct (arrayGet destinationWallets (choiceIndex a1)) eqn:Hget;
         [discriminate Herr|].
       injection Herr as ->.
       split; [reflexivity|]. split; [exact Hasked|].
       split; [|exact Hsets'].
       apply Halone. exact (arrayGet_undefined _ _ Hrange Hget). }
  intros dw e [Hdw ->]. apply selected_returns in Hdw.
  pose proof (arrayGet_number _ _ _ Hdw) as Hnumber.
  apply arrayGet_In, filter_In in Hdw as [_ Hdw]. apply andb_prop in Hdw as [_ HdwSup].
  eapply sat_bind; [apply sat_lift | | ].
  2: { intros err e [Herr _]. exfalso. exact (isSupported_networkOf _ _ HdwSup Herr). }
  intros network e [_ ->]. clear network.
  eapply sat_mono; [apply sat_recoverSteps|].
  intros r e' [Hr H34]. list_norm.
  assert (Hnumber' : ~ destinationNotANumber
                       (eAll ++ EvQuestion (AskDestinationWallet count) a1 :: e')).
  { rewrite (one_destination_choice eAll count a1 e' Hquiet
                                    (answers_stepsThreeFour _ _ _ _ H34)).
    exact Hnumber. }
  assert (Hsets'' : setsRejected (eAll ++ EvQuestion (AskDestinationWallet count) a1 :: e')
                    = false).
  { rewrite setsRejected_app, Hsets.
    exact (setsRejected_stepsThreeFour _ _ _ _ H34). }
  assert (Hcreated : createRejected (eAll ++ EvQuestion (AskDestinationWallet count) a1 :: e')
                     <-> createRejected e').
  { replace (eAll ++ EvQuestion (AskDestinationWallet count) a1 :: e')%list
      with ((eAll ++ [EvQuestion (AskDestinationWallet count) a1]) ++ e')%list
      by (list_norm; reflexivity).
    apply createRejected_dialogue, Hasked. }
  destruct Hr as [[-> Hno] | [-> Hyes]].
  - left. split; [reflexivity|]. split; [exact Hnumber'|]. split; [exact Hsets''|].
    now rewrite Hcreated.
  - right. right. split; [reflexivity|]. split; [exact Hnumber'|]. right.
    split; [exact Hsets'' | now apply Hcreated].
Qed.

Lemma outcome_asked q a e :
  (forall n, q <> AskDestinationWallet n) ->
  forall r, recoveryOutcome r e -> recoveryOutcome r (EvQuestion q a :: e).
Proof.
  intros Hq r.
  assert (Hsame : destinationNotANumber (EvQuestion q a :: e) <-> destinationNotANumber e).
  { unfold destinationNotANumber.
    change (answers (EvQuestion q a :: e)) with ((q, a) :: answers e).
    split; intros (n & x & Hin & Hnan); exists n, x; (split; [|exact Hnan]).
    - destruct Hin as [[= -> _] | Hin]; [exfalso; now apply (Hq n) | exact Hin].
    - right. exact Hin. }
  assert (Hcreated : createRejected (EvQuestion q a :: e) <-> createRejected e).
  { split; intros (req & Hin); exists req.
    - destruct Hin as [Hin | Hin]; [discriminate Hin | exact Hin].
    - right. exact Hin. }
  change (setsRejected (EvQuestion q a :: e)) with (setsRejected e).
  intros [(-> & Hno & Hsets & Hcreate) | [(-> & Hidle & Hnan & Hsets)
                                         | (-> & Hno & Hwhy)]].
  - left. split; [reflexivity|]. rewrite Hsame, Hcreated. repeat split; assumption.
  - right. left. split; [reflexivity|]. split; [now apply idle_question|].
    split; [now apply Hsame | exact Hsets].
  - right. right. split; [reflexivity|]. split; [now rewrite Hsame|].
    destruct Hwhy as [[Hsets Hidle] | [Hsets Hcreate]].
    + left. split; [exact Hsets | now apply idle_question].
    + right. split; [exact Hsets | now apply Hcreated].
Qed.

Lemma outcome_recoverFromBurn env :
  sat env recoverFromBurn recoveryOutcome.
Proof.
  unfold recoverFromBurn.
  eapply sat_bind; [apply sat_askQuestion | | ].
  2: { intros err e (a & Ha & _). discriminate Ha. }
  intros burnTxHash e (h & [= ->] & ->).
  destruct (trim h =? EmptyString).
  - eapply sat_mono; [apply sat_ret|]. intros r e [-> ->]. left.
    split; [reflexivity|]. split; [intros (n & a & [[=] | []] & _)|].
    split; [reflexivity|]. intros (req & [Hin | []]). discriminate Hin.
  - eapply sat_bind; [apply sat_askQuestion | | ].
    2: { intros err e (a & Ha & _). discriminate Ha. }
    intros sourceChoice e (c & [= ->] & ->).
    eapply sat_mono; [apply outcome_recoverWith|].
    intros r e' Hout. list_norm.
    apply outcome_asked; [discriminate|].
    apply outcome_asked; [discriminate | exact Hout].
Qed.

(** X13.  How the two entries end.  [performCrossChainTransfer] always
    returns: its outer [catch] takes whatever is thrown, and what reaches
    it is an error with a message.  In [recoverFromBurn] nothing is
    caught outside the [try] of steps 3 and 4, and it throws in three
    cases.  When the answer to the destination prompt is not a number,
    NaN passes the range check, the selected wallet is undefined and
    reading its [address] throws a TypeError, before anything is
    submitted or polled.  When the listing of the wallet sets is rejected
    with [null] or [undefined], the handler of [getAllWallets] throws a
    TypeError on reading its message.  When the submission of the mint is
    so rejected, the handler of [recoverFromBurn] itself does.  In every
    other run [recoverFromBurn] returns. *)
Theorem recoverFromBurn_throws_in_three_cases :
  forall env p,
    res (performCrossChainTransfer env p) = Returns tt
    /\ let o := recoverFromBurn env p in
       (destinationNotANumber (evs o) ->
        res o = Throws (TypeError "destinationWallet.address") /\ idle (evs o))
       /\ (setsRejected (evs o) = true \/ createRejected (evs o) ->
           res o = Throws (TypeError "error.message"))
       /\ (~ destinationNotANumber (evs o) ->
           setsRejected (evs o) = false ->
           ~ createRejected (evs o) ->
           res o = Returns tt).
Proof.
  intros env p. split; [apply sat_performCrossChainTransfer|]. cbv zeta.
  destruct (outcome_recoverFromBurn env p)
    as [(Hr & Hno & Hsets & Hcreate) | [(Hr & Hidle & Hnan & Hsets) | (Hr & Hno & Hwhy)]].
  - split; [intro; contradiction|]. split; [|intros; exact Hr].
    intros [H | H]; [congruence | contradiction].
  - split; [intros _; split; assumption|]. split; [|intros; contradiction].
    intros [H | H]; [congruence|]. exfalso. revert H. apply none_rejected, Hidle.
  - split; [intro; contradiction|]. split; [intros _; exact Hr|].
    intros _ Hsets Hcreate. exfalso.
    destruct Hwhy as [[H _] | [_ H]]; [congruence | contradiction].
Qed.

(** The destination is answered with a word; the wallet sets cannot be
    listed, the promise being rejected with [null]. *)
Lemma recoverFromBurn_throws_in_three_cases_witness :
  res (recoverFromBurn (scenario ["0xb0b"; "1"; "first"]) start)
  = Throws (TypeError "destinationWallet.address")
  /\ res (recoverFromBurn setsRejectedWithNull start)
     = Throws (TypeError "error.message").
Proof.
  split.
  - apply (proj1 (proj2 (recoverFromBurn_throws_in_three_cases
                           (scenario ["0xb0b"; "1"; "first"]) start))).
    exists 1, "first". split; [vm_compute; tauto | reflexivity].
  - apply (proj1 (proj2 (proj2 (recoverFromBurn_throws_in_three_cases
                                  setsRejectedWithNull start)))).
    left. vm_compute. reflexivity.
Defined.

(** ** The menu *)

Lemma recovery_unsigned env p s :
  s <> mintSignature -> signed s (evs (recoverFromBurn env p)) = [].
Proof.
  intro Hs. unfold signed.
  destruct (recovery_submits env p) as [-> | (m & Hm & _ & ->)]; [reflexivity|].
  cbn [filter]. rewrite Hm.
  destruct (String.eqb_spec mintSignature s) as [<- | _]; [contradiction | reflexivity].
Qed.

Lemma main_initialized env p :
  main (Returns tt) env p
  = (choice <- askQuestion AskMenuChoice ;;
     if choice =? "1" then performCrossChainTransfer
     else if choice =? "2" then recoverFromBurn
     else ret tt) env p.
Proof.
  unfold main. rewrite (bind_unfold (initializeClient (Returns tt))).
  unfold initializeClient. rewrite bind_unfold, tryCatch_unfold.
  cbn [lift res pos evs nullish ret negb app].
  match goal with
  | |- mkOut (res ?o) (pos ?o) (evs ?o) = _ => destruct o; reflexivity
  end.
Qed.

(** X14.  [main] does nothing when the SDK client cannot be made, the
    constructor throwing an error; when it throws [null] or [undefined],
    the handler of [initializeClient] throws a TypeError and [main] ends
    with it.  Otherwise [main] asks the menu question once and goes by
    the trimmed answer: only the answer "1" can lead to an approval or a
    burn, only "1" and "2" to any further interaction, and only "2" to
    an error that escapes [main]. *)
Theorem main_goes_by_the_menu_choice :
  forall sdk env p,
    let o := main sdk env p in
    let choice := trim (stdin env (nAsked p)) in
    match sdk with
    | Throws Nullish => o = mkOut (Throws (TypeError "error.message")) p []
    | Throws _ => o = mkOut (Returns tt) p []
    | Returns _ =>
        exists rest,
          evs o = EvQuestion AskMenuChoice choice :: rest
          /\ (choice <> "1" ->
              signed "approve(address,uint256)" rest = []
              /\ signed "depositForBurn(uint256,uint32,bytes32,address)" rest = [])
          /\ (choice <> "1" -> choice <> "2" -> rest = [])
          /\ (choice <> "2" -> res o = Returns tt)
    end.
Proof.
  intros sdk env p. cbv zeta. destruct sdk as [[]|err]; [|destruct err; reflexivity].
  rewrite main_initialized, bind_askQuestion. cbv zeta.
  set (choice := trim (stdin env (nAsked p))).
  cbn [res evs]. eexists. split; [reflexivity|].
  destruct (String.eqb_spec choice "1") as [H1 | H1].
  - split; [intro H; contradiction|]. split; [intro H; contradiction|].
    intros _. apply sat_performCrossChainTransfer.
  - destruct (String.eqb_spec choice "2") as [H2 | H2].
    + split; [|split; intros; contradiction].
      intros _. split; apply recovery_unsigned; discriminate.
    + split; [intros _; split; reflexivity|]. split; reflexivity.
Qed.

(** ** When the attestation service is asked *)

Lemma fetches_shows pre url r post : fetches (pre ++ EvFetch url r :: post) <> 0.
Proof.
  rewrite fetches_app.
  change (fetches (EvFetch url r :: post)) with (S (fetches post)). lia.
Qed.

(** Up to a request of steps 3 and 4 nothing is submitted or checked. *)
Lemma quiet_up_to_a_fetch c h dw l url r post :
  stepsThreeFour c h dw (l ++ EvFetch url r :: post)%list ->
  submitted l = [] /\ checks l = 0.
Proof.
  intros [Hpolls | (d & m & fr & polls & mt & resp & mintTx & after
                    & _ & _ & _ & Heq & Hpolls & Hafter)].
  - apply Forall_app in Hpolls as [Hl _]. exact (attestationPolls_quiet _ _ _ Hl).
  - symmetry in Heq. apply app_eq_app in Heq as [l2 [[-> Hr] | [-> Hr]]].
    + apply Forall_app in Hpolls as [Hl _]. exact (attestationPolls_quiet _ _ _ Hl).
    + destruct l2 as [|x l2]; cbn [app] in Hr.
      * rewrite app_nil_r. exact (attestationPolls_quiet _ _ _ Hpolls).
      * injection Hr as _ Hr. exfalso.
        destruct l2 as [|y l2]; cbn [app] in Hr; [discriminate Hr|].
        injection Hr as _ Hr.
        destruct (txPolls_quiet _ _ Hafter) as [_ Hf]. rewrite Hr in Hf.
        exact (fetches_shows _ _ _ _ Hf).
Qed.

(** A request found after events that make none lies in what follows. *)
Lemma fetch_after_none prefix e pre url r post :
  fetches prefix = 0 ->
  (prefix ++ e = pre ++ EvFetch url r :: post)%list ->
  exists l, pre = (prefix ++ l)%list /\ e = (l ++ EvFetch url r :: post)%list.
Proof.
  intros Hnone Heq. apply app_eq_app in Heq as [l [[-> Hr] | [-> Hr]]].
  - destruct l as [|x l]; cbn [app] in Hr.
    + exists []. rewrite !app_nil_r. split; [reflexivity | now symmetry].
    + injection Hr as <- _. exfalso. exact (fetches_shows _ _ _ _ Hnone).
  - exists l. split; [reflexivity | exact Hr].
Qed.

Lemma domain_values blockchain d :
  getCCTPDomainId blockchain = Returns d -> In d [0; 1; 7]%Z.
Proof.
  unfold getCCTPDomainId.
  by_chain blockchain; intros [= <-]; cbn; tauto.
Qed.

(** X15.  The attestation service is asked only about a burn that is
    known.  In [performCrossChainTransfer] no HTTP request is made before
    a status check has seen the burn CONFIRMED, and every request is for
    the hash which that check reported, under a CCTP domain of the
    tables.  In [recoverFromBurn] every request is for the hash that was
    typed, under domain 0 when the source answer is "1" and 7 otherwise,
    and nothing is submitted before it.  All requests go to the sandbox
    host. *)
Theorem attestation_asked_for_the_known_burn :
  (forall env p pre url r post,
      evs (performCrossChainTransfer env p) = (pre ++ EvFetch url r :: post)%list ->
      exists burnTxHash d,
        burnConfirmedIn burnTxHash pre
        /\ In d [0; 1; 7]%Z
        /\ url = "https://iris-api-sandbox.circle.com/v1/messages/"
                   ++ intToString d ++ "/" ++ template burnTxHash)
  /\ (forall env p pre url r post,
        evs (recoverFromBurn env p) = (pre ++ EvFetch url r :: post)%list ->
        exists burnTxHash sourceChoice rest,
          pre = EvQuestion AskBurnHash burnTxHash
                  :: EvQuestion AskSourceBlockchain sourceChoice :: rest
          /\ submitted rest = []
          /\ url = "https://iris-api-sandbox.circle.com/v1/messages/"
                     ++ (if sourceChoice =? "1" then "0" else "7")
                     ++ "/" ++ burnTxHash).
Proof.
  split.
  - intros env p pre url rr post Heq.
    destruct (sat_performCrossChainTransfer env p) as [_ Hrun]. rewrite Heq in Hrun.
    destruct Hrun as [(_ & _ & Hf) | (dialogue & sw & dw & amt & e' & He & Hidle & _ & Hsaga)].
    { exfalso. exact (fetches_shows _ _ _ _ Hf). }
    destruct Hsaga as (r & e12 & e34 & -> & (Hf12 & _ & Hburn) & H34).
    assert (Hprefix : fetches (dialogue ++ e12) = 0).
    { rewrite fetches_app, Hf12. destruct Hidle as (_ & _ & ->). reflexivity. }
    rewrite app_assoc in He. symmetry in He.
    destruct (fetch_after_none _ _ _ _ _ _ Hprefix He) as (l & -> & ->).
    destruct r as [h|err]; [|destruct l; discriminate H34].
    destruct (Hburn h eq_refl) as [Hconfirmed _].
    destruct (quiet_up_to_a_fetch _ _ _ _ _ _ _ H34) as [Hs Hc].
    assert (Hin : In (EvFetch url rr) (l ++ EvFetch url rr :: post))
      by (apply in_or_app; right; left; reflexivity).
    destruct (fetch_in_stepsThreeFour _ _ _ _ _ _ H34 Hin) as (d & Hd & ->).
    exists h, d. split; [|split; [exact (domain_values _ _ Hd) | reflexivity]].
    rewrite <- app_assoc. apply burn_confirmed_earlier.
    now apply burn_confirmed_later.
  - intros env p pre url rr post Heq.
    destruct (sat_recoverFromBurn env p) as (h & Hrun). rewrite Heq in Hrun.
    destruct Hrun as [He | (c & e' & He & Hrun)].
    { exfalso. apply (fetches_shows pre url rr post). now rewrite He. }
    destruct Hrun as [(_ & _ & Hf) | (dialogue & dw & e34 & -> & Hidle & _ & _ & H34)].
    { exfalso. apply (fetches_shows pre url rr post). rewrite He. exact Hf. }
    set (asked := [EvQuestion AskBurnHash h; EvQuestion AskSourceBlockchain c]) in *.
    assert (Hprefix : fetches (asked ++ dialogue) = 0).
    { rewrite fetches_app. destruct Hidle as (_ & _ & ->). reflexivity. }
    assert (Heq' : ((asked ++ dialogue) ++ e34 = pre ++ EvFetch url rr :: post)%list)
      by (rewrite He; reflexivity).
    destruct (fetch_after_none _ _ _ _ _ _ Hprefix Heq') as (l & -> & ->).
    destruct (quiet_up_to_a_fetch _ _ _ _ _ _ _ H34) as [Hs _].
    assert (Hin : In (EvFetch url rr) (l ++ EvFetch url rr :: post))
      by (apply in_or_app; right; left; reflexivity).
    destruct (fetch_in_stepsThreeFour _ _ _ _ _ _ H34 Hin) as (d & Hd & ->).
    exists h, c, (dialogue ++ l)%list.
    split; [subst asked; list_norm; reflexivity|].
    split; [rewrite submitted_app, Hs; destruct Hidle as (-> & _); reflexivity|].
    unfold selectSourceBlockchain in Hd.
    destruct (c =? "1"); injection Hd as <-; reflexivity.
Qed.

Lemma attestation_asked_for_the_known_burn_witness :
  exists burnTxHash d,
    burnConfirmedIn burnTxHash
                    (firstn 14 (evs (performCrossChainTransfer transferScenario start)))
    /\ In d [0; 1; 7]%Z
    /\ "https://iris-api-sandbox.circle.com/v1/messages/0/0xb0b"
       = "https://iris-api-sandbox.circle.com/v1/messages/"
           ++ intToString d ++ "/" ++ template burnTxHash.
Proof.
  apply (proj1 attestation_asked_for_the_known_burn
               transferScenario start
               (firstn 14 (evs (performCrossChainTransfer transferScenario start)))
               "https://iris-api-sandbox.circle.com/v1/messages/0/0xb0b"
               (Returns notFound)
               (skipn 15 (evs (performCrossChainTransfer transferScenario start)))).
  vm_compute. reflexivity.
Defined.

(** ** Who signs *)

Lemma listed_recoverWith env h c :
  sat env (recoverWith h c)
      (fun _ e =>
         forall req, In req (submitted e) ->
                     exists w messageTransmitter,
                       listed env w
                       /\ isSupported (Wallet.blockchain w) = true
                       /\ Wallet.blockchain w <> c
                       /\ TxRequest.walletId req = Wallet.id w
                       /\ getMessageTransmitterAddress (Wallet.blockchain w)
                          = Returns messageTransmitter
                       /\ TxRequest.contractAddress req = Some messageTransmitter).
Proof.
  assert (Hnone : forall e, idle e ->
             forall req, In req (submitted e) ->
                         exists w messageTransmitter,
                           listed env w
                           /\ isSupported (Wallet.blockchain w) = true
                           /\ Wallet.blockchain w <> c
                           /\ TxRequest.walletId req = Wallet.id w
                           /\ getMessageTransmitterAddress (Wallet.blockchain w)
                              = Returns messageTransmitter
                           /\ TxRequest.contractAddress req = Some messageTransmitter).
  { intros e (Hs & _) req Hin. rewrite Hs in Hin. destruct Hin. }
  unfold recoverWith.
  eapply sat_bind; [apply listed_getAllWallets | | ].
  2: { intros err e [Hidle _]. apply Hnone, Hidle. }
  intros allWallets eAll [HeAll Hlisted]. specialize (Hlisted _ eq_refl).
  set (destinationWallets :=
         filter (fun wallet => negb (Wallet.blockchain wallet =? c)
                               && isSupported (Wallet.blockchain wallet)) allWallets).
  destruct (List.length destinationWallets =? 0)%nat.
  { eapply sat_mono; [apply sat_ret|]. intros r e [_ ->]. apply Hnone. idle_tac. }
  eapply sat_bind; [apply sat_askQuestion | | ].
  2: { intros err e (a & Ha & _). discriminate Ha. }
  intros destChoice e (a1 & _ & ->).
  destruct (outOfRange (choiceIndex destChoice) (List.length destinationWallets)).
  { eapply sat_mono; [apply sat_ret|]. intros r e [_ ->]. apply Hnone. idle_tac. }
  eapply sat_bind; [apply sat_lift | | ].
  2: { intros err e [_ ->]. apply Hnone. idle_tac. }
  intros dw e [Hdw ->]. apply selected_returns, arrayGet_In in Hdw.
  apply filter_In in Hdw as [HdwIn Hdw]. apply andb_prop in Hdw as [Hdiff HdwSup].
  apply negb_true_iff, String.eqb_neq in Hdiff.
  eapply sat_bind; [apply sat_lift | | ].
  2: { intros err e [_ ->]. apply Hnone. idle_tac. }
  intros network e [_ ->]. clear network.
  eapply sat_mono; [apply sat_recoverSteps|].
  intros r e' [_ H34] req Hin. list_norm.
  rewrite submitted_app in Hin. destruct HeAll as (HsAll & _). rewrite HsAll in Hin.
  cbn [app] in Hin.
  change (submitted (EvQuestion (AskDestinationWallet (List.length destinationWallets)) a1
                       :: e')) with (submitted e') in Hin.
  destruct (submitted_stepsThreeFour _ _ _ _ H34)
    as [Hs | (d & m & fr & mt & _ & Hmt & _ & _ & Hs)];
    rewrite Hs in Hin; [destruct Hin|].
  destruct Hin as [<- | []].
  exists dw, mt. repeat split; auto.
Qed.

(** X16.  Every transaction is signed by a wallet that the custody API
    listed.  In [performCrossChainTransfer] the signer is a LIVE wallet
    on a chain for which [SUPPORTED_NETWORKS[chain]] is truthy: one of
    the five chains, or a name that the object inherits.  An approval is
    made on what [SUPPORTED_NETWORKS] gives as [usdcContract] for the
    signer's chain: the USDC contract of one of the five chains, and no
    contract at all for an inherited name.  A mint is made on the
    MessageTransmitter of the signer's chain, which is then one of the
    five.  In [recoverFromBurn] the signer is a listed wallet, whatever
    its state, and the mint goes to the MessageTransmitter of its
    chain. *)
Theorem signers_are_listed_wallets :
  (forall env p req,
      In req (submitted (evs (performCrossChainTransfer env p))) ->
      exists raws raw k,
        listWallets env k = Returns (Some raws)
        /\ In raw raws
        /\ TxRequest.walletId req = Wallet.id raw
        /\ Wallet.state raw = "LIVE"
        /\ (In (Wallet.blockchain raw) supportedChains
            \/ In (Wallet.blockchain raw) inheritedNames)
        /\ (TxRequest.abiFunctionSignature req = "approve(address,uint256)" ->
            exists entry,
              networkOf (Wallet.blockchain raw) = Returns entry
              /\ TxRequest.contractAddress req = usdcContractOf entry
              /\ (forall network,
                     supportedNetwork (Wallet.blockchain raw) = Some network ->
                     TxRequest.contractAddress req = Some (Network.usdcContract network))
              /\ (In (Wallet.blockchain raw) inheritedNames ->
                  TxRequest.contractAddress req = None))
        /\ (TxRequest.abiFunctionSignature req = "receiveMessage(bytes,bytes)" ->
            exists messageTransmitter,
              getMessageTransmitterAddress (Wallet.blockchain raw)
              = Returns messageTransmitter
              /\ TxRequest.contractAddress req = Some messageTransmitter
              /\ In (Wallet.blockchain raw) supportedChains))
  /\ (forall env p req,
        In req (submitted (evs (recoverFromBurn env p))) ->
        exists raws raw k messageTransmitter,
          listWallets env k = Returns (Some raws)
          /\ In raw raws
          /\ TxRequest.walletId req = Wallet.id raw
          /\ In (Wallet.blockchain raw) supportedChains
          /\ getMessageTransmitterAddress (Wallet.blockchain raw)
             = Returns messageTransmitter
          /\ TxRequest.contractAddress req = Some messageTransmitter).
Proof.
  split.
  - intros env p req Hin.
    destruct (sat_performCrossChainTransfer_admitting env p)
      as [(Hs & _) | (dialogue & sw & dw & amt & p' & He & Hadm)].
    { rewrite Hs in Hin. destruct Hin. }
    pose proof (admitting_idle _ _ _ _ _ Hadm) as Hidle.
    destruct Hadm as (listing & n1 & a1 & k & n2 & a2 & a3 & a4
                      & _ & _ & _ & _ & _ & _ & Hadmitted & Hsw & Hdw & _).
    destruct Hadmitted as (balances & _ & HswLive & HswSup & HdwLive & HdwSup & _).
    destruct Hsw as (wsS & rawsS & rawS & kS & HrespS & HinS & ->).
    destruct Hdw as (wsD & rawsD & rawD & kD & HrespD & HinD & ->).
    cbn [annotate Wallet.blockchain Wallet.state] in HswLive, HswSup, HdwLive, HdwSup.
    apply isSupported_iff in HswSup, HdwSup.
    rewrite He, (submitted_dialogue_steps _ _ Hidle) in Hin.
    destruct (sat_transferSteps env (annotate wsS rawS) (annotate wsD rawD) amt p')
      as [_ Hsaga].
    apply saga_submitted in Hsaga.
    pattern req.
    match goal with |- ?P req => set (signer := P) end.
    assert (Hsource : forall r,
               TxRequest.walletId r = Wallet.id rawS ->
               (TxRequest.abiFunctionSignature r = "approve(address,uint256)" ->
                exists entry,
                  networkOf (Wallet.blockchain rawS) = Returns entry
                  /\ TxRequest.contractAddress r = usdcContractOf entry
                  /\ (forall network,
                         supportedNetwork (Wallet.blockchain rawS) = Some network ->
                         TxRequest.contractAddress r = Some (Network.usdcContract network))
                  /\ (In (Wallet.blockchain rawS) inheritedNames ->
                      TxRequest.contractAddress r = None)) ->
               TxRequest.abiFunctionSignature r <> "receiveMessage(bytes,bytes)" ->
               signer r).
    { intros r Hid Happ Hnomint. exists rawsS, rawS, kS.
      repeat split; auto. intro Hmint. contradiction. }
    destruct Hsaga as [Hs | (a & (net & Hnet & ->) & Hrest)];
      [rewrite Hs in Hin; destruct Hin|].
    cbn [annotate Wallet.blockchain] in Hnet.
    assert (Ha : signer (approvalRequest (annotate wsS rawS) (usdcContractOf net)
                                         (baseUnits env amt))).
    { apply Hsource; [reflexivity | | discriminate].
      intros _. exists net. split; [exact Hnet|]. split; [reflexivity|].
      cbn [approvalRequest TxRequest.contractAddress].
      revert Hnet. unfold networkOf, entryOf.
      destruct (supportedNetwork (Wallet.blockchain rawS)) as [network|] eqn:Hown.
      - intros [= <-]. split.
        + intros network' [= <-]. reflexivity.
        + intro Hinh. exfalso. revert Hinh Hown. cbn.
          intros Hinh. repeat (destruct Hinh as [<- | Hinh]; [discriminate|]).
          destruct Hinh.
      - destruct (existsb (String.eqb (Wallet.blockchain rawS)) inheritedNames);
          [|discriminate].
        intros [= <-]. split; [discriminate | reflexivity]. }
    destruct Hrest as [Hs | (b & (net' & d & enc & _ & _ & _ & ->) & Hrest)].
    { rewrite Hs in Hin. destruct Hin as [<- | []]. exact Ha. }
    assert (Hb : signer (burnRequest (annotate wsS rawS) (usdcContractOf net')
                                     (baseUnits env amt) d enc)).
    { apply Hsource; [reflexivity | discriminate | discriminate]. }
    destruct Hrest as [Hs | (h & d' & m & fr & mt & _ & Hmt & _ & _ & Hs)];
      rewrite Hs in Hin.
    { destruct Hin as [<- | [<- | []]]; assumption. }
    destruct Hin as [<- | [<- | [<- | []]]]; try assumption.
    cbn [annotate Wallet.blockchain] in Hmt.
    exists rawsD, rawD, kD. repeat split; auto; [discriminate|].
    intros _. exists mt. split; [exact Hmt|]. split; [reflexivity|].
    apply transmitter_iff. now exists mt.
  - intros env p req Hin.
    assert (Hrun : exists h c p',
               submitted (evs (recoverFromBurn env p)) = []
               \/ submitted (evs (recoverFromBurn env p))
                  = submitted (evs (recoverWith h c env p'))).
    { unfold recoverFromBurn. rewrite bind_askQuestion. cbv zeta.
      set (hash := trim (stdin env (nAsked p))).
      destruct (trim hash =? EmptyString).
      - exists hash, EmptyString, p. left. reflexivity.
      - rewrite bind_askQuestion. cbv zeta. cbn [evs].
        eexists hash, _, _. right. reflexivity. }
    destruct Hrun as (h' & c & p' & [Hs | Hs]); rewrite Hs in Hin; [destruct Hin|].
    destruct (listed_recoverWith env h' c p' req Hin)
      as (w & mt & (ws & raws & raw & k & Hresp & Hraw & ->) & Hsup & _ & Hid & Hmt & Hc).
    cbn [annotate Wallet.blockchain] in Hmt.
    exists raws, raw, k, mt. repeat split; auto.
    apply transmitter_iff. now exists mt.
Qed.

(** The mint of the scenario is signed by the Amoy wallet; in the
    scenario with a wallet on the chain "constructor", the approval is
    signed by it and names no contract. *)
Lemma signers_are_listed_wallets_witness :
  (exists raws raw k,
      listWallets transferScenario k = Returns (Some raws)
      /\ In raw raws
      /\ Wallet.id raw = "w-2"
      /\ Wallet.state raw = "LIVE"
      /\ getMessageTransmitterAddress (Wallet.blockchain raw)
         = Returns "0x7865fAfC2db2093669d92c0F33AeEF291086BEFD")
  /\ (exists raws raw k,
         listWallets inheritedChain k = Returns (Some raws)
         /\ In raw raws
         /\ Wallet.id raw = "w-5"
         /\ (In (Wallet.blockchain raw) supportedChains
             \/ In (Wallet.blockchain raw) inheritedNames)).
Proof.
  split.
  - assert (Hin : In (mintRequest listedAmoy "0x7865fAfC2db2093669d92c0F33AeEF291086BEFD"
                                  (Attestation.mk (Some "0xfeed") (Some "0xbeef")))
                     (submitted (evs (performCrossChainTransfer transferScenario start))))
      by (vm_compute; tauto).
    destruct (proj1 signers_are_listed_wallets transferScenario start _ Hin)
      as (raws & raw & k & Hresp & Hraw & Hid & Hlive & _ & _ & Hmint).
    destruct (Hmint eq_refl) as (mt & Hmt & [= <-] & _).
    exists raws, raw, k. repeat split; auto.
  - assert (Hin : In (approvalRequest (annotate mainSet inheritedWallet) None "50000000")
                     (submitted (evs (performCrossChainTransfer inheritedChain start))))
      by (vm_compute; tauto).
    destruct (proj1 signers_are_listed_wallets inheritedChain start _ Hin)
      as (raws & raw & k & Hresp & Hraw & Hid & _ & Hchain & _).
    exists raws, raw, k. repeat split; auto.
Defined.

(** ** The wallets picked *)

Lemma chosen_recoverWith env h c :
  sat env (recoverWith h c) (fun _ e => submitted e = [] \/ chosenDestination c e).
Proof.
  assert (Hleft : forall e, idle e -> submitted e = [] \/ chosenDestination c e)
    by (intros e0 (Hs & _); left; exact Hs).
  unfold recoverWith.
  eapply sat_bind; [apply found_getAllWallets | | ].
  2: { intros err e (Hidle & _). apply Hleft, Hidle. }
  intros allWallets eAll (HeAll & Hall & _).
  set (destinationWallets :=
         filter (fun wallet => negb (Wallet.blockchain wallet =? c)
                               && isSupported (Wallet.blockchain wallet)) allWallets).
  destruct (List.length destinationWallets =? 0)%nat.
  { eapply sat_mono; [apply sat_ret|]. intros r e [_ ->]. apply Hleft. idle_tac. }
  eapply sat_bind; [apply sat_askQuestion | | ].
  2: { intros err e (a & Ha & _). discriminate Ha. }
  intros destChoice e (a1 & [= ->] & ->).
  destruct (outOfRange (choiceIndex a1) (List.length destinationWallets)) eqn:Hrange.
  { eapply sat_mono; [apply sat_ret|]. intros r e [_ ->]. apply Hleft. idle_tac. }
  eapply sat_bind; [apply sat_lift | | ].
  2: { intros err e [_ ->]. apply Hleft. idle_tac. }
  intros dw e [Hdw ->]. apply selected_returns in Hdw.
  pose proof (arrayGet_picked _ _ _ Hrange Hdw) as Hpick.
  eapply sat_bind; [apply sat_lift | | ].
  2: { intros err e [_ ->]. apply Hleft. idle_tac. }
  intros network e [_ ->]. clear network.
  eapply sat_mono; [apply sat_recoverSteps|].
  intros r e' [_ H34]. right. exists eAll, a1, dw, e'. cbv zeta. rewrite <- Hall.
  split; [list_norm; reflexivity|]. split; [exact Hpick|].
  intros req Hin. list_norm.
  rewrite submitted_app in Hin. destruct HeAll as (HsAll & _). rewrite HsAll in Hin.
  cbn [app] in Hin.
  change (submitted (EvQuestion (AskDestinationWallet (List.length destinationWallets)) a1
                       :: e')) with (submitted e') in Hin.
  destruct (submitted_stepsThreeFour _ _ _ _ H34)
    as [Hs | (d & m & fr & mt & _ & _ & _ & _ & Hs)];
    rewrite Hs in Hin; [destruct Hin|].
  destruct Hin as [<- | []]. reflexivity.
Qed.

Lemma chosen_recoverFromBurn env :
  sat env recoverFromBurn
      (fun _ e =>
         submitted e = []
         \/ exists h c rest,
             e = EvQuestion AskBurnHash h :: EvQuestion AskSourceBlockchain c :: rest
             /\ submitted rest <> []
             /\ chosenDestination (selectSourceBlockchain c) rest).
Proof.
  unfold recoverFromBurn.
  eapply sat_bind; [apply sat_askQuestion | | ].
  2: { intros err e (a & Ha & _). discriminate Ha. }
  intros burnTxHash e (h & [= ->] & ->).
  destruct (trim h =? EmptyString).
  - eapply sat_mono; [apply sat_ret|]. intros r e [_ ->]. left. reflexivity.
  - eapply sat_bind; [apply sat_askQuestion | | ].
    2: { intros err e (a & Ha & _). discriminate Ha. }
    intros sourceChoice e (c & [= ->] & ->).
    eapply sat_mono; [apply chosen_recoverWith|].
    intros r e' [Hs | Hchosen]; [left; exact Hs|].
    destruct (submitted e') eqn:Hsub; [left; exact Hsub|].
    right. exists h, c, e'. split; [reflexivity|]. split; [|exact Hchosen].
    rewrite Hsub. discriminate.
Qed.

(** X17.  The wallets picked are the wallets used.  In a run of
    [performCrossChainTransfer] that submits anything, the source answer
    starts with a number [k] between 1 and the number of wallets that the
    listing found and that pass the filter of the script, LIVE and with a
    truthy [SUPPORTED_NETWORKS[wallet.blockchain]]; the source wallet is
    the [k]-th of them, and likewise the destination wallet among those
    of them on another chain than the source wallet; approval and burn
    are signed by the source wallet and the mint by the destination
    wallet.  In [recoverFromBurn] the destination wallet is picked in the
    same way among the listed wallets that pass its filter, a truthy
    [SUPPORTED_NETWORKS[wallet.blockchain]] and a chain other than the
    selected source chain, and signs the mint.  The wallets a listing
    found are those of the listings of the sets, in order; none when a
    listing was rejected with [null] or [undefined]. *)
Theorem the_wallets_picked_are_the_wallets_used :
  (forall env p,
      let e := evs (performCrossChainTransfer env p) in
      submitted e <> [] ->
      exists listing a1 balances a2 sourceWallet destinationWallet rest,
        let supportedWallets :=
          filter (fun wallet => isSupported (Wallet.blockchain wallet)
                                && (Wallet.state wallet =? "LIVE")) (walletsIn listing) in
        let destinationWallets :=
          filter (fun wallet => negb (Wallet.blockchain wallet
                                      =? Wallet.blockchain sourceWallet))
                 supportedWallets in
        e = (listing
               ++ EvQuestion (AskSourceWallet (List.length supportedWallets)) a1
               :: EvGetWalletTokenBalance (Wallet.id sourceWallet) balances
               :: EvQuestion (AskDestinationWallet (List.length destinationWallets)) a2
               :: rest)%list
        /\ picked supportedWallets a1 sourceWallet
        /\ picked destinationWallets a2 destinationWallet
        /\ forall req,
             In req (submitted e) ->
             TxRequest.walletId req
             = Wallet.id (if TxRequest.abiFunctionSignature req
                             =? "receiveMessage(bytes,bytes)"
                          then destinationWallet else sourceWallet))
  /\ (forall env p,
        let e := evs (recoverFromBurn env p) in
        submitted e <> [] ->
        exists burnTxHash sourceChoice listing answer destinationWallet steps,
          let destinationWallets :=
            filter (fun wallet =>
                      negb (Wallet.blockchain wallet =? selectSourceBlockchain sourceChoice)
                      && isSupported (Wallet.blockchain wallet))
                   (walletsIn listing) in
          e = (EvQuestion AskBurnHash burnTxHash
                 :: EvQuestion AskSourceBlockchain sourceChoice
                 :: listing
                 ++ EvQuestion (AskDestinationWallet (List.length destinationWallets)) answer
                 :: steps)%list
          /\ picked destinationWallets answer destinationWallet
          /\ forall req,
               In req (submitted e) ->
               TxRequest.walletId req = Wallet.id destinationWallet).
Proof.
  split.
  - intros env p e Hsome. subst e.
    destruct (sat_performCrossChainTransfer_admitting env p)
      as [(Hs & _) | (dialogue & sw & dw & amt & p' & He & Hadm)]; [contradiction|].
    pose proof (admitting_idle _ _ _ _ _ Hadm) as Hidle.
    destruct Hadm as (listing & n1 & a1 & k & n2 & a2 & a3 & a4
                      & Hd & _ & _ & _ & _ & _ & _ & _ & _ & Hchosen).
    cbv zeta in Hd. unfold chosenWallets in Hchosen. cbv zeta in Hchosen.
    destruct Hchosen as (Hn1 & Hn2 & Hp1 & Hp2).
    exists listing, a1, (getWalletTokenBalance env k), a2, sw, dw,
           (EvQuestion (AskAmount (findUSDCBalance env
                                     (balancesOf (getWalletTokenBalance env k)))) a3
              :: EvQuestion AskConfirm a4 :: evs (transferSteps sw dw amt env p')).
    cbv zeta. rewrite <- Hn1, <- Hn2.
    split; [rewrite He, Hd; list_norm; reflexivity|].
    split; [exact Hp1|]. split; [exact Hp2|].
    intros req Hin. rewrite He, (submitted_dialogue_steps _ _ Hidle) in Hin.
    destruct (sat_transferSteps env sw dw amt p') as [_ Hsaga].
    apply saga_submitted in Hsaga.
    destruct Hsaga as [Hs | (a & (net & _ & ->) & Hrest)];
      [rewrite Hs in Hin; destruct Hin|].
    destruct Hrest as [Hs | (b & (net' & d & enc & _ & _ & _ & ->) & Hrest)].
    { rewrite Hs in Hin. destruct Hin as [<- | []]. reflexivity. }
    destruct Hrest as [Hs | (h & d' & m & fr & mt & _ & _ & _ & _ & Hs)];
      rewrite Hs in Hin.
    { destruct Hin as [<- | [<- | []]]; reflexivity. }
    destruct Hin as [<- | [<- | [<- | []]]]; reflexivity.
  - intros env p e Hsome. subst e.
    destruct (chosen_recoverFromBurn env p)
      as [Hs | (h & c & rest & He & _ & Hchosen)]; [contradiction|].
    destruct Hchosen as (listing & answer & dw & steps & Hrest & Hpick & Hsigned).
    cbv zeta in Hrest.
    exists h, c, listing, answer, dw, steps. cbv zeta.
    split; [rewrite He, Hrest; reflexivity|]. split; [exact Hpick|].
    intros req Hin. apply Hsigned. rewrite He in Hin. exact Hin.
Qed.

Lemma the_wallets_picked_are_the_wallets_used_witness :
  exists listing answer sourceWallet destinationWallet,
    picked (filter (fun wallet => isSupported (Wallet.blockchain wallet)
                                  && (Wallet.state wallet =? "LIVE"))
                   (walletsIn listing)) answer sourceWallet
    /\ (forall req,
          In req (submitted (evs (performCrossChainTransfer transferScenario start))) ->
          TxRequest.walletId req
          = Wallet.id (if TxRequest.abiFunctionSignature req
                          =? "receiveMessage(bytes,bytes)"
                       then destinationWallet else sourceWallet)).
Proof.
  assert (Hsome : submitted (evs (performCrossChainTransfer transferScenario start)) <> [])
    by (vm_compute; discriminate).
  destruct (proj1 the_wallets_picked_are_the_wallets_used transferScenario start Hsome)
    as (listing & a1 & balances & a2 & sw & dw & rest & _ & Hp1 & _ & Hsigned).
  exists listing, a1, sw, dw. split; [exact Hp1 | exact Hsigned].
Defined.
